(** * Training and evaluation loop of the coral segmentation network

    A shallow embedding of [training.py]: the evaluation pass
    ([evaluateNetwork]), the classifier metadata reader and writer
    ([readClassifierInfo], [writeClassifierInfo]) and the pieces of
    [trainingNetwork] (loss selection, gradient accumulation, best-model
    checkpointing).

    Conventions of the embedding:
    - Python [int] is [Z]; Python and tensor floating-point numbers are exact
      rationals [Q] compared with [==]; rounding is not modelled, and a
      floating-point NaN is written out as [None] where the code produces one.
    - A Python exception is the name of its class; a call either returns
      ([Ok]) or raises ([Raise]).
    - The network, the optimizer, the [losses] module and scikit-learn are
      collaborators of the file: the first three are abstract (section
      variables and records of functions), the two scikit-learn metrics are
      written out from their documented behaviour. *)

From Stdlib Require Import ZArith QArith Lia List String Ascii Bool DecimalString.
From stdpp Require Import base strings gmap.
Import ListNotations.

Local Open Scope Z_scope.

(** ** Exceptions and results *)

Definition exception := string.

Inductive result (A : Type) : Type :=
| Ok (a : A)
| Raise (e : exception).
Arguments Ok {A} a.
Arguments Raise {A} e.

Definition rbind {A B : Type} (r : result A) (k : A -> result B) : result B :=
  match r with
  | Ok a => k a
  | Raise e => Raise e
  end.

Declare Scope result_scope.
Delimit Scope result_scope with result.
Notation "'do' x <- r ; k" := (rbind r (fun x => k))
  (at level 10, x pattern, r at level 100, k at level 200) : result_scope.
Local Open Scope result_scope.

Definition returns {A : Type} (r : result A) : bool :=
  match r with Ok _ => true | Raise _ => false end.

(** ** Numbers *)

(** [a < b] on floats, as a test. *)
Definition Qlt_bool (a b : Q) : bool := negb (Qle_bool b a).

(** [sum] of a sequence of floats. *)
Definition Qsum (l : list Q) : Q := fold_right Qplus 0%Q l.

(** ** The [losses] module and the loss of a training mini-batch *)

Section LossScheduler.

(** Network output tensor and label tensor of one mini-batch. *)
Variables outputs labels : Type.

(** The functions of the [losses] module that [trainingNetwork] calls. *)
Record losses_module : Type := {
  generalized_dice_loss : outputs -> labels -> list Q -> Q;
  dice_loss : outputs -> labels -> Q;
  surface_loss : labels -> outputs -> Q
}.

Variable losses : losses_module.

(** [nn.CrossEntropyLoss(weight=class_weights, ignore_index=-1)]. *)
Variable lossfn : outputs -> labels -> Q.

(** Lines 296-298: the mixing coefficient of the DICE+BOUNDARY policy. *)
Definition mix_alpha (epoch epochs_switch : Z) : Q :=
  let alpha := (1 - inject_Z (epoch - epochs_switch) / 10)%Q in
  if Qlt_bool alpha 0 then 0%Q else alpha.

(** Lines 285-299: the loss of one mini-batch. With an unrecognised
    [loss_to_use] no branch binds [loss] and the following
    [loss.backward()] raises. *)
Definition training_loss (loss_to_use : string) (epoch epochs_switch : Z)
    (w_for_GDL : list Q) (out : outputs) (labels_batch : labels) : result Q :=
  if String.eqb loss_to_use "CROSSENTROPY" then
    Ok (lossfn out labels_batch)
  else if String.eqb loss_to_use "DICE" then
    Ok (generalized_dice_loss losses out labels_batch w_for_GDL)
  else if String.eqb loss_to_use "BOUNDARY" then
    Ok (surface_loss losses labels_batch out)
  else if String.eqb loss_to_use "DICE+BOUNDARY" then
    if epoch <? epochs_switch then
      Ok (generalized_dice_loss losses out labels_batch w_for_GDL)
    else
      let alpha := mix_alpha epoch epochs_switch in
      Ok (alpha * dice_loss losses out labels_batch
          + (1 - alpha) * (3 # 10) * surface_loss losses labels_batch out)%Q
  else Raise "UnboundLocalError".

End LossScheduler.

Arguments generalized_dice_loss {outputs labels} _ _ _ _.
Arguments dice_loss {outputs labels} _ _ _.
Arguments surface_loss {outputs labels} _ _ _.
Arguments training_loss {outputs labels} _ _ _ _ _ _ _ _.

(** Lines 260-263: the class weights of the generalized Dice loss, from the
    per-class weights of the training set. numpy divides by zero without
    raising; the theorems below take the weights positive, where the
    rational and the floating-point division agree. *)
Definition w_for_GDL (dataset_weights : list Q) : list Q :=
  let weights := tl dataset_weights in
  let freq := map (fun x => 1 / x)%Q weights in
  let w := map (fun f => 1 / (f * f))%Q freq in
  let s := Qsum w in
  map (fun x => x / s + (1 # 100000))%Q w.

(** ** Python and numpy helpers *)

(** [l[i]]. *)
Definition py_index {A : Type} (l : list A) (i : nat) : result A :=
  match nth_error l i with
  | Some x => Ok x
  | None => Raise "IndexError"
  end.

(** A loop [for x in l: s = body(x, s)] whose body may raise. *)
Fixpoint for_each {A S : Type} (body : A -> S -> result S) (l : list A) (s : S)
    : result S :=
  match l with
  | [] => Ok s
  | x :: l' => do s' <- body x s; for_each body l' s'
  end.

(** [enumerate(l)], counting from [i]. *)
Fixpoint enumerate_from {A : Type} (i : Z) (l : list A) : list (Z * A) :=
  match l with
  | [] => []
  | x :: l' => (i, x) :: enumerate_from (i + 1) l'
  end.

Definition enumerate {A : Type} (l : list A) : list (Z * A) := enumerate_from 0 l.

(** [s[:k]] on a string, for any integer [k]. *)
Definition py_prefix (s : string) (k : Z) : string :=
  let len := Z.of_nat (String.length s) in
  let stop := if k <? 0 then Z.max 0 (len + k) else Z.min k len in
  String.substring 0 (Z.to_nat stop) s.

Definition Zsum (l : list Z) : Z := fold_right Z.add 0 l.

Definition matrix := list (list Z).

(** [np.zeros((n, n), dtype=int)]. *)
Definition np_zeros (n : nat) : matrix := repeat (repeat 0 n) n.

(** [A += B] on matrices of one shape. *)
Definition mat_add (A B : matrix) : matrix := zip_with (zip_with Z.add) A B.

(** [np.sum(np.diag(A))]. *)
Definition mat_trace (A : matrix) : Z :=
  Zsum (imap (fun i row => nth i row 0) A).

(** [A.sum()]. *)
Definition mat_sum (A : matrix) : Z := Zsum (map Zsum A).

(** [A / A.sum(axis=1).reshape((n, 1))]: each row over its sum. The entries
    are counts, so a row whose sum is zero is a row of 0/0, which numpy
    evaluates to NaN without raising. *)
Definition normalize_rows (A : matrix) : list (list (option Q)) :=
  map (fun row =>
         let sum_row := Zsum row in
         map (fun x => if sum_row =? 0 then None
                       else Some (inject_Z x / inject_Z sum_row)%Q) row) A.

(** ** scikit-learn metrics *)

(** Number of positions whose true label is [t] and predicted label is [p]. *)
Definition count_pairs (t p : Z) (y_true y_pred : list Z) : Z :=
  Z.of_nat (length (List.filter (fun tp => (fst tp =? t) && (snd tp =? p))
                           (combine y_true y_pred))).

Definition count_label (c : Z) (y : list Z) : Z :=
  Z.of_nat (length (List.filter (fun x => x =? c) y)).

(** [sklearn.metrics.confusion_matrix(y_true, y_pred, labels)]: row [i],
    column [j] counts the samples of true label [labels[i]] predicted as
    [labels[j]]; a sample with a label outside [labels] is counted nowhere.
    It refuses arrays of different lengths and a [labels] none of which
    occurs in [y_true] (for an array without any sample, the later
    versions of the library return the matrix of zeros instead). *)
Definition confusion_matrix (y_true y_pred labels : list Z) : result matrix :=
  if negb (length y_true =? length y_pred)%nat then Raise "ValueError"
  else if forallb (fun l => negb (existsb (Z.eqb l) y_true)) labels
  then Raise "ValueError"
  else Ok (map (fun t => map (fun p => count_pairs t p y_true y_pred) labels)
               labels).

(** Intersection over union of class [c]: the samples that are [c] in both
    arrays over those that are [c] in either. *)
Definition class_jaccard (c : Z) (y_true y_pred : list Z) : Q :=
  let tp := count_pairs c c y_true y_pred in
  let den := count_label c y_true + count_label c y_pred - tp in
  if den =? 0 then 0%Q else (inject_Z tp / inject_Z den)%Q.

(** [sklearn.metrics.jaccard_score(y_true, y_pred, average='weighted')]: no
    [labels] is given, so the classes are all the values present in either
    array; the per-class scores are averaged with the class supports (the
    number of true samples of the class) as weights. On empty arrays
    scikit-learn returns NaN; [evaluateNetwork] does not get there, the
    arrays of a split with at least one non-empty batch are not empty. *)
Definition jaccard_score_weighted (y_true y_pred : list Z) : result Q :=
  if negb (length y_true =? length y_pred)%nat then Raise "ValueError"
  else
    let labels := nodup Z.eq_dec (y_true ++ y_pred) in
    let support := map (fun c => inject_Z (count_label c y_true)) labels in
    let scores := map (fun c => class_jaccard c y_true y_pred) labels in
    Ok (Qsum (zip_with Qmult scores support) / Qsum support)%Q.

(** The pixels that count: both arrays without the positions whose true
    label is [ignored]. *)
Definition drop_label (ignored : Z) (y_true y_pred : list Z) : list (Z * Z) :=
  List.filter (fun tp => negb (fst tp =? ignored)) (combine y_true y_pred).

(** ** The evaluation pass *)

(** The computed metrics, the dictionary that [evaluateNetwork] returns. *)
Record metrics : Type := {
  ConfMatrix : matrix;
  NormConfMatrix : list (list (option Q));
  Accuracy : Q;
  JaccardScore : Q
}.

(** The label of the pixels that take no part in the loss: the
    [ignore_index] of the cross-entropy loss. *)
Definition ignore_index : Z := -1.

Section Evaluation.

(** One image tensor, and the output tensor of the network on a batch. *)
Variables image outputs : Type.

(** A batch of the data loader: the images, the label map of each image
    (its pixels in row-major order) and the name of each image. *)
Record batch : Type := {
  batch_image : list image;
  batch_labels : list (list Z);
  batch_name : list string
}.

Record dataloader : Type := {
  batch_size : nat;
  batches : list batch
}.

(** [torch.max(outputs, 1)[1]]: the class of highest score of every pixel,
    as the raveled prediction map of each image of the batch. *)
Variable predictions_of : outputs -> list (list Z).

(** [nn.CrossEntropyLoss(weight=class_weights, ignore_index=-1)], from the
    class weights. *)
Variable CrossEntropyLoss : list Q -> outputs -> list (list Z) -> Q.

(** The local variables of the loop of [evaluateNetwork]; [saved] lists
    the calls of [dataset.saveClassificationResult] as the folder, the
    name and the position in its batch of the image saved. *)
Record eval_state : Type := {
  CM : matrix;
  ypred_list : list Z;
  ytrue_list : list Z;
  loss_values : list Q;
  saved : list (string * string * nat)
}.

Definition eval_init (nclasses : nat) : eval_state :=
  {| CM := np_zeros nclasses; ypred_list := []; ytrue_list := [];
     loss_values := []; saved := [] |}.

(** Lines 85-121: the body of the loop over the batches. *)
Definition eval_batch (weights : list Q) (class_indices : list Z)
    (bsize : nat) (net : list image -> outputs)
    (flagTrainingDataset : bool) (savefolder : string)
    (data : batch) (s : eval_state) : result eval_state :=
  let out := net (batch_image data) in
  let predictions_t := predictions_of out in
  let loss := CrossEntropyLoss weights out (batch_labels data) in
  let s :=
    {| CM := CM s; ypred_list := ypred_list s; ytrue_list := ytrue_list s;
       loss_values := loss_values s ++ [loss]; saved := saved s |} in
  let s :=
    if negb flagTrainingDataset then
      {| CM := CM s;
         ypred_list := ypred_list s ++ concat predictions_t;
         ytrue_list := ytrue_list s ++ concat (batch_labels data);
         loss_values := loss_values s; saved := saved s |}
    else s in
  do s <- for_each
       (fun i s =>
          do pred_index <- py_index predictions_t i;
          do true_index <- py_index (batch_labels data) i;
          do confmat <- confusion_matrix true_index pred_index class_indices;
          Ok {| CM := mat_add (CM s) confmat;
                ypred_list := ypred_list s; ytrue_list := ytrue_list s;
                loss_values := loss_values s; saved := saved s |})
       (seq 0 bsize) s;
  for_each
    (fun i s =>
       if String.eqb savefolder "" then Ok s
       else
         do name <- py_index (batch_name data) i;
         do _ <- py_index (batch_image data) i;
         Ok {| CM := CM s; ypred_list := ypred_list s;
               ytrue_list := ytrue_list s; loss_values := loss_values s;
               saved := saved s ++ [(savefolder, name, i)] |})
    (seq 0 bsize) s.

(** Lines 76-121: the state of the loop after the last batch. *)
Definition eval_loop (loader : dataloader) (weights : list Q) (nclasses : nat)
    (net : list image -> outputs) (flagTrainingDataset : bool)
    (savefolder : string) : result eval_state :=
  let class_indices := map Z.of_nat (seq 0 nclasses) in
  for_each (eval_batch weights class_indices (batch_size loader) net
                       flagTrainingDataset savefolder)
           (batches loader) (eval_init nclasses).

(** Lines 123-148: the metrics, from the state of the loop. *)
Definition eval_metrics (nclasses : nat) (flagTrainingDataset : bool)
    (s : eval_state) : result (metrics * Q) :=
  do mean_loss <-
     (if (length (loss_values s) =? 0)%nat then Raise "ZeroDivisionError"
      else Ok (Qsum (loss_values s)
               / inject_Z (Z.of_nat (length (loss_values s))))%Q);
  do jaccard_s <-
     (if negb flagTrainingDataset
      then jaccard_score_weighted (ytrue_list s) (ypred_list s)
      else Ok 0%Q);
  let CMnorm := normalize_rows (CM s) in
  let pixels_total := mat_sum (CM s) in
  let pixels_correct := mat_trace (CM s) in
  do accuracy <-
     (if pixels_total =? 0 then Raise "ZeroDivisionError"
      else Ok (inject_Z pixels_correct / inject_Z pixels_total)%Q);
  Ok ({| ConfMatrix := CM s; NormConfMatrix := CMnorm;
         Accuracy := accuracy; JaccardScore := jaccard_s |}, mean_loss).

(** [evaluateNetwork]. The class count is a count ([np.zeros] takes no
    negative dimension); moving the tensors between devices, the calls
    of [print] and the switch of the network to evaluation mode leave no
    trace in the result and are not written out. *)
Definition evaluateNetwork (loader : dataloader) (weights : list Q)
    (nclasses : nat) (net : list image -> outputs)
    (flagTrainingDataset : bool) (savefolder : string)
    : result (metrics * Q) :=
  do s <- eval_loop loader weights nclasses net flagTrainingDataset savefolder;
  eval_metrics nclasses flagTrainingDataset s.

End Evaluation.

Arguments batch_image {image} _.
Arguments batch_labels {image} _.
Arguments batch_name {image} _.
Arguments batch_size {image} _.
Arguments batches {image} _.

(** ** Classifier metadata *)

(** The Python values that the metadata functions handle: what [json]
    reads and writes, and numpy arrays. An array is the sequence of values
    it was built from; the element type numpy picks for it is not
    modelled. *)
#[local] Unset Elimination Schemes.
Inductive pyval : Type :=
| PyNone
| PyBool (b : bool)
| PyInt (n : Z)
| PyFloat (x : Q)
| PyStr (s : string)
| PyList (l : list pyval)
| PyDict (d : list (string * pyval))
| NdArray (l : list pyval)
| NdScalar (v : pyval).
#[local] Set Elimination Schemes.

(** [np.array(v)]: a sequence becomes an array, anything else a
    zero-dimensional array. *)
Definition np_array (v : pyval) : pyval :=
  match v with
  | PyList l => NdArray l
  | NdArray l => NdArray l
  | NdScalar x => NdScalar x
  | _ => NdScalar v
  end.

(** [list(v)]. *)
Definition py_list (v : pyval) : result pyval :=
  match v with
  | PyList l => Ok (PyList l)
  | NdArray l => Ok (PyList l)
  | PyStr s =>
      Ok (PyList (map (fun c => PyStr (String c EmptyString))
                      (list_ascii_of_string s)))
  | PyDict d => Ok (PyList (map (fun kv => PyStr (fst kv)) d))
  | _ => Raise "TypeError"
  end.

Fixpoint assoc {V : Type} (key : string) (d : list (string * V)) : option V :=
  match d with
  | [] => None
  | (k, v) :: d' => if String.eqb k key then Some v else assoc key d'
  end.

(** [v[key]] for a string [key]. *)
Definition py_getitem (v : pyval) (key : string) : result pyval :=
  match v with
  | PyDict d =>
      match assoc key d with
      | Some x => Ok x
      | None => Raise "KeyError"
      end
  | NdArray _ | NdScalar _ => Raise "IndexError"
  | _ => Raise "TypeError"
  end.

(** The four attributes of a [CoralsDataset] that the metadata holds. *)
Record dataset : Type := {
  num_classes : pyval;
  weights : pyval;
  dataset_average : pyval;
  dict_target : pyval
}.

(** The files by name, and what was printed. *)
Record world : Type := {
  files : gmap string string;
  stdout : list string
}.

Definition print (line : string) (w : world) : world :=
  {| files := files w; stdout := stdout w ++ [line] |}.

Definition write_file (filename text : string) (w : world) : world :=
  {| files := <[filename := text]> (files w); stdout := stdout w |}.

Section ClassifierInfo.

(** [json.dumps] and [json.loads]: the text of a value, and the value of a
    text. *)
Variable json_dumps : pyval -> result string.
Variable json_loads : string -> result pyval.

(** [readClassifierInfo]: the outcome of the call, the dataset object and
    the world after it. An assignment made before an exception stays. *)
Definition readClassifierInfo (filename : string) (ds : dataset) (w : world)
    : result unit * dataset * world :=
  match files w !! filename with
  | None => (Raise "FileNotFoundError", ds, w)
  | Some text =>
      match json_loads text with
      | Raise e =>
          if String.eqb e "JSONDecodeError"
          then (Ok tt, ds, print "File not found (!)" w)
          else (Raise e, ds, w)
      | Ok loaded_dict =>
          match py_getitem loaded_dict "Num. Classes" with
          | Raise e => (Raise e, ds, w)
          | Ok v =>
              let ds := {| num_classes := v; weights := weights ds;
                           dataset_average := dataset_average ds;
                           dict_target := dict_target ds |} in
              match py_getitem loaded_dict "Weights" with
              | Raise e => (Raise e, ds, w)
              | Ok v =>
                  let ds := {| num_classes := num_classes ds;
                               weights := np_array v;
                               dataset_average := dataset_average ds;
                               dict_target := dict_target ds |} in
                  match py_getitem loaded_dict "Average" with
                  | Raise e => (Raise e, ds, w)
                  | Ok v =>
                      let ds := {| num_classes := num_classes ds;
                                   weights := weights ds;
                                   dataset_average := np_array v;
                                   dict_target := dict_target ds |} in
                      match py_getitem loaded_dict "Classes" with
                      | Raise e => (Raise e, ds, w)
                      | Ok v =>
                          (Ok tt,
                           {| num_classes := num_classes ds;
                              weights := weights ds;
                              dataset_average := dataset_average ds;
                              dict_target := v |}, w)
                      end
                  end
              end
          end
      end
  end.

(** Lines 168-174: the dictionary that is written. *)
Definition dict_to_save (classifier_name : string) (ds : dataset)
    : result pyval :=
  do weights_list <- py_list (weights ds);
  do average_list <- py_list (dataset_average ds);
  Ok (PyDict [("Classifier Name"%string, PyStr classifier_name);
              ("Weights"%string, weights_list);
              ("Average"%string, average_list);
              ("Num. Classes"%string, num_classes ds);
              ("Classes"%string, dict_target ds)]).

(** [writeClassifierInfo]: the text is built before the file is opened. *)
Definition writeClassifierInfo (filename classifier_name : string)
    (ds : dataset) (w : world) : result unit * world :=
  match dict_to_save classifier_name ds with
  | Raise e => (Raise e, w)
  | Ok d =>
      match json_dumps d with
      | Raise e => (Raise e, w)
      | Ok str => (Ok tt, write_file filename str w)
      end
  end.

End ClassifierInfo.

(** ** The training loop *)

(** The calls that touch the accumulated gradients, in the order they are
    made: [optimizer.zero_grad()], [loss.backward()], [optimizer.step()]. *)
Inductive call : Type :=
| ZeroGrad
| Backward
| Step.

(** The accumulation counts at the steps of [calls], when [acc] backward
    passes are pending before the first of them. *)
Fixpoint pending (calls : list call) (acc : nat) : list nat :=
  match calls with
  | [] => []
  | ZeroGrad :: cs => pending cs 0
  | Backward :: cs => pending cs (S acc)
  | Step :: cs => acc :: pending cs acc
  end.

(** For every [Step] of a sequence of calls, the number of [Backward] calls
    whose gradients it applies: those made since the last [ZeroGrad]. *)
Definition accumulated_at_steps (calls : list call) : list nat :=
  pending calls 0.

(** The calls between two optimizer steps: [m] backward passes, the step,
    and the reset of the gradients. *)
Definition accumulation_block (m : nat) : list call :=
  repeat Backward m ++ [Step; ZeroGrad].

Section Training.

Variables image outputs network : Type.

(** PyTorch, as far as the loop calls it. [network] stands for the
    parameters, their accumulated gradients and the state of the
    optimizer and of the learning-rate scheduler. [backward] takes the
    batch of images and the loss as a function of the output. *)
Record torch_api : Type := {
  forward : network -> list image -> outputs;
  predictions_of : outputs -> list (list Z);
  CrossEntropyLoss : list Q -> outputs -> list (list Z) -> Q;
  backward : network -> list image -> (outputs -> result Q) -> network;
  optimizer_step : network -> network;
  optimizer_zero_grad : network -> network;
  scheduler_step : network -> Q -> network
}.

(** What the run leaves on disk: [torch.save(net.state_dict(), filename)]
    and [saveMetrics(metrics, filename)]. The layout of the report is not
    written out. *)
Inductive disk_write : Type :=
| TorchSave (filename : string) (net : network)
| SaveMetrics (filename : string) (m : metrics).

Definition saveMetrics (m : metrics) (filename : string) : disk_write :=
  SaveMetrics filename m.

(** The variables of [trainingNetwork] that change during the run;
    [scalars] collects the calls of [writer.add_scalar]. *)
Record train_state : Type := {
  net : network;
  calls : list call;
  running_loss : Q;
  best_accuracy : Q;
  best_jaccard_score : Q;
  disk : list disk_write;
  scalars : list (string * Q * Z)
}.

Definition with_net (f : network -> network) (c : list call)
    (st : train_state) : train_state :=
  {| net := f (net st); calls := calls st ++ c;
     running_loss := running_loss st; best_accuracy := best_accuracy st;
     best_jaccard_score := best_jaccard_score st; disk := disk st;
     scalars := scalars st |}.

Definition with_running_loss (x : Q) (st : train_state) : train_state :=
  {| net := net st; calls := calls st; running_loss := x;
     best_accuracy := best_accuracy st;
     best_jaccard_score := best_jaccard_score st; disk := disk st;
     scalars := scalars st |}.

Definition add_scalar (tag : string) (x : Q) (step : Z) (st : train_state)
    : train_state :=
  {| net := net st; calls := calls st; running_loss := running_loss st;
     best_accuracy := best_accuracy st;
     best_jaccard_score := best_jaccard_score st; disk := disk st;
     scalars := scalars st ++ [(tag, x, step)] |}.

(** Lines 256-257 and the state before the first epoch. *)
Definition train_init (net0 : network) : train_state :=
  {| net := net0; calls := []; running_loss := 0%Q; best_accuracy := 0%Q;
     best_jaccard_score := 0%Q; disk := []; scalars := [] |}.

Variable torch : torch_api.
Variable losses : losses_module outputs (list (list Z)).

(** The arguments of [trainingNetwork] and the data it sets up. The
    training loader is taken to yield the same batches at every pass. *)
Variable dataloaderTrain dataloaderVal : dataloader image.
Variable dataset_weights : list Q.
Variable dataset_num_classes : nat.
Variable save_network_as : string.
Variable batch_mult validation_frequency epochs_switch : Z.
Variable loss_to_use : string.

(** Lines 275-309: one mini-batch. *)
Definition train_batch (epoch : Z) (im : Z * batch image) (st : train_state)
    : result train_state :=
  let i := fst im in
  let minibatch := snd im in
  let images_batch := batch_image minibatch in
  let labels_batch := batch_labels minibatch in
  let out := forward torch (net st) images_batch in
  let loss_of := fun o =>
    training_loss losses (CrossEntropyLoss torch dataset_weights)
                  loss_to_use epoch epochs_switch (w_for_GDL dataset_weights)
                  o labels_batch in
  do loss <- loss_of out;
  let st := with_net (fun n => backward torch n images_batch loss_of)
                     [Backward] st in
  do st <-
     (if batch_mult =? 0 then Raise "ZeroDivisionError"
      else if (i + 1) mod batch_mult =? 0 then
        Ok (with_net (optimizer_zero_grad torch) [ZeroGrad]
              (with_net (optimizer_step torch) [Step] st))
      else Ok st);
  Ok (with_running_loss (running_loss st + loss)%Q st).

(** Lines 270-309: the training part of one epoch. *)
Definition train_epoch (epoch : Z) (st : train_state) : result train_state :=
  let st := with_net (optimizer_zero_grad torch) [ZeroGrad] st in
  let st := with_running_loss 0%Q st in
  for_each (train_batch epoch) (enumerate (batches dataloaderTrain)) st.

(** Lines 334-343: the best network so far is kept. *)
Definition checkpoint (metrics_val metrics_train : metrics)
    (st : train_state) : train_state :=
  let accuracy := Accuracy metrics_val in
  let jaccard_score := JaccardScore metrics_val in
  if Qlt_bool (best_jaccard_score st) jaccard_score then
    let stem :=
      py_prefix save_network_as
                (Z.of_nat (String.length save_network_as) - 4) in
    {| net := net st; calls := calls st; running_loss := running_loss st;
       best_accuracy := accuracy;
       best_jaccard_score := jaccard_score;
       disk := disk st
               ++ [TorchSave save_network_as (net st);
                   saveMetrics metrics_val (stem ++ "-val-metrics.txt");
                   saveMetrics metrics_train (stem ++ "-train-metrics.txt")];
       scalars := scalars st |}
  else st.

(** Lines 319-343: validation, after the training part of an epoch. *)
Definition validation (epoch : Z) (st : train_state) : result train_state :=
  do mv <- evaluateNetwork image outputs (predictions_of torch)
             (CrossEntropyLoss torch) dataloaderVal dataset_weights
             dataset_num_classes (forward torch (net st)) false "";
  let metrics_val := fst mv in
  let mean_loss_val := snd mv in
  let accuracy := Accuracy metrics_val in
  let st := with_net (fun n => scheduler_step torch n mean_loss_val) [] st in
  do mt <- evaluateNetwork image outputs (predictions_of torch)
             (CrossEntropyLoss torch) dataloaderTrain dataset_weights
             dataset_num_classes (forward torch (net st)) true "";
  let metrics_train := fst mt in
  let mean_loss_train := snd mt in
  let accuracy_training := Accuracy metrics_train in
  let st := add_scalar "Loss/train" mean_loss_train epoch st in
  let st := add_scalar "Loss/validation" mean_loss_val epoch st in
  let st := add_scalar "Accuracy/train" accuracy_training epoch st in
  let st := add_scalar "Accuracy/validation" accuracy epoch st in
  Ok (checkpoint metrics_val metrics_train st).

(** Lines 268-345: one epoch. [and] does not evaluate its second operand
    at epoch 0. *)
Definition training_epoch (epoch : Z) (st : train_state)
    : result train_state :=
  do st <- train_epoch epoch st;
  if 0 <? epoch then
    if validation_frequency =? 0 then Raise "ZeroDivisionError"
    else if (epoch + 1) mod validation_frequency =? 0
         then validation epoch st
         else Ok st
  else Ok st.

(** Lines 268-345: [for epoch in range(epochs)]. *)
Definition training_loop (epochs : Z) (st : train_state)
    : result train_state :=
  for_each training_epoch (map Z.of_nat (seq 0 (Z.to_nat epochs))) st.

(** [trainingNetwork], from the first epoch on. What comes before the loop
    (the datasets and their loaders, the network, the optimizer, the
    metadata file) is the arguments of the section; the summary written
    after the loop is read off the final state. *)
Definition trainingNetwork (epochs : Z) (net0 : network)
    : result train_state :=
  training_loop epochs (train_init net0).

(** The validation passes of a run, as far as the checkpoints go: the
    metrics of the validation and of the training split of each pass. *)
Definition checkpoints (passes : list (metrics * metrics))
    (st : train_state) : train_state :=
  fold_left (fun st p => checkpoint (fst p) (snd p) st) passes st.

End Training.

Arguments forward {image outputs network} _ _ _.
Arguments backward {image outputs network} _ _ _ _.
Arguments optimizer_step {image outputs network} _ _.
Arguments optimizer_zero_grad {image outputs network} _ _.
Arguments scheduler_step {image outputs network} _ _ _.
Arguments TorchSave {network} filename net.
Arguments SaveMetrics {network} filename m.
Arguments saveMetrics {network} m filename.
Arguments net {network} _.
Arguments calls {network} _.
Arguments running_loss {network} _.
Arguments best_accuracy {network} _.
Arguments best_jaccard_score {network} _.
Arguments disk {network} _.
Arguments scalars {network} _.
Arguments train_init {network} net0.
Arguments checkpoint {network} save_network_as metrics_val metrics_train st.
Arguments checkpoints {network} save_network_as passes st.
Arguments train_batch {image outputs network} _ _ _ _ _ _ _ _ _.
Arguments train_epoch {image outputs network} _ _ _ _ _ _ _ _ _.
Arguments validation {image outputs network} _ _ _ _ _ _ _ _.
Arguments training_epoch {image outputs network} _ _ _ _ _ _ _ _ _ _ _ _ _.
Arguments training_loop {image outputs network} _ _ _ _ _ _ _ _ _ _ _ _ _.
Arguments trainingNetwork {image outputs network} _ _ _ _ _ _ _ _ _ _ _ _ _.

(** ** A small instance of the collaborators

    Used by the examples below: images that carry their own prediction, a
    network that copies it to its output, and losses on hard predictions. *)

Module Sample.

(** The image is the prediction map the network gives for it. *)
Definition image := list Z.
Definition outputs := list (list Z).

Definition net (images : list image) : outputs := images.

(** Twice the overlap of class [c] over the sizes of the class in the two
    maps: the terms of the Dice coefficient. *)
Definition overlap (c : Z) (out : outputs) (lab : list (list Z)) : Q :=
  inject_Z (2 * count_pairs c c (concat lab) (concat out)).

Definition sizes (c : Z) (out : outputs) (lab : list (list Z)) : Q :=
  inject_Z (count_label c (concat lab) + count_label c (concat out)).

(** Classes 1, 2, ... of a weight vector that leaves out class 0. *)
Definition foreground (w : list Q) : list Z :=
  map Z.of_nat (seq 1 (length w)).

Definition generalized_dice (out : outputs) (lab : list (list Z))
    (w : list Q) : Q :=
  (1 - Qsum (zip_with Qmult w (map (fun c => overlap c out lab) (foreground w)))
       / Qsum (zip_with Qmult w (map (fun c => sizes c out lab) (foreground w))))%Q.

Definition dice (out : outputs) (lab : list (list Z)) : Q :=
  (1 - overlap 1 out lab / sizes 1 out lab)%Q.

(** The share of the pixels that are predicted wrongly. *)
Definition surface (lab : list (list Z)) (out : outputs) : Q :=
  (1 - inject_Z (Zsum (map (fun c => count_pairs c c (concat lab) (concat out))
                           (nodup Z.eq_dec (concat lab))))
       / inject_Z (Z.of_nat (length (concat lab))))%Q.

Definition losses : losses_module outputs (list (list Z)) :=
  {| generalized_dice_loss := generalized_dice;
     dice_loss := dice;
     surface_loss := surface |}.

(** The share of wrong predictions among the pixels that are not
    ignored. *)
Definition cross_entropy (weights : list Q) (out : outputs)
    (lab : list (list Z)) : Q :=
  let scored := List.filter (fun tp => negb (fst tp =? ignore_index))
                       (combine (concat lab) (concat out)) in
  let wrong := List.filter (fun tp => negb (fst tp =? snd tp)) scored in
  (inject_Z (Z.of_nat (length wrong)) / inject_Z (Z.of_nat (length scored)))%Q.

Definition one_batch (predicted truth : list Z) : batch image :=
  {| batch_image := [predicted]; batch_labels := [truth];
     batch_name := ["tile"%string] |}.

Definition loader (bs : list (batch image)) : dataloader image :=
  {| batch_size := 1; batches := bs |}.

(** A network that counts the optimizer steps applied to it. *)
Definition torch : torch_api image outputs nat :=
  {| forward := fun _ images => net images;
     predictions_of := fun out => out;
     CrossEntropyLoss := cross_entropy;
     backward := fun n _ _ => n;
     optimizer_step := S;
     optimizer_zero_grad := fun n => n;
     scheduler_step := fun n _ => n |}.

(** The metrics of a pass whose Jaccard score is [j]. *)
Definition scored (j : Q) : metrics :=
  {| ConfMatrix := [[1]]; NormConfMatrix := [[Some 1%Q]];
     Accuracy := j; JaccardScore := j |}.

Definition evaluate (bs : list (batch image)) (nclasses : nat)
    (flagTrainingDataset : bool) : result (metrics * Q) :=
  evaluateNetwork image outputs (fun out => out) cross_entropy (loader bs)
                  [] nclasses net flagTrainingDataset "".

End Sample.

(** ** A small JSON codec

    Used by the round-trip example: the text of a value as [json.dumps]
    lays it out (floats with a finite decimal expansion only), and a reader
    of such texts. *)

Module SampleJson.

Local Open Scope string_scope.

Definition quote : ascii := ascii_of_nat 34.
Definition backslash : ascii := ascii_of_nat 92.

Definition string_of_Z (n : Z) : string :=
  DecimalString.NilZero.string_of_int (Z.to_int n).

Definition pad_zeros (k : nat) (s : string) : string :=
  String.concat "" (repeat "0" (k - String.length s)) ++ s.

(** The least number of decimal places, from [k] on, that write a
    fraction of denominator [d] out. *)
Fixpoint decimal_places (fuel k : nat) (d : Z) : option nat :=
  match fuel with
  | O => None
  | S fuel' =>
      if ((10 ^ Z.of_nat k) mod d =? 0)%Z then Some k
      else decimal_places fuel' (S k) d
  end.

Definition string_of_float (x : Q) : result string :=
  let x := Qred x in
  let n := Qnum x in
  let d := Z.pos (Qden x) in
  match decimal_places 20 1 d with
  | None => Raise "ValueError"
  | Some k =>
      let unit := 10 ^ Z.of_nat k in
      let scaled := Z.abs n * (unit / d) in
      Ok ((if (n <? 0)%Z then "-" else "")
          ++ string_of_Z (scaled / unit) ++ "."
          ++ pad_zeros k (string_of_Z (scaled mod unit)))
  end.

Fixpoint escape (s : string) : string :=
  match s with
  | EmptyString => EmptyString
  | String c s' =>
      if Ascii.eqb c quote || Ascii.eqb c backslash
      then String backslash (String c (escape s'))
      else String c (escape s')
  end.

Definition quoted (s : string) : string :=
  String quote (escape s ++ String quote EmptyString).

Fixpoint dumps (v : pyval) : result string :=
  match v with
  | PyNone => Ok "null"
  | PyBool b => Ok (if b then "true" else "false")
  | PyInt n => Ok (string_of_Z n)
  | PyFloat x => string_of_float x
  | PyStr s => Ok (quoted s)
  | PyList l =>
      do items <-
         (fix items (l : list pyval) : result (list string) :=
            match l with
            | [] => Ok []
            | x :: l' =>
                do sx <- dumps x; do r <- items l'; Ok (sx :: r)
            end) l;
      Ok ("[" ++ String.concat ", " items ++ "]")
  | PyDict d =>
      do items <-
         (fix items (d : list (string * pyval)) : result (list string) :=
            match d with
            | [] => Ok []
            | (k, x) :: d' =>
                do sx <- dumps x; do r <- items d';
                Ok ((quoted k ++ ": " ++ sx) :: r)
            end) d;
      Ok ("{" ++ String.concat ", " items ++ "}")
  | NdArray _ | NdScalar _ => Raise "TypeError"
  end.

Definition is_space (c : ascii) : bool :=
  Ascii.eqb c " " || Ascii.eqb c (ascii_of_nat 10)
  || Ascii.eqb c (ascii_of_nat 13) || Ascii.eqb c (ascii_of_nat 9).

Fixpoint skip_space (s : string) : string :=
  match s with
  | String c s' => if is_space c then skip_space s' else s
  | EmptyString => s
  end.

Definition digit_of (c : ascii) : option Z :=
  let n := Z.of_nat (nat_of_ascii c) in
  if ((48 <=? n) && (n <=? 57))%Z then Some (n - 48) else None.

(** The digits at the head of [s]: their value after [acc], how many
    they are, and the rest of [s]. *)
Fixpoint read_digits (s : string) (acc : Z) (count : nat)
    : Z * nat * string :=
  match s with
  | String c s' =>
      match digit_of c with
      | Some d => read_digits s' (10 * acc + d) (S count)
      | None => (acc, count, s)
      end
  | EmptyString => (acc, count, s)
  end.

Definition read_number (s : string) : option (pyval * string) :=
  let negative := match s with String "-" _ => true | _ => false end in
  let s := match s with String "-" s' => s' | _ => s end in
  let sign := if negative then -1 else 1 in
  match read_digits s 0 0 with
  | (_, O, _) => None
  | (i, _, String "." rest) =>
      match read_digits rest 0 0 with
      | (_, O, _) => None
      | (f, k, rest') =>
          let unit := 10 ^ Z.of_nat k in
          Some (PyFloat (Qred (sign * (i * unit + f) # Z.to_pos unit)), rest')
      end
  | (i, _, rest) => Some (PyInt (sign * i), rest)
  end.

(** The string that ends at the next quote, and what follows it. *)
Fixpoint read_string (s : string) : option (string * string) :=
  match s with
  | EmptyString => None
  | String c s' =>
      if Ascii.eqb c quote then Some (EmptyString, s')
      else if Ascii.eqb c backslash then
        match s' with
        | String c' s'' =>
            match read_string s'' with
            | Some (r, rest) => Some (String c' r, rest)
            | None => None
            end
        | EmptyString => None
        end
      else
        match read_string s' with
        | Some (r, rest) => Some (String c r, rest)
        | None => None
        end
  end.

Definition literal (word : string) (v : pyval) (s : string)
    : option (pyval * string) :=
  if String.prefix word s
  then Some (v, String.substring (String.length word)
                                 (String.length s - String.length word) s)
  else None.

Fixpoint read_value (fuel : nat) (s : string) : option (pyval * string) :=
  match fuel with
  | O => None
  | S fuel' =>
      match skip_space s with
      | EmptyString => None
      | String c s' =>
          if Ascii.eqb c quote then
            match read_string s' with
            | Some (r, rest) => Some (PyStr r, rest)
            | None => None
            end
          else if Ascii.eqb c "[" then
            match skip_space s' with
            | String "]" rest => Some (PyList [], rest)
            | _ =>
                match read_items fuel' s' with
                | Some (l, rest) => Some (PyList l, rest)
                | None => None
                end
            end
          else if Ascii.eqb c "{" then
            match skip_space s' with
            | String "}" rest => Some (PyDict [], rest)
            | _ =>
                match read_members fuel' s' with
                | Some (d, rest) => Some (PyDict d, rest)
                | None => None
                end
            end
          else if Ascii.eqb c "n" then literal "null" PyNone (String c s')
          else if Ascii.eqb c "t" then literal "true" (PyBool true) (String c s')
          else if Ascii.eqb c "f" then literal "false" (PyBool false) (String c s')
          else read_number (String c s')
      end
  end
with read_items (fuel : nat) (s : string) : option (list pyval * string) :=
  match fuel with
  | O => None
  | S fuel' =>
      match read_value fuel' s with
      | Some (v, rest) =>
          match skip_space rest with
          | String "," rest' =>
              match read_items fuel' rest' with
              | Some (l, rest'') => Some (v :: l, rest'')
              | None => None
              end
          | String "]" rest' => Some ([v], rest')
          | _ => None
          end
      | None => None
      end
  end
with read_members (fuel : nat) (s : string)
    : option (list (string * pyval) * string) :=
  match fuel with
  | O => None
  | S fuel' =>
      match skip_space s with
      | String c s' =>
          if Ascii.eqb c quote then
            match read_string s' with
            | Some (key, rest) =>
                match skip_space rest with
                | String ":" rest' =>
                    match read_value fuel' rest' with
                    | Some (v, rest'') =>
                        match skip_space rest'' with
                        | String "," rest3 =>
                            match read_members fuel' rest3 with
                            | Some (d, rest4) => Some ((key, v) :: d, rest4)
                            | None => None
                            end
                        | String "}" rest3 => Some ([(key, v)], rest3)
                        | _ => None
                        end
                    | None => None
                    end
                | _ => None
                end
            | None => None
            end
          else None
      | EmptyString => None
      end
  end.

Definition loads (s : string) : result pyval :=
  match read_value (S (String.length s)) s with
  | Some (v, rest) =>
      match skip_space rest with
      | EmptyString => Ok v
      | _ => Raise "JSONDecodeError"
      end
  | None => Raise "JSONDecodeError"
  end.

End SampleJson.

(** ** Relating two runs *)

(** Two outcomes agree: both return, with related values, or both raise
    the same exception. *)
Definition result_rel {A B : Type} (R : A -> B -> Prop)
    (r1 : result A) (r2 : result B) : Prop :=
  match r1, r2 with
  | Ok a, Ok b => R a b
  | Raise e1, Raise e2 => e1 = e2
  | _, _ => False
  end.

(** The state of the evaluation loop apart from the two label buffers. *)
Definition same_but_buffers (s t : eval_state) : Prop :=
  CM s = CM t /\ loss_values s = loss_values t /\ saved s = saved t.

(** A matrix of [n] rows of [n] counts. *)
Definition count_matrix (n : nat) (M : matrix) : Prop :=
  length M = n
  /\ Forall (fun row => length row = n /\ Forall (fun x => 0 <= x) row) M.

(** A row of the normalized matrix, against the row of counts it comes
    from: all NaN when the counts sum to zero, otherwise shares that sum
    to one. *)
Definition normalized_row (row : list Z) (nrow : list (option Q)) : Prop :=
  if Zsum row =? 0 then nrow = map (fun _ => None) row
  else exists shares : list Q,
         nrow = map Some shares
         /\ length shares = length row
         /\ (Qsum shares == 1)%Q.

(** The number of epochs of a run of [epochs] epochs that end with a
    validation: the epochs whose number plus one is a multiple of the
    frequency, the first epoch left out. *)
Definition validation_passes (epochs validation_frequency : Z) : Z :=
  if validation_frequency =? 1 then Z.max 0 (epochs - 1)
  else epochs / validation_frequency.

(** The table of the counts of every pair of classes over two arrays of
    labels. *)
Definition count_table (labels y_true y_pred : list Z) : matrix :=
  map (fun t => map (fun p => count_pairs t p y_true y_pred) labels) labels.

(** A pair (true label, predicted label) both of whose labels are classes
    of a network of [nclasses] classes. *)
Definition both_classes (nclasses : nat) (tp : Z * Z) : bool :=
  ((0 <=? fst tp) && (fst tp <? Z.of_nat nclasses))
  && ((0 <=? snd tp) && (snd tp <? Z.of_nat nclasses)).

(** The state of the evaluation loop apart from the saved results. *)
Definition same_but_saved (s t : eval_state) : Prop :=
  CM s = CM t /\ ypred_list s = ypred_list t /\ ytrue_list s = ytrue_list t
  /\ loss_values s = loss_values t.

(** * Properties *)

(** ** Numbers *)

Lemma Qlt_bool_iff (a b : Q) : Qlt_bool a b = true <-> (a < b)%Q.
Proof.
  unfold Qlt_bool. rewrite negb_true_iff. split.
  - intros H. apply Qnot_le_lt. intros Hle.
    apply Qle_bool_iff in Hle. congruence.
  - intros H. destruct (Qle_bool b a) eqn:E; [|reflexivity].
    apply Qle_bool_iff in E. exfalso. exact (Qlt_not_le _ _ H E).
Qed.

Lemma Qlt_bool_false_iff (a b : Q) : Qlt_bool a b = false <-> (b <= a)%Q.
Proof. unfold Qlt_bool. rewrite negb_false_iff. apply Qle_bool_iff. Qed.

Lemma Qsum_app (l1 l2 : list Q) : (Qsum (l1 ++ l2) == Qsum l1 + Qsum l2)%Q.
Proof.
  induction l1 as [|x l1 IH]; simpl.
  - ring.
  - rewrite IH. ring.
Qed.

Lemma Qsum_pos (l : list Q) :
  l <> [] -> Forall (fun x => 0 < x)%Q l -> (0 < Qsum l)%Q.
Proof.
  intros Hne Hpos. destruct l as [|x l]; [congruence|]. clear Hne.
  revert x Hpos. induction l as [|y l IH]; intros x Hpos; simpl.
  - inversion Hpos; subst. rewrite Qplus_0_r. assumption.
  - inversion Hpos as [|? ? Hx Hrest]; subst.
    apply Qlt_trans with (y := (0 + Qsum (y :: l))%Q).
    + rewrite Qplus_0_l. apply IH. assumption.
    + apply Qplus_lt_le_compat; [assumption | apply Qle_refl].
Qed.

(** Dividing every element by [s] and adding [e] to it moves the sum to
    [sum / s] plus [e] for every element. *)
Lemma Qsum_scale_shift (s e : Q) (l : list Q) :
  (Qsum (map (fun x => x / s + e) l)
   == Qsum l / s + inject_Z (Z.of_nat (length l)) * e)%Q.
Proof.
  induction l as [|x l IH].
  - simpl. unfold Qdiv. ring.
  - cbn [map Qsum fold_right length]. fold (Qsum l).
    fold (Qsum (map (fun x => x / s + e)%Q l)). rewrite IH.
    rewrite Nat2Z.inj_succ. unfold Z.succ. rewrite inject_Z_plus.
    unfold Qdiv. ring.
Qed.

(** ** The loss of a training mini-batch *)

Section LossFacts.

Context {outputs labels : Type}.
Variable L : losses_module outputs labels.
Variable lossfn : outputs -> labels -> Q.

Lemma mix_alpha_at_switch (epoch : Z) : (mix_alpha epoch epoch == 1)%Q.
Proof.
  unfold mix_alpha. rewrite Z.sub_diag.
  change (Qlt_bool (1 - inject_Z 0 / 10) 0) with false. cbv beta iota.
  reflexivity.
Qed.

Lemma mix_alpha_clamped (epoch epochs_switch : Z) :
  epochs_switch + 10 <= epoch -> (mix_alpha epoch epochs_switch == 0)%Q.
Proof.
  intros H. unfold mix_alpha.
  destruct (Qlt_bool (1 - inject_Z (epoch - epochs_switch) / 10) 0) eqn:E.
  - reflexivity.
  - apply Qlt_bool_false_iff in E. apply Qle_antisym; [|exact E].
    unfold Qle, Qminus, Qplus, Qdiv, Qmult, Qinv, Qopp, inject_Z. simpl. lia.
Qed.

Lemma mix_alpha_range (epoch epochs_switch : Z) :
  epochs_switch <= epoch ->
  (0 <= mix_alpha epoch epochs_switch <= 1)%Q.
Proof.
  intros H. unfold mix_alpha.
  destruct (Qlt_bool (1 - inject_Z (epoch - epochs_switch) / 10) 0) eqn:E.
  - split; [apply Qle_refl | discriminate].
  - apply Qlt_bool_false_iff in E. split; [exact E|].
    unfold Qle, Qminus, Qplus, Qdiv, Qmult, Qinv, Qopp, inject_Z. simpl. lia.
Qed.

Lemma training_loss_blend (epoch epochs_switch : Z) (w : list Q)
    (out : outputs) (lab : labels) :
  epochs_switch <= epoch ->
  training_loss L lossfn "DICE+BOUNDARY" epoch epochs_switch w out lab
  = Ok (mix_alpha epoch epochs_switch * dice_loss L out lab
        + (1 - mix_alpha epoch epochs_switch) * (3 # 10)
          * surface_loss L lab out)%Q.
Proof.
  intros H. unfold training_loss. cbn [String.eqb Ascii.eqb Bool.eqb].
  replace (epoch <? epochs_switch) with false; [reflexivity|].
  symmetry. apply Z.ltb_ge. exact H.
Qed.

Lemma training_loss_before_switch (epoch epochs_switch : Z) (w : list Q)
    (out : outputs) (lab : labels) :
  epoch < epochs_switch ->
  training_loss L lossfn "DICE+BOUNDARY" epoch epochs_switch w out lab
  = Ok (generalized_dice_loss L out lab w).
Proof.
  intros H. unfold training_loss. cbn [String.eqb Ascii.eqb Bool.eqb].
  replace (epoch <? epochs_switch) with true; [reflexivity|].
  symmetry. apply Z.ltb_lt. exact H.
Qed.

End LossFacts.

(** C1. At [epoch = epochs_switch] the DICE+BOUNDARY loss is the value of
    [losses.dice_loss(outputs, labels_batch)]: the branch taken is the
    blend, whose Dice term is the plain Dice loss and takes no class
    weights, so the loss at the switch epoch is not the generalized Dice
    loss with [w_for_GDL] that every epoch before it uses. *)
Theorem switch_epoch_uses_plain_dice :
  forall (outputs labels : Type) (L : losses_module outputs labels)
         (lossfn : outputs -> labels -> Q) (epochs_switch : Z)
         (w : list Q) (out : outputs) (lab : labels),
    (forall before : positive,
        training_loss L lossfn "DICE+BOUNDARY"
                      (epochs_switch - Z.pos before) epochs_switch w out lab
        = Ok (generalized_dice_loss L out lab w))
    /\ (exists loss : Q,
           training_loss L lossfn "DICE+BOUNDARY"
                         epochs_switch epochs_switch w out lab = Ok loss
           /\ (loss == dice_loss L out lab)%Q)
    /\ (forall w' : list Q,
           training_loss L lossfn "DICE+BOUNDARY"
                         epochs_switch epochs_switch w' out lab
           = training_loss L lossfn "DICE+BOUNDARY"
                           epochs_switch epochs_switch w out lab).
Proof.
  intros outputs labels L lossfn epochs_switch w out lab. split; [|split].
  - intros before. apply training_loss_before_switch. lia.
  - eexists. split.
    + apply training_loss_blend. lia.
    + rewrite mix_alpha_at_switch. ring.
  - intros w'. rewrite !training_loss_blend by lia. reflexivity.
Qed.

(** On a batch of one image of two pixels, with the settings of [main]
    (switch at epoch 8), the loss at epoch 7 and the loss at epoch 8 differ:
    the first weighs the classes, the second does not. *)
Example switch_epoch_differs_from_generalized_dice :
  let out := [[1; 2]] in
  let lab := [[1; 1]] in
  let w := w_for_GDL [1 # 2; 1 # 4; 1 # 4] in
  exists before at_switch : Q,
    training_loss Sample.losses (Sample.cross_entropy []) "DICE+BOUNDARY"
                  7 8 w out lab = Ok before
    /\ training_loss Sample.losses (Sample.cross_entropy []) "DICE+BOUNDARY"
                     8 8 w out lab = Ok at_switch
    /\ ~ (before == at_switch)%Q.
Proof.
  cbv zeta. eexists. eexists. split; [reflexivity|]. split; [reflexivity|].
  vm_compute. discriminate.
Qed.

(** C4. From ten epochs after the switch on, the mixing coefficient is 0
    and the DICE+BOUNDARY loss is 0.3 times the surface loss. *)
Theorem boundary_only_after_decay :
  forall (outputs labels : Type) (L : losses_module outputs labels)
         (lossfn : outputs -> labels -> Q) (epoch epochs_switch : Z)
         (w : list Q) (out : outputs) (lab : labels),
    epochs_switch + 10 <= epoch ->
    (mix_alpha epoch epochs_switch == 0)%Q
    /\ exists loss : Q,
         training_loss L lossfn "DICE+BOUNDARY" epoch epochs_switch w out lab
         = Ok loss
         /\ (loss == (3 # 10) * surface_loss L lab out)%Q.
Proof.
  intros outputs labels L lossfn epoch epochs_switch w out lab H.
  assert (Ha : (mix_alpha epoch epochs_switch == 0)%Q)
    by (apply mix_alpha_clamped; exact H).
  split; [exact Ha|].
  eexists. split.
  - apply training_loss_blend. lia.
  - rewrite Ha. ring.
Qed.

Lemma boundary_only_after_decay_witness :
  8 + 10 <= 19
  /\ (mix_alpha 19 8 == 0)%Q
  /\ exists loss : Q,
       training_loss Sample.losses (Sample.cross_entropy []) "DICE+BOUNDARY"
                     19 8 [] [[1; 2]] [[1; 1]] = Ok loss
       /\ (loss == (3 # 10) * surface_loss Sample.losses [[1; 1]]%Z [[1; 2]]%Z)%Q.
Proof.
  split; [lia|].
  apply (boundary_only_after_decay _ _ Sample.losses (Sample.cross_entropy [])
           19 8 [] [[1; 2]] [[1; 1]]).
  lia.
Defined.

(** ** The weights of the generalized Dice loss *)

Lemma GDL_transform_pos (weights : list Q) :
  Forall (fun x => 0 < x)%Q weights ->
  Forall (fun x => 0 < x)%Q
         (map (fun f => 1 / (f * f))%Q (map (fun x => 1 / x)%Q weights)).
Proof.
  intros H. induction H as [|x l Hx Hl IH]; simpl; constructor; [|exact IH].
  assert (Hf : (0 < 1 / x)%Q).
  { unfold Qdiv. rewrite Qmult_1_l. apply Qinv_lt_0_compat. exact Hx. }
  unfold Qdiv at 1. rewrite Qmult_1_l. apply Qinv_lt_0_compat.
  apply Qmult_lt_0_compat; exact Hf.
Qed.

(** C7, as amended. The weights of the generalized Dice loss are the class
    weights without the background class, each turned into
    [1 / (1 / weight)^2], divided by their sum, with 1e-5 added to each of
    them: they sum to 1 plus 1e-5 for every class kept. *)
Theorem w_for_GDL_sums_to_one_plus_eps_per_class :
  forall (dataset_weights : list Q),
    tl dataset_weights <> [] ->
    Forall (fun x => 0 < x)%Q (tl dataset_weights) ->
    let w := map (fun x => 1 / ((1 / x) * (1 / x)))%Q (tl dataset_weights) in
    w_for_GDL dataset_weights
    = map (fun x => x / Qsum w + (1 # 100000))%Q w
    /\ (Qsum (w_for_GDL dataset_weights)
        == 1 + inject_Z (Z.of_nat (length (tl dataset_weights)))
               * (1 # 100000))%Q.
Proof.
  intros dataset_weights Hne Hpos w.
  assert (Hw : map (fun f => 1 / (f * f))%Q
                   (map (fun x => 1 / x)%Q (tl dataset_weights)) = w).
  { unfold w. rewrite map_map. reflexivity. }
  assert (Hdef : w_for_GDL dataset_weights
                 = map (fun x => x / Qsum w + (1 # 100000))%Q w).
  { unfold w_for_GDL. cbv zeta. rewrite Hw. reflexivity. }
  split; [exact Hdef|].
  rewrite Hdef, Qsum_scale_shift.
  assert (Hs : (0 < Qsum w)%Q).
  { apply Qsum_pos.
    - unfold w. destruct (tl dataset_weights); [congruence | discriminate].
    - rewrite <- Hw. apply GDL_transform_pos. exact Hpos. }
  assert (Hlen : length w = length (tl dataset_weights))
    by (unfold w; apply length_map).
  rewrite Hlen. unfold Qdiv. rewrite Qmult_inv_r; [reflexivity|].
  intros H0. rewrite H0 in Hs. exact (Qlt_irrefl _ Hs).
Qed.

Lemma w_for_GDL_sums_to_one_plus_eps_per_class_witness :
  let dataset_weights := [1 # 4; 1 # 4; 1 # 4; 1 # 4]%Q in
  (Qsum (w_for_GDL dataset_weights) == 1 + 3 * (1 # 100000))%Q.
Proof.
  cbv zeta.
  apply (w_for_GDL_sums_to_one_plus_eps_per_class
           [1 # 4; 1 # 4; 1 # 4; 1 # 4]%Q).
  - simpl. discriminate.
  - simpl. repeat constructor.
Defined.

(** C7, as stated, fails for the four classes of [main]: the vector of the
    three classes kept sums to 1 + 3e-5, not to 1 + 1e-5. *)
Lemma w_for_GDL_sum_is_not_one_plus_eps :
  ~ (forall dataset_weights : list Q,
        tl dataset_weights <> [] ->
        Forall (fun x => 0 < x)%Q (tl dataset_weights) ->
        (Qsum (w_for_GDL dataset_weights) == 1 + (1 # 100000))%Q).
Proof.
  intros H.
  specialize (H [1 # 4; 1 # 4; 1 # 4; 1 # 4]%Q).
  assert (Hne : tl [1 # 4; 1 # 4; 1 # 4; 1 # 4]%Q <> []) by (simpl; discriminate).
  assert (Hpos : Forall (fun x => 0 < x)%Q (tl [1 # 4; 1 # 4; 1 # 4; 1 # 4]%Q))
    by (simpl; repeat constructor).
  specialize (H Hne Hpos). vm_compute in H. discriminate H.
Qed.

(** ** The evaluation pass *)

Lemma for_each_preserves {A S T : Type} (f : S -> T)
    (body : A -> S -> result S) (l : list A) :
  (forall x s s', body x s = Ok s' -> f s' = f s) ->
  forall s s', for_each body l s = Ok s' -> f s' = f s.
Proof.
  intros Hbody. induction l as [|x l IH]; intros s s' H; simpl in H.
  - inversion H. reflexivity.
  - destruct (body x s) as [s1|e] eqn:E; simpl in H; [|discriminate].
    rewrite (IH _ _ H). exact (Hbody _ _ _ E).
Qed.

Section EvaluationFacts.

Context {image outputs : Type}.
Variable predictions_of : outputs -> list (list Z).
Variable CrossEntropyLoss : list Q -> outputs -> list (list Z) -> Q.

Abbreviation batch_step :=
  (eval_batch image outputs predictions_of CrossEntropyLoss).
Abbreviation loop :=
  (eval_loop image outputs predictions_of CrossEntropyLoss).
Abbreviation evaluate :=
  (evaluateNetwork image outputs predictions_of CrossEntropyLoss).

(** With [flagTrainingDataset] set, a batch leaves the two label buffers
    as they are. *)
Lemma eval_batch_training_buffers (weights : list Q) (class_indices : list Z)
    (bsize : nat) (net : list image -> outputs) (savefolder : string)
    (data : batch image) (s s' : eval_state) :
  batch_step weights class_indices bsize net true savefolder data s = Ok s' ->
  ypred_list s' = ypred_list s /\ ytrue_list s' = ytrue_list s.
Proof.
  unfold eval_batch. cbn [negb]. intros H.
  match type of H with
  | rbind ?r _ = _ => destruct r as [s1|e] eqn:E1; simpl in H; [|discriminate]
  end.
  assert (H1 : ypred_list s1 = ypred_list s /\ ytrue_list s1 = ytrue_list s).
  { split.
    - apply (for_each_preserves ypred_list) in E1; [exact E1|].
      intros i t t' Hb.
      destruct (py_index _ i); simpl in Hb; [|discriminate].
      destruct (py_index _ i); simpl in Hb; [|discriminate].
      destruct (confusion_matrix _ _ _); simpl in Hb; [|discriminate].
      inversion Hb. reflexivity.
    - apply (for_each_preserves ytrue_list) in E1; [exact E1|].
      intros i t t' Hb.
      destruct (py_index _ i); simpl in Hb; [|discriminate].
      destruct (py_index _ i); simpl in Hb; [|discriminate].
      destruct (confusion_matrix _ _ _); simpl in Hb; [|discriminate].
      inversion Hb. reflexivity. }
  destruct H1 as [Hp Ht]. rewrite <- Hp, <- Ht. split.
  - apply (for_each_preserves ypred_list) in H; [exact H|].
    intros i t t' Hb. destruct (String.eqb savefolder ""); [congruence|].
    destruct (py_index _ i); simpl in Hb; [|discriminate].
    destruct (py_index _ i); simpl in Hb; [|discriminate].
    inversion Hb. reflexivity.
  - apply (for_each_preserves ytrue_list) in H; [exact H|].
    intros i t t' Hb. destruct (String.eqb savefolder ""); [congruence|].
    destruct (py_index _ i); simpl in Hb; [|discriminate].
    destruct (py_index _ i); simpl in Hb; [|discriminate].
    inversion Hb. reflexivity.
Qed.

Lemma eval_loop_training_buffers (loader : dataloader image)
    (weights : list Q) (nclasses : nat) (net : list image -> outputs)
    (savefolder : string) (s : eval_state) :
  loop loader weights nclasses net true savefolder = Ok s ->
  ypred_list s = [] /\ ytrue_list s = [].
Proof.
  unfold eval_loop. intros H. split.
  - apply (for_each_preserves ypred_list) in H; [exact H|].
    intros data t t' Hb.
    apply eval_batch_training_buffers in Hb. tauto.
  - apply (for_each_preserves ytrue_list) in H; [exact H|].
    intros data t t' Hb.
    apply eval_batch_training_buffers in Hb. tauto.
Qed.

Lemma evaluate_training_jaccard (loader : dataloader image)
    (weights : list Q) (nclasses : nat) (net : list image -> outputs)
    (savefolder : string) (m : metrics) (mean_loss : Q) :
  evaluate loader weights nclasses net true savefolder = Ok (m, mean_loss) ->
  JaccardScore m = 0%Q.
Proof.
  intros H. unfold evaluateNetwork in H.
  destruct (loop loader weights nclasses net true savefolder)
    as [s|e]; simpl in H; [|discriminate].
  unfold eval_metrics in H. cbn [negb] in H.
  destruct (length (loss_values s) =? 0)%nat; simpl in H; [discriminate|].
  destruct (mat_sum (CM s) =? 0); simpl in H; [discriminate|].
  inversion H. reflexivity.
Qed.

(** C3, as amended. On a data loader without batches the evaluation
    raises [ZeroDivisionError], from the mean of an empty list of losses;
    no metrics are returned. *)
Theorem empty_split_raises_ZeroDivisionError :
  forall (loader : dataloader image) (weights : list Q) (nclasses : nat)
         (net : list image -> outputs) (flagTrainingDataset : bool)
         (savefolder : string),
    batches loader = [] ->
    evaluate loader weights nclasses net flagTrainingDataset savefolder
    = Raise "ZeroDivisionError".
Proof.
  intros loader weights nclasses net flag savefolder H.
  unfold evaluateNetwork, eval_loop. rewrite H.
  reflexivity.
Qed.

(** C10. With [flagTrainingDataset] set, the two label buffers are empty
    after any number of batches and the Jaccard score of the metrics
    returned is the initial 0.0, whatever the network predicts. *)
Theorem training_split_skips_jaccard :
  forall (loader : dataloader image) (weights : list Q) (nclasses : nat)
         (net : list image -> outputs) (savefolder : string),
    (forall (k : nat) (s : eval_state),
        loop {| batch_size := batch_size loader;
                     batches := firstn k (batches loader) |}
                  weights nclasses net true savefolder = Ok s ->
        ypred_list s = [] /\ ytrue_list s = [])
    /\ (forall (m : metrics) (mean_loss : Q),
           evaluate loader weights nclasses net true savefolder
           = Ok (m, mean_loss) ->
           JaccardScore m = 0%Q).
Proof.
  intros loader weights nclasses net savefolder. split.
  - intros k s H. exact (eval_loop_training_buffers _ _ _ _ _ _ H).
  - intros m mean_loss H. exact (evaluate_training_jaccard _ _ _ _ _ _ _ H).
Qed.

End EvaluationFacts.

Lemma empty_split_raises_ZeroDivisionError_witness :
  Sample.evaluate [] 4 false = Raise "ZeroDivisionError".
Proof.
  apply (empty_split_raises_ZeroDivisionError (fun out => out)
           Sample.cross_entropy (Sample.loader [])).
  reflexivity.
Defined.

(** C3, as stated, fails: the exception of an empty split is not an
    [EmptySplitError]. *)
Lemma empty_split_does_not_raise_EmptySplitError :
  Sample.evaluate [] 4 false <> Raise "EmptySplitError".
Proof. vm_compute. discriminate. Qed.

Lemma training_split_skips_jaccard_witness :
  let bs := [Sample.one_batch [0; 1; 1; 0] [0; 1; 0; -1];
             Sample.one_batch [1; 1] [1; 0]] in
  (exists s : eval_state,
      eval_loop Sample.image Sample.outputs (fun out => out)
                Sample.cross_entropy (Sample.loader (firstn 1 bs)) [] 2
                Sample.net true "" = Ok s
      /\ ypred_list s = [] /\ ytrue_list s = [])
  /\ (exists (m : metrics) (mean_loss : Q),
         Sample.evaluate bs 2 true = Ok (m, mean_loss)
         /\ JaccardScore m = 0%Q).
Proof.
  intros bs.
  pose proof (training_split_skips_jaccard (fun out => out)
                Sample.cross_entropy (Sample.loader bs) [] 2 Sample.net "")
    as [Hbuffers Hscore].
  split.
  - destruct (eval_loop Sample.image Sample.outputs (fun out => out)
                Sample.cross_entropy (Sample.loader (firstn 1 bs)) [] 2
                Sample.net true "") as [s|e] eqn:E;
      [|vm_compute in E; discriminate E].
    exists s. split; [reflexivity|]. exact (Hbuffers 1%nat s E).
  - destruct (Sample.evaluate bs 2 true) as [[m mean_loss]|e] eqn:E;
      [|vm_compute in E; discriminate E].
    exists m, mean_loss. split; [reflexivity|]. exact (Hscore m mean_loss E).
Defined.

(** ** Ignored pixels *)

(** A cell of the confusion matrix of a class other than [ignored] counts
    the same pixels with and without those whose true label is [ignored]. *)
Lemma count_pairs_drop_label (ignored t p : Z) (y_true y_pred : list Z) :
  t <> ignored ->
  count_pairs t p y_true y_pred
  = Z.of_nat (length (List.filter (fun tp => (fst tp =? t) && (snd tp =? p))
                             (drop_label ignored y_true y_pred))).
Proof.
  intros Ht. unfold count_pairs, drop_label. f_equal. f_equal.
  induction (combine y_true y_pred) as [|[a b] l IH]; [reflexivity|].
  cbn [List.filter fst snd].
  destruct (a =? ignored) eqn:Ea; cbn [negb].
  - apply Z.eqb_eq in Ea.
    replace (a =? t) with false by (symmetry; apply Z.eqb_neq; congruence).
    cbn [andb]. exact IH.
  - cbn [List.filter fst snd]. destruct ((a =? t) && (b =? p)); [f_equal|]; exact IH.
Qed.

(** The confusion matrix of an image over the classes [0 .. nclasses-1]
    counts no pixel labelled [ignore_index]. *)
Lemma confusion_matrix_skips_ignored (nclasses : nat)
    (y_true y_pred : list Z) (M : matrix) :
  let class_indices := map Z.of_nat (seq 0 nclasses) in
  confusion_matrix y_true y_pred class_indices = Ok M ->
  M = map (fun t =>
             map (fun p =>
                    Z.of_nat (length (List.filter
                                (fun tp => (fst tp =? t) && (snd tp =? p))
                                (drop_label ignore_index y_true y_pred))))
                 class_indices)
          class_indices.
Proof.
  intros class_indices H. unfold confusion_matrix in H.
  destruct (negb (length y_true =? length y_pred)%nat); [discriminate|].
  destruct (forallb _ class_indices); [discriminate|].
  inversion H as [HM]. clear H HM.
  apply map_ext_in. intros t Ht. apply map_ext. intros p.
  apply count_pairs_drop_label.
  unfold class_indices in Ht. apply in_map_iff in Ht.
  destruct Ht as [n [Hn _]]. unfold ignore_index. lia.
Qed.

(** C5. A pixel whose true label is the ignore label is counted in no cell
    of the confusion matrix, but it does enter the weighted Jaccard score:
    a split of two pixels of classes 0 and 1, both predicted right, scores
    1, and the same split with one more pixel, ignored and predicted as
    class 1, has the same confusion matrix and accuracy and scores 1/2. *)
Theorem ignored_pixel_lowers_jaccard :
  exists (m m' : metrics) (mean_loss mean_loss' : Q),
    Sample.evaluate [Sample.one_batch [0; 1] [0; 1]] 2 false
    = Ok (m, mean_loss)
    /\ Sample.evaluate [Sample.one_batch [0; 1; 1] [0; 1; ignore_index]] 2 false
       = Ok (m', mean_loss')
    /\ ConfMatrix m' = ConfMatrix m
    /\ Accuracy m' = Accuracy m
    /\ mean_loss' = mean_loss
    /\ (JaccardScore m == 1)%Q
    /\ (JaccardScore m' == 1 # 2)%Q.
Proof.
  do 4 eexists.
  split; [vm_compute; reflexivity|].
  split; [vm_compute; reflexivity|].
  cbn [ConfMatrix Accuracy JaccardScore].
  repeat split; reflexivity.
Qed.

(** ** Classifier metadata *)

Section ClassifierInfoFacts.

Variable json_dumps : pyval -> result string.
Variable json_loads : string -> result pyval.

(** A text that [json] does not decode is reported on the standard output
    and the call returns, with the dataset as it was. *)
Lemma malformed_file_is_logged (filename text : string) (ds : dataset)
    (w : world) :
  files w !! filename = Some text ->
  json_loads text = Raise "JSONDecodeError" ->
  readClassifierInfo json_loads filename ds w
  = (Ok tt, ds, print "File not found (!)" w).
Proof.
  intros Hfile Hjson. unfold readClassifierInfo.
  rewrite Hfile, Hjson. reflexivity.
Qed.

(** C8. On a file that does not exist the reader raises
    [FileNotFoundError]: the file is opened before the [try], so nothing
    is printed and the call does not return. The dataset is as it was. *)
Theorem missing_file_raises_FileNotFoundError :
  forall (filename : string) (ds : dataset) (w : world),
    files w !! filename = None ->
    readClassifierInfo json_loads filename ds w
    = (Raise "FileNotFoundError", ds, w).
Proof.
  intros filename ds w Hfile. unfold readClassifierInfo.
  rewrite Hfile. reflexivity.
Qed.



End ClassifierInfoFacts.

Lemma missing_file_raises_FileNotFoundError_witness :
  let ds := {| num_classes := PyInt 0; weights := PyNone;
               dataset_average := PyNone; dict_target := PyNone |} in
  let w := {| files := ∅; stdout := [] |} in
  readClassifierInfo SampleJson.loads "scripps-classifier.json" ds w
  = (Raise "FileNotFoundError", ds, w).
Proof.
  cbv zeta.
  apply (missing_file_raises_FileNotFoundError SampleJson.loads).
  reflexivity.
Defined.


(** ** The training loop *)

Section TrainingFacts.

Context {network : Type}.
Variable save_network_as : string.

Abbreviation stem :=
  (py_prefix save_network_as (Z.of_nat (String.length save_network_as) - 4)).

Lemma checkpoint_improves (mv mt : metrics) (st : train_state network) :
  (best_jaccard_score st < JaccardScore mv)%Q ->
  checkpoint save_network_as mv mt st
  = {| net := net st; calls := calls st; running_loss := running_loss st;
       best_accuracy := Accuracy mv;
       best_jaccard_score := JaccardScore mv;
       disk := disk st
               ++ [TorchSave save_network_as (net st);
                   SaveMetrics (stem ++ "-val-metrics.txt") mv;
                   SaveMetrics (stem ++ "-train-metrics.txt") mt];
       scalars := scalars st |}.
Proof.
  intros H. unfold checkpoint. cbv zeta.
  apply Qlt_bool_iff in H. rewrite H. reflexivity.
Qed.

Lemma checkpoint_keeps (mv mt : metrics) (st : train_state network) :
  ~ (best_jaccard_score st < JaccardScore mv)%Q ->
  checkpoint save_network_as mv mt st = st.
Proof.
  intros H. unfold checkpoint. cbv zeta.
  destruct (Qlt_bool (best_jaccard_score st) (JaccardScore mv)) eqn:E;
    [|reflexivity].
  apply Qlt_bool_iff in E. contradiction.
Qed.

Lemma checkpoint_best_le (mv mt : metrics) (st : train_state network) :
  (best_jaccard_score st
   <= best_jaccard_score (checkpoint save_network_as mv mt st))%Q.
Proof.
  destruct (Qlt_le_dec (best_jaccard_score st) (JaccardScore mv)) as [H|H].
  - rewrite (checkpoint_improves _ _ _ H). cbn. apply Qlt_le_weak. exact H.
  - rewrite checkpoint_keeps; [apply Qle_refl|].
    intros Hlt. exact (Qlt_not_le _ _ Hlt H).
Qed.

Lemma checkpoints_best_le (passes : list (metrics * metrics))
    (st : train_state network) :
  (best_jaccard_score st
   <= best_jaccard_score (checkpoints save_network_as passes st))%Q.
Proof.
  revert st. induction passes as [|p passes IH]; intros st.
  - apply Qle_refl.
  - unfold checkpoints. cbn [fold_left].
    eapply Qle_trans; [apply checkpoint_best_le|].
    apply (IH (checkpoint save_network_as (fst p) (snd p) st)).
Qed.

Lemma checkpoint_cases (mv mt : metrics) (st : train_state network) :
  ((best_jaccard_score st < JaccardScore mv)%Q
   /\ best_jaccard_score (checkpoint save_network_as mv mt st)
      = JaccardScore mv)
  \/ ((JaccardScore mv <= best_jaccard_score st)%Q
      /\ checkpoint save_network_as mv mt st = st).
Proof.
  destruct (Qlt_le_dec (best_jaccard_score st) (JaccardScore mv)) as [H|H].
  - left. split; [exact H|]. rewrite (checkpoint_improves _ _ _ H). reflexivity.
  - right. split; [exact H|]. apply checkpoint_keeps.
    intros Hlt. exact (Qlt_not_le _ _ Hlt H).
Qed.

(** The best score after some validation passes is the largest of the
    score before them and the scores of the passes. *)
Lemma best_is_running_maximum (passes : list (metrics * metrics))
    (st : train_state network) :
  let best := best_jaccard_score (checkpoints save_network_as passes st) in
  Forall (fun p => (JaccardScore (fst p) <= best)%Q) passes
  /\ (best = best_jaccard_score st
      \/ Exists (fun p => best = JaccardScore (fst p)) passes).
Proof.
  revert st. induction passes as [|p passes IH]; intros st best.
  - split; [constructor | left; reflexivity].
  - subst best. unfold checkpoints. cbn [fold_left].
    fold (checkpoints save_network_as passes
            (checkpoint save_network_as (fst p) (snd p) st)).
    destruct (IH (checkpoint save_network_as (fst p) (snd p) st))
      as [Hall Hmax].
    pose proof (checkpoints_best_le passes
                  (checkpoint save_network_as (fst p) (snd p) st)) as Hle.
    destruct (checkpoint_cases (fst p) (snd p) st) as [[Hlt Hb]|[Hge Hsame]].
    + split.
      * constructor; [rewrite <- Hb; exact Hle | exact Hall].
      * right. destruct Hmax as [Hmax|Hmax].
        -- apply Exists_cons_hd. rewrite Hmax. exact Hb.
        -- apply Exists_cons_tl. exact Hmax.
    + rewrite Hsame in *. split.
      * constructor; [eapply Qle_trans; [exact Hge | exact Hle] | exact Hall].
      * destruct Hmax as [Hmax|Hmax]; [left; exact Hmax|].
        right. apply Exists_cons_tl. exact Hmax.
Qed.

End TrainingFacts.

Lemma app_neq_self {A : Type} (l : list A) (x : A) (l' : list A) :
  l ++ x :: l' <> l.
Proof.
  intros H. apply (f_equal (@length A)) in H.
  rewrite length_app in H. simpl in H. lia.
Qed.

(** C2. A validation pass writes the checkpoint (the network and the two
    metric reports) when its Jaccard score is above the best one so far,
    and changes nothing otherwise; the best score never goes down; and the
    scores 0.40, 0.55, 0.50, 0.60 give three checkpoints, at 0.40, 0.55 and
    0.60. The best score is the largest of the initial 0.0 and the scores
    of the passes so far. *)
Theorem checkpoint_iff_jaccard_improves :
  forall (network : Type) (save_network_as : string),
    let stem :=
      py_prefix save_network_as (Z.of_nat (String.length save_network_as) - 4) in
    let val_report := (stem ++ "-val-metrics.txt")%string in
    let train_report := (stem ++ "-train-metrics.txt")%string in
    (forall (mv mt : metrics) (st : train_state network),
        let st' := checkpoint save_network_as mv mt st in
        ((best_jaccard_score st < JaccardScore mv)%Q ->
         disk st' = disk st ++ [TorchSave save_network_as (net st);
                                SaveMetrics val_report mv;
                                SaveMetrics train_report mt]
         /\ best_jaccard_score st' = JaccardScore mv
         /\ best_accuracy st' = Accuracy mv)
        /\ (~ (best_jaccard_score st < JaccardScore mv)%Q -> st' = st)
        /\ (disk st' <> disk st
            <-> (best_jaccard_score st < JaccardScore mv)%Q)
        /\ (best_jaccard_score st <= best_jaccard_score st')%Q)
    /\ (forall (passes : list (metrics * metrics)) (st : train_state network),
           (best_jaccard_score st
            <= best_jaccard_score (checkpoints save_network_as passes st))%Q)
    /\ (forall (passes : list (metrics * metrics)) (st : train_state network),
           let best :=
             best_jaccard_score (checkpoints save_network_as passes st) in
           Forall (fun p => (JaccardScore (fst p) <= best)%Q) passes
           /\ (best = best_jaccard_score st
               \/ Exists (fun p => best = JaccardScore (fst p)) passes))
    /\ (forall (net0 : network) (m1 m2 m3 m4 t1 t2 t3 t4 : metrics),
           (JaccardScore m1 == 0.40)%Q -> (JaccardScore m2 == 0.55)%Q ->
           (JaccardScore m3 == 0.50)%Q -> (JaccardScore m4 == 0.60)%Q ->
           disk (checkpoints save_network_as
                   [(m1, t1); (m2, t2); (m3, t3); (m4, t4)] (train_init net0))
           = [TorchSave save_network_as net0;
              SaveMetrics val_report m1; SaveMetrics train_report t1;
              TorchSave save_network_as net0;
              SaveMetrics val_report m2; SaveMetrics train_report t2;
              TorchSave save_network_as net0;
              SaveMetrics val_report m4; SaveMetrics train_report t4]).
Proof.
  intros network save_network_as stem val_report train_report.
  split; [|split; [|split]].
  - intros mv mt st st'. subst st'. repeat split.
    + rewrite (checkpoint_improves _ _ _ _ H). reflexivity.
    + rewrite (checkpoint_improves _ _ _ _ H). reflexivity.
    + rewrite (checkpoint_improves _ _ _ _ H). reflexivity.
    + apply checkpoint_keeps.
    + intros Hd.
      destruct (Qlt_le_dec (best_jaccard_score st) (JaccardScore mv))
        as [Hlt|Hle]; [exact Hlt|].
      exfalso. apply Hd. rewrite checkpoint_keeps; [reflexivity|].
      intros Hlt. exact (Qlt_not_le _ _ Hlt Hle).
    + intros Hlt. rewrite (checkpoint_improves _ _ _ _ Hlt). cbn [disk].
      apply app_neq_self.
    + apply checkpoint_best_le.
  - apply checkpoints_best_le.
  - apply best_is_running_maximum.
  - intros net0 m1 m2 m3 m4 t1 t2 t3 t4 H1 H2 H3 H4.
    unfold checkpoints. cbn [fold_left fst snd].
    rewrite (checkpoint_improves _ m1 t1 (train_init net0));
      [|cbn; rewrite H1; reflexivity].
    rewrite (checkpoint_improves _ m2 t2);
      [|cbn; rewrite H1, H2; reflexivity].
    rewrite (checkpoint_keeps _ m3 t3);
      [|cbn; rewrite H2, H3; intros Hlt; revert Hlt; apply Qle_not_lt;
        unfold Qle; simpl; lia].
    rewrite (checkpoint_improves _ m4 t4);
      [|cbn; rewrite H2, H4; reflexivity].
    reflexivity.
Qed.

Lemma checkpoint_iff_jaccard_improves_witness :
  (let st := train_init 0%nat in
   (best_jaccard_score st < JaccardScore (Sample.scored 0.40))%Q
   /\ disk (checkpoint "DEEPLAB.net" (Sample.scored 0.40) (Sample.scored 0.30) st)
      = [TorchSave "DEEPLAB.net" 0%nat;
         SaveMetrics "DEEPLAB-val-metrics.txt" (Sample.scored 0.40);
         SaveMetrics "DEEPLAB-train-metrics.txt" (Sample.scored 0.30)])
  /\ (let st := checkpoint "DEEPLAB.net" (Sample.scored 0.55)
                           (Sample.scored 0.45) (train_init 0%nat) in
      ~ (best_jaccard_score st < JaccardScore (Sample.scored 0.50))%Q
      /\ checkpoint "DEEPLAB.net" (Sample.scored 0.50) (Sample.scored 0.65) st
         = st)
  /\ disk (checkpoints "DEEPLAB.net"
             [(Sample.scored 0.40, Sample.scored 0.30);
              (Sample.scored 0.55, Sample.scored 0.45);
              (Sample.scored 0.50, Sample.scored 0.65);
              (Sample.scored 0.60, Sample.scored 0.70)] (train_init 0%nat))
     = [TorchSave "DEEPLAB.net" 0%nat;
        SaveMetrics "DEEPLAB-val-metrics.txt" (Sample.scored 0.40);
        SaveMetrics "DEEPLAB-train-metrics.txt" (Sample.scored 0.30);
        TorchSave "DEEPLAB.net" 0%nat;
        SaveMetrics "DEEPLAB-val-metrics.txt" (Sample.scored 0.55);
        SaveMetrics "DEEPLAB-train-metrics.txt" (Sample.scored 0.45);
        TorchSave "DEEPLAB.net" 0%nat;
        SaveMetrics "DEEPLAB-val-metrics.txt" (Sample.scored 0.60);
        SaveMetrics "DEEPLAB-train-metrics.txt" (Sample.scored 0.70)].
Proof.
  destruct (checkpoint_iff_jaccard_improves nat "DEEPLAB.net")
    as (Hstep & _ & _ & Hrun).
  split; [|split].
  - intros st.
    assert (Hlt : (best_jaccard_score st < JaccardScore (Sample.scored 0.40))%Q)
      by reflexivity.
    split; [exact Hlt|].
    exact (proj1 (proj1 (Hstep (Sample.scored 0.40) (Sample.scored 0.30) st)
                        Hlt)).
  - intros st.
    assert (Hge : ~ (best_jaccard_score st
                     < JaccardScore (Sample.scored 0.50))%Q)
      by (vm_compute; discriminate).
    split; [exact Hge|].
    exact (proj1 (proj2 (Hstep (Sample.scored 0.50) (Sample.scored 0.65) st))
                 Hge).
  - apply Hrun; reflexivity.
Defined.

(** ** Gradient accumulation *)

Lemma pending_backwards (k acc : nat) (rest : list call) :
  pending (repeat Backward k ++ rest) acc = pending rest (k + acc).
Proof.
  revert acc. induction k as [|k IH]; intros acc; [reflexivity|].
  cbn [repeat app pending]. rewrite IH. f_equal. lia.
Qed.

Lemma pending_blocks (m q : nat) (rest : list call) :
  pending (concat (repeat (accumulation_block m) q) ++ rest) 0
  = repeat m q ++ pending rest 0.
Proof.
  induction q as [|q IH]; [reflexivity|].
  cbn [repeat concat]. unfold accumulation_block at 1.
  rewrite <- !app_assoc, pending_backwards. cbn [app pending].
  rewrite Nat.add_0_r, IH. reflexivity.
Qed.

Lemma pending_after_zero_grad (l rest : list call) (acc : nat) :
  pending (l ++ ZeroGrad :: rest) acc = pending l acc ++ pending rest 0.
Proof.
  revert acc. induction l as [|c l IH]; intros acc; [reflexivity|].
  destruct c; cbn [app pending]; rewrite IH; reflexivity.
Qed.

Lemma blocks_snoc (m q : nat) :
  concat (repeat (accumulation_block m) q) ++ accumulation_block m
  = concat (repeat (accumulation_block m) (S q)).
Proof.
  induction q as [|q IH]; cbn [repeat concat].
  - rewrite app_nil_r. reflexivity.
  - rewrite <- app_assoc, IH. reflexivity.
Qed.

Lemma backwards_snoc (r : nat) :
  repeat Backward r ++ [Backward] = repeat Backward (S r).
Proof. induction r as [|r IH]; cbn [repeat app]; [|rewrite IH]; reflexivity. Qed.

Section AccumulationFacts.

Context {image outputs network : Type}.
Variable torch : torch_api image outputs network.
Variable losses : losses_module outputs (list (list Z)).
Variable dataset_weights : list Q.
Variable batch_mult epochs_switch : Z.
Variable loss_to_use : string.
Variable epoch : Z.

Hypothesis batch_mult_pos : 0 < batch_mult.
Hypothesis loss_known :
  In loss_to_use ["CROSSENTROPY"; "DICE"; "BOUNDARY"; "DICE+BOUNDARY"]%string.

Abbreviation m := (Z.to_nat batch_mult).
Abbreviation step_batch :=
  (train_batch torch losses dataset_weights batch_mult epochs_switch
               loss_to_use epoch).

Lemma training_loss_known (lossfn : outputs -> list (list Z) -> Q)
    (w : list Q) (out : outputs) (lab : list (list Z)) :
  exists loss,
    training_loss losses lossfn loss_to_use epoch epochs_switch w out lab
    = Ok loss.
Proof.
  unfold training_loss.
  destruct loss_known as [H|[H|[H|[H|[]]]]]; subst loss_to_use;
    cbn [String.eqb Ascii.eqb Bool.eqb]; try (eexists; reflexivity).
  destruct (epoch <? epochs_switch); eexists; reflexivity.
Qed.

(** One mini-batch at index [i]: a backward pass, then the optimizer step
    and the reset when [i + 1] is a multiple of [batch_mult]. *)
Lemma train_batch_calls (i : Z) (b : batch image) (st : train_state network) :
  exists st',
    step_batch (i, b) st = Ok st'
    /\ calls st'
       = calls st ++ [Backward]
         ++ (if (i + 1) mod batch_mult =? 0 then [Step; ZeroGrad] else []).
Proof.
  unfold train_batch. cbn [fst snd].
  destruct (training_loss_known
              (CrossEntropyLoss image outputs network torch dataset_weights)
              (w_for_GDL dataset_weights)
              (forward torch (net st) (batch_image b)) (batch_labels b))
    as [loss Hloss].
  rewrite Hloss. cbn [rbind].
  replace (batch_mult =? 0) with false by (symmetry; apply Z.eqb_neq; lia).
  destruct ((i + 1) mod batch_mult =? 0); cbn [rbind];
    eexists; (split; [reflexivity|]); cbn [calls with_net with_running_loss].
  - rewrite <- !app_assoc. reflexivity.
  - rewrite app_nil_r. reflexivity.
Qed.

(** The loop over the mini-batches from index [i] on, entered with [q]
    whole accumulations and [r] pending backward passes behind it. *)
Lemma train_batches_calls (l : list (batch image)) :
  forall (i : Z) (st : train_state network) (q r : nat) (pre : list call),
    i = Z.of_nat q * batch_mult + Z.of_nat r ->
    Z.of_nat r < batch_mult ->
    calls st = pre ++ concat (repeat (accumulation_block m) q)
                   ++ repeat Backward r ->
    exists (st' : train_state network) (q' r' : nat),
      for_each step_batch (enumerate_from i l) st = Ok st'
      /\ i + Z.of_nat (length l) = Z.of_nat q' * batch_mult + Z.of_nat r'
      /\ Z.of_nat r' < batch_mult
      /\ calls st' = pre ++ concat (repeat (accumulation_block m) q')
                         ++ repeat Backward r'.
Proof.
  induction l as [|b l IH]; intros i st q r pre Hi Hr Hcalls.
  - exists st, q, r. cbn [enumerate_from for_each length]. repeat split.
    + lia.
    + exact Hr.
    + exact Hcalls.
  - cbn [enumerate_from for_each].
    destruct (train_batch_calls i b st) as [st1 [Hstep Hcalls1]].
    rewrite Hstep. cbn [rbind].
    assert (Hmod : (i + 1) mod batch_mult = (Z.of_nat r + 1) mod batch_mult).
    { rewrite Hi.
      replace (Z.of_nat q * batch_mult + Z.of_nat r + 1)
        with (Z.of_nat r + 1 + Z.of_nat q * batch_mult) by lia.
      apply Z_mod_plus_full. }
    destruct ((i + 1) mod batch_mult =? 0) eqn:E.
    + apply Z.eqb_eq in E. rewrite Hmod in E.
      assert (Hfull : Z.of_nat r + 1 = batch_mult).
      { destruct (Z.eq_dec (Z.of_nat r + 1) batch_mult) as [Heq|Hne];
          [exact Heq|].
        rewrite Z.mod_small in E by lia. lia. }
      destruct (IH (i + 1) st1 (S q) 0%nat pre) as (st' & q' & r' & H).
      * lia.
      * lia.
      * rewrite Hcalls1, Hcalls. rewrite <- blocks_snoc.
        unfold accumulation_block at 3.
        replace m with (S r) by lia. rewrite <- backwards_snoc.
        cbn [repeat]. rewrite app_nil_r, <- !app_assoc. reflexivity.
      * exists st', q', r'. destruct H as (H1 & H2 & H3 & H4).
        repeat split; try assumption. cbn [length]. lia.
    + apply Z.eqb_neq in E. rewrite Hmod in E.
      assert (Hpart : Z.of_nat r + 1 < batch_mult).
      { destruct (Z.eq_dec (Z.of_nat r + 1) batch_mult) as [Heq|Hne];
          [|lia].
        rewrite Heq, Z_mod_same_full in E. congruence. }
      destruct (IH (i + 1) st1 q (S r) pre) as (st' & q' & r' & H).
      * lia.
      * lia.
      * rewrite Hcalls1, Hcalls, app_nil_r, <- backwards_snoc.
        rewrite <- !app_assoc. reflexivity.
      * exists st', q', r'. destruct H as (H1 & H2 & H3 & H4).
        repeat split; try assumption. cbn [length]. lia.
Qed.

End AccumulationFacts.

(** C6. In an epoch of [n] mini-batches with [batch_mult = m], the calls
    on the gradients are: a reset, then [n / m] times [m] backward passes
    followed by one optimizer step and a reset, then the [n mod m] backward
    passes left over, on which no step is applied (the next epoch starts
    with a reset). Every optimizer step of the epoch applies the gradients
    of exactly [m] mini-batches. *)
Theorem optimizer_step_every_batch_mult :
  forall (image outputs network : Type)
         (torch : torch_api image outputs network)
         (losses : losses_module outputs (list (list Z)))
         (dataloaderTrain : dataloader image) (dataset_weights : list Q)
         (batch_mult epochs_switch : Z) (loss_to_use : string) (epoch : Z)
         (st : train_state network),
    0 < batch_mult ->
    In loss_to_use ["CROSSENTROPY"; "DICE"; "BOUNDARY"; "DICE+BOUNDARY"]%string ->
    let m := Z.to_nat batch_mult in
    let n := length (batches dataloaderTrain) in
    exists st' : train_state network,
      train_epoch torch losses dataloaderTrain dataset_weights batch_mult
                  epochs_switch loss_to_use epoch st = Ok st'
      /\ calls st'
         = calls st
           ++ ZeroGrad :: concat (repeat (accumulation_block m) (n / m))
           ++ repeat Backward (n mod m)
      /\ accumulated_at_steps (calls st')
         = accumulated_at_steps (calls st) ++ repeat m (n / m).
Proof.
  intros image outputs network torch losses dataloaderTrain dataset_weights
         batch_mult epochs_switch loss_to_use epoch st Hpos Hknown m n.
  unfold train_epoch, enumerate.
  destruct (train_batches_calls torch losses dataset_weights batch_mult
              epochs_switch loss_to_use epoch Hpos Hknown
              (batches dataloaderTrain) 0
              (with_running_loss network 0%Q
                 (with_net network (optimizer_zero_grad torch) [ZeroGrad] st))
              0%nat 0%nat (calls st ++ [ZeroGrad]))
    as (st' & q' & r' & Hrun & Hn & Hr & Hcalls).
  - lia.
  - lia.
  - cbn. rewrite app_nil_r. reflexivity.
  - fold n in Hn.
    assert (Hm : batch_mult = Z.of_nat m) by (unfold m; lia).
    assert (Hnat : n = (m * q' + r')%nat) by nia.
    assert (Hr' : (r' < m)%nat) by lia.
    assert (Hq : q' = (n / m)%nat)
      by (exact (Nat.div_unique n m q' r' Hr' Hnat)).
    assert (Hrem : r' = (n mod m)%nat)
      by (exact (Nat.mod_unique n m q' r' Hr' Hnat)).
    exists st'. split; [exact Hrun|].
    assert (Hc : calls st'
                 = calls st
                   ++ ZeroGrad :: concat (repeat (accumulation_block m) (n / m))
                   ++ repeat Backward (n mod m)).
    { rewrite Hcalls, <- Hq, <- Hrem, <- app_assoc. reflexivity. }
    split; [exact Hc|].
    unfold accumulated_at_steps. rewrite Hc, pending_after_zero_grad.
    rewrite pending_blocks. f_equal.
    rewrite <- (app_nil_r (repeat Backward (n mod m))), pending_backwards.
    cbn [pending]. apply app_nil_r.
Qed.

Lemma optimizer_step_every_batch_mult_witness :
  let twenty := {| batch_size := 4;
                   batches := repeat (Sample.one_batch [0] [0]) 20 |} in
  exists st' : train_state nat,
    train_epoch Sample.torch Sample.losses twenty [1; 1]%Q 8 8 "DICE+BOUNDARY" 0
                (train_init 0%nat) = Ok st'
    /\ accumulated_at_steps (calls st') = [8; 8]%nat
    /\ net st' = 2%nat.
Proof.
  intros twenty.
  destruct (optimizer_step_every_batch_mult _ _ _ Sample.torch Sample.losses
              twenty [1; 1]%Q 8 8 "DICE+BOUNDARY" 0 (train_init 0%nat))
    as (st' & Hrun & _ & Hsteps).
  - lia.
  - simpl. tauto.
  - exists st'. split; [exact Hrun|]. split; [exact Hsteps|].
    vm_compute in Hrun. inversion Hrun. reflexivity.
Defined.

(** ** The whole run *)

Section RunFacts.

Context {image outputs network : Type}.
Variable torch : torch_api image outputs network.
Variable losses : losses_module outputs (list (list Z)).
Variable dataloaderTrain dataloaderVal : dataloader image.
Variable dataset_weights : list Q.
Variable dataset_num_classes : nat.
Variable save_network_as : string.
Variable batch_mult validation_frequency epochs_switch : Z.
Variable loss_to_use : string.

Abbreviation one_epoch :=
  (training_epoch torch losses dataloaderTrain dataloaderVal dataset_weights
                  dataset_num_classes save_network_as batch_mult
                  validation_frequency epochs_switch loss_to_use).
Abbreviation run :=
  (training_loop torch losses dataloaderTrain dataloaderVal dataset_weights
                 dataset_num_classes save_network_as batch_mult
                 validation_frequency epochs_switch loss_to_use).

(** A mini-batch touches neither the best scores nor the disk. *)
Lemma train_batch_keeps_best (epoch : Z) (im : Z * batch image)
    (st st' : train_state network) :
  train_batch torch losses dataset_weights batch_mult epochs_switch
              loss_to_use epoch im st = Ok st' ->
  best_jaccard_score st' = best_jaccard_score st /\ disk st' = disk st.
Proof.
  unfold train_batch. intros H.
  destruct (training_loss _ _ _ _ _ _ _ _) as [loss|e]; cbn [rbind] in H;
    [|discriminate].
  destruct (batch_mult =? 0); cbn [rbind] in H; [discriminate|].
  destruct (_ mod batch_mult =? 0); cbn [rbind] in H;
    inversion H; split; reflexivity.
Qed.

Lemma train_epoch_keeps_best (epoch : Z) (st st' : train_state network) :
  train_epoch torch losses dataloaderTrain dataset_weights batch_mult
              epochs_switch loss_to_use epoch st = Ok st' ->
  best_jaccard_score st' = best_jaccard_score st /\ disk st' = disk st.
Proof.
  unfold train_epoch. intros H. split.
  - apply (for_each_preserves best_jaccard_score) in H; [exact H|].
    intros im t t' Hb. apply train_batch_keeps_best in Hb. tauto.
  - apply (for_each_preserves disk) in H; [exact H|].
    intros im t t' Hb. apply train_batch_keeps_best in Hb. tauto.
Qed.

(** The validation of an epoch ends with [checkpoint], on the metrics of
    the two evaluation passes; the pass on the training split has its
    Jaccard score skipped. *)
Lemma validation_checkpoints (epoch : Z) (st st' : train_state network) :
  validation torch dataloaderTrain dataloaderVal dataset_weights
             dataset_num_classes save_network_as epoch st = Ok st' ->
  exists (metrics_val metrics_train : metrics) (mean_loss_val : Q)
         (st1 : train_state network),
    evaluateNetwork image outputs (predictions_of _ _ _ torch)
                    (CrossEntropyLoss _ _ _ torch) dataloaderVal
                    dataset_weights dataset_num_classes
                    (forward torch (net st)) false ""
    = Ok (metrics_val, mean_loss_val)
    /\ best_jaccard_score st1 = best_jaccard_score st
    /\ disk st1 = disk st
    /\ calls st1 = calls st
    /\ JaccardScore metrics_train = 0%Q
    /\ st' = checkpoint save_network_as metrics_val metrics_train st1.
Proof.
  unfold validation. intros H.
  destruct (evaluateNetwork image outputs _ _ dataloaderVal _ _ _ false "")
    as [[mv lv]|e] eqn:Ev; cbn [rbind fst snd] in H; [|discriminate].
  destruct (evaluateNetwork image outputs _ _ dataloaderTrain _ _ _ true "")
    as [[mt lt]|e] eqn:Et; cbn [rbind fst snd] in H; [|discriminate].
  inversion H as [Hst]. clear H.
  exists mv, mt, lv. eexists. split; [reflexivity|].
  split; [|split; [|split; [|split; [|reflexivity]]]].
  - reflexivity.
  - reflexivity.
  - cbn. apply app_nil_r.
  - exact (evaluate_training_jaccard _ _ _ _ _ _ _ _ _ Et).
Qed.

Lemma validation_best_le (epoch : Z) (st st' : train_state network) :
  validation torch dataloaderTrain dataloaderVal dataset_weights
             dataset_num_classes save_network_as epoch st = Ok st' ->
  (best_jaccard_score st <= best_jaccard_score st')%Q.
Proof.
  intros H. apply validation_checkpoints in H.
  destruct H as (mv & mt & lv & st1 & _ & Hb & _ & _ & _ & Hst).
  rewrite Hst, <- Hb. apply checkpoint_best_le.
Qed.

Lemma training_epoch_best_le (epoch : Z) (st st' : train_state network) :
  one_epoch epoch st = Ok st' ->
  (best_jaccard_score st <= best_jaccard_score st')%Q.
Proof.
  unfold training_epoch. intros H.
  destruct (train_epoch _ _ _ _ _ _ _ _ st) as [st1|e] eqn:E;
    cbn [rbind] in H; [|discriminate].
  apply train_epoch_keeps_best in E. destruct E as [E _]. rewrite <- E.
  destruct (0 <? epoch).
  - destruct (validation_frequency =? 0); [discriminate|].
    destruct (_ mod validation_frequency =? 0).
    + exact (validation_best_le _ _ _ H).
    + inversion H. apply Qle_refl.
  - inversion H. apply Qle_refl.
Qed.

(** Over a run that ends, the best Jaccard score does not go down. *)
Lemma training_loop_best_le (epochs : Z) (st st' : train_state network) :
  run epochs st = Ok st' ->
  (best_jaccard_score st <= best_jaccard_score st')%Q.
Proof.
  unfold training_loop. revert st.
  induction (map Z.of_nat (seq 0 (Z.to_nat epochs))) as [|epoch l IH];
    intros st H; cbn [for_each] in H.
  - inversion H. apply Qle_refl.
  - destruct (one_epoch epoch st) as [st1|e] eqn:E; cbn [rbind] in H;
      [|discriminate].
    eapply Qle_trans; [exact (training_epoch_best_le _ _ _ E) | exact (IH _ H)].
Qed.

End RunFacts.

(** * Further properties *)

(** ** Loops that may raise *)

Lemma for_each_invariant {A S : Type} (P : S -> Prop)
    (body : A -> S -> result S) (l : list A) :
  (forall x s s', In x l -> P s -> body x s = Ok s' -> P s') ->
  forall s s', P s -> for_each body l s = Ok s' -> P s'.
Proof.
  induction l as [|x l IH]; intros Hbody s s' Hs H; cbn [for_each] in H.
  - inversion H. subst. exact Hs.
  - destruct (body x s) as [s1|e] eqn:E; cbn [rbind] in H; [|discriminate].
    apply (IH (fun y a b Hy => Hbody y a b (or_intror Hy)) s1 s');
      [|exact H].
    exact (Hbody x s s1 (or_introl eq_refl) Hs E).
Qed.

Lemma for_each_fails {A S : Type} (body : A -> S -> result S) (l : list A)
    (x : A) :
  In x l ->
  (forall s, exists e, body x s = Raise e) ->
  forall s, exists e, for_each body l s = Raise e.
Proof.
  intros Hin Hx. induction l as [|y l IH]; [destruct Hin|].
  intros s. cbn [for_each].
  destruct Hin as [Heq|Hin].
  - subst y. destruct (Hx s) as [e He]. rewrite He. exists e. reflexivity.
  - destruct (body y s) as [s1|e]; cbn [rbind].
    + exact (IH Hin s1).
    + exists e. reflexivity.
Qed.

Lemma for_each_raises {A S : Type} (E : exception -> Prop)
    (body : A -> S -> result S) (l : list A) :
  (forall x s e, body x s = Raise e -> E e) ->
  forall s e, for_each body l s = Raise e -> E e.
Proof.
  intros Hbody. induction l as [|x l IH]; intros s e H; cbn [for_each] in H.
  - discriminate.
  - destruct (body x s) as [s1|e1] eqn:E1; cbn [rbind] in H.
    + exact (IH _ _ H).
    + inversion H. subst. exact (Hbody _ _ _ E1).
Qed.

Lemma rbind_rel {A B A' B' : Type} (R : A -> B -> Prop) (R' : A' -> B' -> Prop)
    (r1 : result A) (r2 : result B) (k1 : A -> result A')
    (k2 : B -> result B') :
  result_rel R r1 r2 ->
  (forall a b, R a b -> result_rel R' (k1 a) (k2 b)) ->
  result_rel R' (rbind r1 k1) (rbind r2 k2).
Proof.
  intros Hr Hk. destruct r1 as [a|e1], r2 as [b|e2]; cbn in *;
    try contradiction; [apply Hk; exact Hr | exact Hr].
Qed.

Lemma for_each_rel {A S T : Type} (R : S -> T -> Prop)
    (f : A -> S -> result S) (g : A -> T -> result T) (l : list A) :
  (forall x s t, R s t -> result_rel R (f x s) (g x t)) ->
  forall s t, R s t -> result_rel R (for_each f l s) (for_each g l t).
Proof.
  intros Hfg. induction l as [|x l IH]; intros s t Hst; cbn [for_each].
  - exact Hst.
  - apply (rbind_rel R R); [apply Hfg; exact Hst | exact IH].
Qed.

(** ** More on the evaluation pass *)

Section EvaluationMore.

Context {image outputs : Type}.
Variable predictions_of : outputs -> list (list Z).
Variable CrossEntropyLoss : list Q -> outputs -> list (list Z) -> Q.

Abbreviation one_batch :=
  (eval_batch image outputs predictions_of CrossEntropyLoss).
Abbreviation all_batches :=
  (eval_loop image outputs predictions_of CrossEntropyLoss).
Abbreviation evaluation :=
  (evaluateNetwork image outputs predictions_of CrossEntropyLoss).

(** The loss of one batch, as the loop computes it. *)
Abbreviation loss_of_batch weights net :=
  (fun data : batch image =>
     CrossEntropyLoss weights (net (batch_image data)) (batch_labels data)).

Lemma eval_batch_loss_values (weights : list Q) (class_indices : list Z)
    (bsize : nat) (net : list image -> outputs) (flag : bool)
    (savefolder : string) (data : batch image) (s s' : eval_state) :
  one_batch weights class_indices bsize net flag savefolder data s = Ok s' ->
  loss_values s' = loss_values s ++ [loss_of_batch weights net data].
Proof.
  unfold eval_batch. intros H.
  match type of H with
  | rbind ?r _ = _ => destruct r as [s1|e] eqn:E1; cbn [rbind] in H;
                      [|discriminate]
  end.
  apply (for_each_preserves loss_values) in H.
  - rewrite H. apply (for_each_preserves loss_values) in E1.
    + rewrite E1. destruct flag; reflexivity.
    + intros i t t' Hb.
      destruct (py_index _ i); cbn [rbind] in Hb; [|discriminate].
      destruct (py_index _ i); cbn [rbind] in Hb; [|discriminate].
      destruct (confusion_matrix _ _ _); cbn [rbind] in Hb; [|discriminate].
      inversion Hb. reflexivity.
  - intros i t t' Hb. destruct (String.eqb savefolder ""); [congruence|].
    destruct (py_index _ i); cbn [rbind] in Hb; [|discriminate].
    destruct (py_index _ i); cbn [rbind] in Hb; [|discriminate].
    inversion Hb. reflexivity.
Qed.

Lemma eval_batches_loss_values (weights : list Q) (class_indices : list Z)
    (bsize : nat) (net : list image -> outputs) (flag : bool)
    (savefolder : string) (bs : list (batch image)) :
  forall s s',
    for_each (one_batch weights class_indices bsize net flag savefolder) bs s
    = Ok s' ->
    loss_values s' = loss_values s ++ map (loss_of_batch weights net) bs.
Proof.
  induction bs as [|data bs IH]; intros s s' H; cbn [for_each] in H.
  - inversion H. cbn [map]. rewrite app_nil_r. reflexivity.
  - destruct (one_batch _ _ _ _ _ _ data s) as [s1|e] eqn:E;
      cbn [rbind] in H; [|discriminate].
    rewrite (IH _ _ H), (eval_batch_loss_values _ _ _ _ _ _ _ _ _ E).
    cbn [map]. rewrite <- app_assoc. reflexivity.
Qed.

(** X1. The loss that the evaluation returns is the sum of the losses of
    the batches over the number of batches, and a pass that returns has
    seen at least one batch. *)
Theorem mean_loss_is_mean_of_batch_losses :
  forall (loader : dataloader image) (weights : list Q) (nclasses : nat)
         (net : list image -> outputs) (flag : bool) (savefolder : string)
         (m : metrics) (mean_loss : Q),
    evaluation loader weights nclasses net flag savefolder
    = Ok (m, mean_loss) ->
    batches loader <> []
    /\ mean_loss
       = (Qsum (map (loss_of_batch weights net) (batches loader))
          / inject_Z (Z.of_nat (length (batches loader))))%Q.
Proof.
  intros loader weights nclasses net flag savefolder m mean_loss H.
  unfold evaluateNetwork in H.
  destruct (all_batches loader weights nclasses net flag savefolder)
    as [s|e] eqn:E; cbn [rbind] in H; [|discriminate].
  unfold eval_loop in E. apply eval_batches_loss_values in E.
  cbn [eval_init loss_values app] in E.
  unfold eval_metrics in H. rewrite E in H. rewrite length_map in H.
  destruct (length (batches loader) =? 0)%nat eqn:En; cbn [rbind] in H;
    [discriminate|].
  destruct (if negb flag then _ else _) as [j|e]; cbn [rbind] in H;
    [|discriminate].
  destruct (mat_sum (CM s) =? 0); cbn [rbind] in H; [discriminate|].
  inversion H. split; [|reflexivity].
  intros Hnil. rewrite Hnil in En. discriminate.
Qed.

Lemma confusion_matrix_exception (y_true y_pred labels : list Z)
    (e : exception) :
  confusion_matrix y_true y_pred labels = Raise e -> e = "ValueError"%string.
Proof.
  unfold confusion_matrix. intros H.
  destruct (negb (length y_true =? length y_pred)%nat);
    [inversion H; reflexivity|].
  destruct (forallb _ labels); [inversion H; reflexivity | discriminate].
Qed.

(** The exceptions of the loop over the batches. *)
Lemma eval_batch_exceptions (weights : list Q) (class_indices : list Z)
    (bsize : nat) (net : list image -> outputs) (flag : bool)
    (savefolder : string) (data : batch image) (s : eval_state)
    (e : exception) :
  one_batch weights class_indices bsize net flag savefolder data s = Raise e ->
  e = "IndexError"%string \/ e = "ValueError"%string.
Proof.
  unfold eval_batch. intros H.
  match type of H with
  | rbind ?r _ = _ => destruct r as [s1|e1] eqn:E1; cbn [rbind] in H
  end.
  - apply (for_each_raises
             (fun e => e = "IndexError"%string \/ e = "ValueError"%string))
      in H; [exact H|].
    intros i t e0 Hb. destruct (String.eqb savefolder ""); [discriminate|].
    unfold py_index in Hb.
    destruct (nth_error (batch_name data) i); cbn [rbind] in Hb;
      [|inversion Hb; left; reflexivity].
    destruct (nth_error (batch_image data) i); cbn [rbind] in Hb;
      [discriminate | inversion Hb; left; reflexivity].
  - inversion H. subst e1. clear H.
    apply (for_each_raises
             (fun e => e = "IndexError"%string \/ e = "ValueError"%string))
      in E1; [exact E1|].
    intros i t e0 Hb. unfold py_index in Hb.
    destruct (nth_error _ i); cbn [rbind] in Hb;
      [|inversion Hb; left; reflexivity].
    destruct (nth_error _ i); cbn [rbind] in Hb;
      [|inversion Hb; left; reflexivity].
    destruct (confusion_matrix _ _ _) as [M|e1] eqn:Ec; cbn [rbind] in Hb;
      [discriminate|].
    inversion Hb. subst e1. right.
    exact (confusion_matrix_exception _ _ _ _ Ec).
Qed.

(** A batch with fewer label maps or fewer prediction maps than the batch
    size of the loader stops the loop. *)
Lemma eval_batch_short (weights : list Q) (class_indices : list Z)
    (bsize : nat) (net : list image -> outputs) (flag : bool)
    (savefolder : string) (data : batch image) :
  (length (batch_labels data) < bsize
   \/ length (predictions_of (net (batch_image data))) < bsize)%nat ->
  forall s, exists e,
    one_batch weights class_indices bsize net flag savefolder data s = Raise e.
Proof.
  intros Hshort s. unfold eval_batch.
  set (i := Nat.min (length (batch_labels data))
                    (length (predictions_of (net (batch_image data))))).
  match goal with
  | |- exists e, rbind (for_each ?body ?l ?s0) ?k = Raise e =>
      destruct (for_each_fails body l i) with (s := s0) as [e He]
  end.
  - apply in_seq. unfold i. lia.
  - intros t. unfold py_index.
    destruct (nth_error (predictions_of _) i) as [p|] eqn:Ep; cbn [rbind];
      [|eexists; reflexivity].
    destruct (nth_error (batch_labels data) i) as [l|] eqn:El; cbn [rbind];
      [|eexists; reflexivity].
    exfalso.
    assert (Hp : (i < length (predictions_of (net (batch_image data))))%nat)
      by (apply nth_error_Some; congruence).
    assert (Hl : (i < length (batch_labels data))%nat)
      by (apply nth_error_Some; congruence).
    unfold i in Hp, Hl. lia.
  - rewrite He. exists e. reflexivity.
Qed.

(** X2. A loader one of whose batches has fewer label maps or fewer
    prediction maps than its batch size (as the last batch of a loader
    that does not drop it) makes the evaluation raise, with [IndexError] or
    with the [ValueError] of an earlier image; no metrics are returned. *)
Theorem short_batch_stops_evaluation :
  forall (loader : dataloader image) (weights : list Q) (nclasses : nat)
         (net : list image -> outputs) (flag : bool) (savefolder : string),
    Exists (fun data =>
              (length (batch_labels data) < batch_size loader
               \/ length (predictions_of (net (batch_image data)))
                  < batch_size loader)%nat)
           (batches loader) ->
    exists e,
      evaluation loader weights nclasses net flag savefolder = Raise e
      /\ (e = "IndexError"%string \/ e = "ValueError"%string).
Proof.
  intros loader weights nclasses net flag savefolder Hshort.
  apply List.Exists_exists in Hshort. destruct Hshort as [data [Hin Hdata]].
  unfold evaluateNetwork, eval_loop.
  destruct (for_each_fails
              (one_batch weights (map Z.of_nat (seq 0 nclasses))
                         (batch_size loader) net flag savefolder)
              (batches loader) data Hin
              (eval_batch_short _ _ _ _ _ _ _ Hdata) (eval_init nclasses))
    as [e He].
  rewrite He. exists e. split; [reflexivity|].
  apply (for_each_raises
           (fun e => e = "IndexError"%string \/ e = "ValueError"%string))
    in He; [exact He|].
  intros x s e0. apply eval_batch_exceptions.
Qed.

End EvaluationMore.

Lemma mean_loss_is_mean_of_batch_losses_witness :
  let bs := [Sample.one_batch [0; 1; 1; 0] [0; 1; 0; -1];
             Sample.one_batch [1; 1] [1; 0]] in
  exists (m : metrics) (mean_loss : Q),
    Sample.evaluate bs 2 false = Ok (m, mean_loss)
    /\ mean_loss = (((1 # 3) + ((1 # 2) + 0)) / 2)%Q.
Proof.
  intros bs.
  destruct (Sample.evaluate bs 2 false) as [[m mean_loss]|e] eqn:E;
    [|vm_compute in E; discriminate E].
  exists m, mean_loss. split; [reflexivity|].
  destruct (mean_loss_is_mean_of_batch_losses (fun out => out)
              Sample.cross_entropy (Sample.loader bs) [] 2 Sample.net false ""
              m mean_loss E) as [_ Hmean].
  rewrite Hmean. vm_compute. reflexivity.
Defined.

Lemma short_batch_stops_evaluation_witness :
  let short := {| batch_image := [[0; 1]]; batch_labels := [[0; 1]];
                  batch_name := ["tile"%string] |} in
  let loader := {| batch_size := 4; batches := [short] |} in
  evaluateNetwork Sample.image Sample.outputs (fun out => out)
                  Sample.cross_entropy loader [] 2 Sample.net false ""
  = Raise "IndexError".
Proof.
  intros short loader.
  destruct (short_batch_stops_evaluation (fun out => out)
              Sample.cross_entropy loader [] 2 Sample.net false "")
    as [e [He _]].
  - apply Exists_cons_hd. left. cbn. lia.
  - etransitivity; [exact He|]. vm_compute in He. inversion He. reflexivity.
Defined.

Section EvaluationFlag.

Context {image outputs : Type}.
Variable predictions_of : outputs -> list (list Z).
Variable CrossEntropyLoss : list Q -> outputs -> list (list Z) -> Q.

Abbreviation batch_with flag weights class_indices bsize net :=
  (eval_batch image outputs predictions_of CrossEntropyLoss weights
              class_indices bsize net flag).
Abbreviation evaluation_with flag loader weights nclasses net :=
  (evaluateNetwork image outputs predictions_of CrossEntropyLoss loader
                   weights nclasses net flag).

(** A batch does the same to the confusion matrix, to the losses and to
    the saved results whether the label buffers are filled or not. *)
Lemma eval_batch_flag_rel (weights : list Q) (class_indices : list Z)
    (bsize : nat) (net : list image -> outputs) (savefolder : string)
    (data : batch image) (s t : eval_state) :
  same_but_buffers s t ->
  result_rel same_but_buffers
    (batch_with false weights class_indices bsize net savefolder data s)
    (batch_with true weights class_indices bsize net savefolder data t).
Proof.
  intros (Hcm & Hloss & Hsaved). unfold eval_batch. cbn [negb].
  apply (rbind_rel same_but_buffers same_but_buffers).
  - apply for_each_rel.
    + intros i a b (Ha & Hb & Hc).
      destruct (py_index (predictions_of _) i); cbn [rbind result_rel];
        [|reflexivity].
      destruct (py_index (batch_labels data) i); cbn [rbind result_rel];
        [|reflexivity].
      destruct (confusion_matrix _ _ _); cbn [rbind result_rel];
        [|reflexivity].
      unfold same_but_buffers. cbn [CM loss_values saved].
      rewrite Ha. auto.
    + unfold same_but_buffers. cbn [CM loss_values saved].
      rewrite Hcm, Hloss. auto.
  - intros a b Hab. apply for_each_rel; [|exact Hab].
    intros i a' b' (Ha & Hb & Hc).
    destruct (String.eqb savefolder ""); cbn [result_rel];
      [unfold same_but_buffers; auto|].
    destruct (py_index (batch_name data) i); cbn [rbind result_rel];
      [|reflexivity].
    destruct (py_index (batch_image data) i); cbn [rbind result_rel];
      [|reflexivity].
    unfold same_but_buffers. cbn [CM loss_values saved].
    rewrite Hc. auto.
Qed.

(** X3. Skipping the Jaccard score changes nothing else: when the
    evaluation of a split returns with [flagTrainingDataset=False], the
    evaluation with [flagTrainingDataset=True] returns the same confusion
    matrix, normalized matrix, accuracy and mean loss, with the Jaccard
    score 0.0. *)
Theorem training_flag_only_drops_jaccard :
  forall (loader : dataloader image) (weights : list Q) (nclasses : nat)
         (net : list image -> outputs) (savefolder : string)
         (m : metrics) (mean_loss : Q),
    evaluation_with false loader weights nclasses net savefolder
    = Ok (m, mean_loss) ->
    evaluation_with true loader weights nclasses net savefolder
    = Ok ({| ConfMatrix := ConfMatrix m;
             NormConfMatrix := NormConfMatrix m;
             Accuracy := Accuracy m;
             JaccardScore := 0%Q |}, mean_loss).
Proof.
  intros loader weights nclasses net savefolder m mean_loss H.
  unfold evaluateNetwork, eval_loop in *.
  pose proof (for_each_rel same_but_buffers
                (batch_with false weights (map Z.of_nat (seq 0 nclasses))
                            (batch_size loader) net savefolder)
                (batch_with true weights (map Z.of_nat (seq 0 nclasses))
                            (batch_size loader) net savefolder)
                (batches loader)
                (fun data s t => eval_batch_flag_rel _ _ _ _ _ data s t)
                (eval_init nclasses) (eval_init nclasses)
                (conj eq_refl (conj eq_refl eq_refl))) as Hrel.
  destruct (for_each (eval_batch _ _ _ _ _ _ _ _ false _) _ _) as [s|e];
    cbn [rbind] in H; [|discriminate].
  destruct (for_each (eval_batch _ _ _ _ _ _ _ _ true _) _ _) as [t|e];
    cbn [result_rel] in Hrel; [|contradiction].
  destruct Hrel as (Hcm & Hloss & _). cbn [rbind].
  unfold eval_metrics in *. cbn [negb] in *.
  rewrite <- Hcm, <- Hloss.
  destruct (length (loss_values s) =? 0)%nat; cbn [rbind] in *;
    [discriminate|].
  destruct (jaccard_score_weighted _ _) as [j|e]; cbn [rbind] in H;
    [|discriminate].
  destruct (mat_sum (CM s) =? 0); cbn [rbind] in *; [discriminate|].
  inversion H. reflexivity.
Qed.

End EvaluationFlag.

Lemma training_flag_only_drops_jaccard_witness :
  let bs := [Sample.one_batch [0; 1; 1; 0] [0; 1; 0; -1];
             Sample.one_batch [1; 1] [1; 0]] in
  exists (m : metrics) (mean_loss : Q),
    Sample.evaluate bs 2 false = Ok (m, mean_loss)
    /\ Sample.evaluate bs 2 true
       = Ok ({| ConfMatrix := ConfMatrix m;
                NormConfMatrix := NormConfMatrix m;
                Accuracy := Accuracy m;
                JaccardScore := 0%Q |}, mean_loss).
Proof.
  intros bs.
  destruct (Sample.evaluate bs 2 false) as [[m mean_loss]|e] eqn:E;
    [|vm_compute in E; discriminate E].
  exists m, mean_loss. split; [reflexivity|].
  exact (training_flag_only_drops_jaccard (fun out => out)
           Sample.cross_entropy (Sample.loader bs) [] 2 Sample.net ""
           m mean_loss E).
Defined.

(** ** The confusion matrix and the accuracy *)

Lemma np_zeros_count_matrix (n : nat) : count_matrix n (np_zeros n).
Proof.
  unfold count_matrix, np_zeros. split; [apply repeat_length|].
  apply List.Forall_forall. intros row Hrow. apply repeat_spec in Hrow. subst row.
  split; [apply repeat_length|].
  apply List.Forall_forall. intros x Hx. apply repeat_spec in Hx. lia.
Qed.

Lemma confusion_matrix_count_matrix (y_true y_pred labels : list Z)
    (M : matrix) :
  confusion_matrix y_true y_pred labels = Ok M ->
  count_matrix (length labels) M.
Proof.
  unfold confusion_matrix. intros H.
  destruct (negb (length y_true =? length y_pred)%nat); [discriminate|].
  destruct (forallb _ labels); [discriminate|].
  inversion H. unfold count_matrix. split; [apply length_map|].
  apply List.Forall_forall. intros row Hrow. apply in_map_iff in Hrow.
  destruct Hrow as [t [Hrow _]]. subst row. split; [apply length_map|].
  apply List.Forall_forall. intros x Hx. apply in_map_iff in Hx.
  destruct Hx as [p [Hx _]]. subst x. unfold count_pairs. lia.
Qed.

Lemma zip_with_Forall {A : Type} (P : A -> Prop) (f : A -> A -> A)
    (a b : list A) :
  (forall x y, P x -> P y -> P (f x y)) ->
  Forall P a -> Forall P b -> Forall P (zip_with f a b).
Proof.
  intros Hf Ha. revert b. induction Ha as [|x a Hx Ha IH]; intros b Hb.
  - constructor.
  - destruct Hb as [|y b Hy Hb]; cbn [zip_with]; constructor; auto.
Qed.

Lemma zip_with_same_length {A : Type} (f : A -> A -> A) (a b : list A) :
  length a = length b -> length (zip_with f a b) = length a.
Proof.
  revert b. induction a as [|x a IH]; intros b H; [reflexivity|].
  destruct b as [|y b]; [discriminate|].
  cbn [zip_with length]. f_equal. apply IH. cbn in H. lia.
Qed.

Lemma mat_add_count_matrix (n : nat) (A B : matrix) :
  count_matrix n A -> count_matrix n B -> count_matrix n (mat_add A B).
Proof.
  unfold count_matrix, mat_add. intros [HlA HA] [HlB HB]. split.
  - rewrite zip_with_same_length; [exact HlA | congruence].
  - apply zip_with_Forall; [|exact HA | exact HB].
    intros a b [Hla Ha] [Hlb Hb]. split.
    + rewrite zip_with_same_length; [exact Hla | congruence].
    + apply zip_with_Forall; [|exact Ha | exact Hb]. intros x y Hx Hy. lia.
Qed.

Lemma nth_le_Zsum (row : list Z) (i : nat) :
  Forall (fun x => 0 <= x) row -> 0 <= nth i row 0 <= Zsum row.
Proof.
  intros H. revert i. induction H as [|x row Hx Hrow IH]; intros i.
  - destruct i; cbn; lia.
  - destruct i as [|i]; cbn [nth Zsum fold_right]; fold (Zsum row).
    + specialize (IH 0%nat). lia.
    + specialize (IH i). lia.
Qed.

Lemma Zsum_imap_le (A : matrix) :
  forall f : nat -> list Z -> Z,
    (forall i row, In row A -> 0 <= f i row <= Zsum row) ->
    0 <= Zsum (imap f A) <= Zsum (map Zsum A).
Proof.
  induction A as [|row A IH]; intros f Hf.
  - cbn. lia.
  - cbn [imap map Zsum fold_right].
    fold (Zsum (imap (f ∘ S) A)). fold (Zsum (map Zsum A)).
    pose proof (Hf 0%nat row (or_introl eq_refl)).
    pose proof (IH (f ∘ S) (fun i r Hr => Hf (S i) r (or_intror Hr))).
    lia.
Qed.

Lemma trace_le_sum (n : nat) (A : matrix) :
  count_matrix n A -> 0 <= mat_trace A <= mat_sum A.
Proof.
  intros [_ HA]. unfold mat_trace, mat_sum. apply Zsum_imap_le.
  intros i row Hrow. apply nth_le_Zsum.
  rewrite List.Forall_forall in HA. exact (proj2 (HA row Hrow)).
Qed.

Section AccuracyFacts.

Context {image outputs : Type}.
Variable predictions_of : outputs -> list (list Z).
Variable CrossEntropyLoss : list Q -> outputs -> list (list Z) -> Q.

Lemma eval_batch_count_matrix (weights : list Q) (class_indices : list Z)
    (bsize : nat) (net : list image -> outputs) (flag : bool)
    (savefolder : string) (data : batch image) (s s' : eval_state) :
  count_matrix (length class_indices) (CM s) ->
  eval_batch image outputs predictions_of CrossEntropyLoss weights
             class_indices bsize net flag savefolder data s = Ok s' ->
  count_matrix (length class_indices) (CM s').
Proof.
  intros Hs H. unfold eval_batch in H.
  match type of H with
  | rbind ?r _ = _ => destruct r as [s1|e] eqn:E1; cbn [rbind] in H;
                      [|discriminate]
  end.
  apply (for_each_preserves CM) in H.
  - rewrite H.
    apply (for_each_invariant
             (fun t => count_matrix (length class_indices) (CM t))) in E1;
      [exact E1 | | destruct flag; exact Hs].
    intros i t t' _ Ht Hb.
    destruct (py_index _ i); cbn [rbind] in Hb; [|discriminate].
    destruct (py_index _ i); cbn [rbind] in Hb; [|discriminate].
    destruct (confusion_matrix _ _ _) as [M|] eqn:Ec; cbn [rbind] in Hb;
      [|discriminate].
    inversion Hb. cbn [CM]. apply mat_add_count_matrix; [exact Ht|].
    exact (confusion_matrix_count_matrix _ _ _ _ Ec).
  - intros i t t' Hb. destruct (String.eqb savefolder ""); [congruence|].
    destruct (py_index _ i); cbn [rbind] in Hb; [|discriminate].
    destruct (py_index _ i); cbn [rbind] in Hb; [|discriminate].
    inversion Hb. reflexivity.
Qed.

(** X4. The confusion matrix that the evaluation returns has [nclasses]
    rows of [nclasses] counts, none of them negative; at least one pixel
    was counted, and the accuracy is the share of the diagonal, between 0
    and 1. *)
Theorem accuracy_is_a_share :
  forall (loader : dataloader image) (weights : list Q) (nclasses : nat)
         (net : list image -> outputs) (flag : bool) (savefolder : string)
         (m : metrics) (mean_loss : Q),
    evaluateNetwork image outputs predictions_of CrossEntropyLoss loader
                    weights nclasses net flag savefolder
    = Ok (m, mean_loss) ->
    count_matrix nclasses (ConfMatrix m)
    /\ 0 < mat_sum (ConfMatrix m)
    /\ Accuracy m = (inject_Z (mat_trace (ConfMatrix m))
                     / inject_Z (mat_sum (ConfMatrix m)))%Q
    /\ (0 <= Accuracy m <= 1)%Q.
Proof.
  intros loader weights nclasses net flag savefolder m mean_loss H.
  unfold evaluateNetwork in H.
  destruct (eval_loop _ _ _ _ loader weights nclasses net flag savefolder)
    as [s|e] eqn:E; cbn [rbind] in H; [|discriminate].
  assert (Hcm : count_matrix nclasses (CM s)).
  { unfold eval_loop in E.
    apply (for_each_invariant (fun t => count_matrix nclasses (CM t))) in E;
      [exact E | | apply np_zeros_count_matrix].
    intros data t t' _ Ht Hb.
    assert (Hlen : length (map Z.of_nat (seq 0 nclasses)) = nclasses)
      by (rewrite length_map; apply length_seq).
    rewrite <- Hlen in Ht.
    pose proof (eval_batch_count_matrix _ _ _ _ _ _ _ _ _ Ht Hb) as Ht'.
    rewrite Hlen in Ht'. exact Ht'. }
  unfold eval_metrics in H.
  destruct (length (loss_values s) =? 0)%nat; cbn [rbind] in H;
    [discriminate|].
  destruct (if negb flag then _ else _) as [j|e]; cbn [rbind] in H;
    [|discriminate].
  destruct (mat_sum (CM s) =? 0) eqn:Es; cbn [rbind] in H; [discriminate|].
  inversion H. subst. cbn [ConfMatrix Accuracy]. clear H.
  apply Z.eqb_neq in Es. pose proof (trace_le_sum _ _ Hcm) as Htr.
  assert (Hpos : 0 < mat_sum (CM s)) by lia.
  split; [exact Hcm|]. split; [exact Hpos|]. split; [reflexivity|].
  assert (HposQ : (0 < inject_Z (mat_sum (CM s)))%Q).
  { replace 0%Q with (inject_Z 0) by reflexivity. rewrite <- Zlt_Qlt.
    exact Hpos. }
  split.
  - apply Qle_shift_div_l; [exact HposQ|]. rewrite Qmult_0_l.
    replace 0%Q with (inject_Z 0) by reflexivity. rewrite <- Zle_Qle. lia.
  - apply Qle_shift_div_r; [exact HposQ|]. rewrite Qmult_1_l.
    rewrite <- Zle_Qle. lia.
Qed.

End AccuracyFacts.

Lemma accuracy_is_a_share_witness :
  let bs := [Sample.one_batch [0; 1; 1; 0] [0; 1; 0; -1];
             Sample.one_batch [1; 1] [1; 0]] in
  exists (m : metrics) (mean_loss : Q),
    Sample.evaluate bs 2 false = Ok (m, mean_loss)
    /\ ConfMatrix m = [[1; 2]; [0; 2]]
    /\ (0 <= Accuracy m <= 1)%Q.
Proof.
  intros bs.
  destruct (Sample.evaluate bs 2 false) as [[m mean_loss]|e] eqn:E;
    [|vm_compute in E; discriminate E].
  exists m, mean_loss. split; [reflexivity|].
  split; [vm_compute in E; inversion E; reflexivity|].
  exact (proj2 (proj2 (proj2
           (accuracy_is_a_share (fun out => out) Sample.cross_entropy
              (Sample.loader bs) [] 2 Sample.net false "" m mean_loss E)))).
Defined.

(** ** The normalized confusion matrix *)

Lemma Qsum_map_div (q : Q) (row : list Z) :
  (Qsum (map (fun x => inject_Z x / q) row) == inject_Z (Zsum row) / q)%Q.
Proof.
  induction row as [|x row IH]; cbn [map Qsum Zsum fold_right].
  - unfold Qdiv. ring.
  - fold (Qsum (map (fun x => inject_Z x / q)%Q row)). fold (Zsum row).
    rewrite IH, inject_Z_plus. unfold Qdiv. ring.
Qed.

Lemma normalize_rows_spec (A : matrix) :
  Forall2 normalized_row A (normalize_rows A).
Proof.
  unfold normalize_rows. induction A as [|row A IH]; cbn [map];
    constructor; [|exact IH].
  unfold normalized_row. cbv zeta.
  destruct (Zsum row =? 0) eqn:Es; [reflexivity|].
  exists (map (fun x => inject_Z x / inject_Z (Zsum row))%Q row).
  split; [rewrite map_map; reflexivity|].
  split; [apply length_map|].
  rewrite Qsum_map_div. apply Qmult_inv_r.
  apply Z.eqb_neq in Es. intros H0. apply Es.
  unfold Qeq in H0. cbn in H0. lia.
Qed.

(** X5. In the metrics returned, every row of the normalized confusion
    matrix whose class has pixels in the ground truth sums to one, and
    every row of a class without any is a row of NaN; nothing is raised
    for such a row. *)
Theorem normalized_rows_sum_to_one :
  forall (image outputs : Type)
         (predictions_of : outputs -> list (list Z))
         (CrossEntropyLoss : list Q -> outputs -> list (list Z) -> Q)
         (loader : dataloader image) (weights : list Q) (nclasses : nat)
         (net : list image -> outputs) (flag : bool) (savefolder : string)
         (m : metrics) (mean_loss : Q),
    evaluateNetwork image outputs predictions_of CrossEntropyLoss loader
                    weights nclasses net flag savefolder
    = Ok (m, mean_loss) ->
    Forall2 normalized_row (ConfMatrix m) (NormConfMatrix m).
Proof.
  intros image outputs predictions_of CrossEntropyLoss loader weights
         nclasses net flag savefolder m mean_loss H.
  unfold evaluateNetwork in H.
  destruct (eval_loop _ _ _ _ loader weights nclasses net flag savefolder)
    as [s|e]; cbn [rbind] in H; [|discriminate].
  unfold eval_metrics in H.
  destruct (length (loss_values s) =? 0)%nat; cbn [rbind] in H;
    [discriminate|].
  destruct (if negb flag then _ else _) as [j|e]; cbn [rbind] in H;
    [|discriminate].
  destruct (mat_sum (CM s) =? 0); cbn [rbind] in H; [discriminate|].
  inversion H. cbn [ConfMatrix NormConfMatrix]. apply normalize_rows_spec.
Qed.

Lemma normalized_rows_sum_to_one_witness :
  let bs := [Sample.one_batch [0; 0; 0] [0; 0; 2]] in
  exists (m : metrics) (mean_loss : Q),
    Sample.evaluate bs 3 false = Ok (m, mean_loss)
    /\ NormConfMatrix m
       = [[Some (2 # 2); Some (0 # 2); Some (0 # 2)];
          [None; None; None];
          [Some (1 # 1); Some (0 # 1); Some (0 # 1)]]%Q
    /\ Forall2 normalized_row (ConfMatrix m) (NormConfMatrix m).
Proof.
  intros bs.
  destruct (Sample.evaluate bs 3 false) as [[m mean_loss]|e] eqn:E;
    [|vm_compute in E; discriminate E].
  exists m, mean_loss. split; [reflexivity|].
  split; [vm_compute in E; inversion E; reflexivity|].
  exact (normalized_rows_sum_to_one _ _ (fun out => out) Sample.cross_entropy
           (Sample.loader bs) [] 3 Sample.net false "" m mean_loss E).
Defined.

(** ** Images without any pixel of a class *)




(** ** Misconfigured runs *)

Lemma training_loss_unknown {outputs labels : Type}
    (L : losses_module outputs labels) (lossfn : outputs -> labels -> Q)
    (loss_to_use : string) (epoch epochs_switch : Z) (w : list Q)
    (out : outputs) (lab : labels) :
  ~ In loss_to_use ["CROSSENTROPY"; "DICE"; "BOUNDARY"; "DICE+BOUNDARY"]%string ->
  training_loss L lossfn loss_to_use epoch epochs_switch w out lab
  = Raise "UnboundLocalError".
Proof.
  intros H. unfold training_loss.
  repeat match goal with
         | |- context [String.eqb loss_to_use ?name] =>
             destruct (String.eqb_spec loss_to_use name) as [Heq|_];
             [exfalso; apply H; rewrite Heq; cbn; tauto|]
         end.
  reflexivity.
Qed.

Section Misconfiguration.

Context {image outputs network : Type}.
Variable torch : torch_api image outputs network.
Variable losses : losses_module outputs (list (list Z)).
Variable dataloaderTrain dataloaderVal : dataloader image.
Variable dataset_weights : list Q.
Variable dataset_num_classes : nat.
Variable save_network_as : string.
Variable epochs_switch : Z.

(** X7. A [loss_to_use] that is none of the four names is not refused
    when the run starts: the first epoch does its first forward pass and
    then raises [UnboundLocalError], at [loss.backward()]. *)
Theorem unknown_loss_raises_at_first_batch :
  forall (batch_mult : Z) (loss_to_use : string) (epoch : Z)
         (st : train_state network),
    ~ In loss_to_use
         ["CROSSENTROPY"; "DICE"; "BOUNDARY"; "DICE+BOUNDARY"]%string ->
    batches dataloaderTrain <> [] ->
    train_epoch torch losses dataloaderTrain dataset_weights batch_mult
                epochs_switch loss_to_use epoch st
    = Raise "UnboundLocalError".
Proof.
  intros batch_mult loss_to_use epoch st Hname Hne.
  unfold train_epoch, enumerate.
  destruct (batches dataloaderTrain) as [|b rest]; [congruence|].
  cbn [enumerate_from for_each]. unfold train_batch at 1. cbn [fst snd].
  rewrite (training_loss_unknown _ _ _ _ _ _ _ _ Hname). reflexivity.
Qed.

(** X8. With [batch_mult = 0] the first mini-batch of the first epoch is
    run forward and backward, and the test of line 304 then raises
    [ZeroDivisionError]; no optimizer step is applied. *)
Theorem zero_batch_mult_raises :
  forall (loss_to_use : string) (epoch : Z) (st : train_state network),
    In loss_to_use ["CROSSENTROPY"; "DICE"; "BOUNDARY"; "DICE+BOUNDARY"]%string ->
    batches dataloaderTrain <> [] ->
    train_epoch torch losses dataloaderTrain dataset_weights 0
                epochs_switch loss_to_use epoch st
    = Raise "ZeroDivisionError".
Proof.
  intros loss_to_use epoch st Hname Hne.
  unfold train_epoch, enumerate.
  destruct (batches dataloaderTrain) as [|b rest]; [congruence|].
  cbn [enumerate_from for_each]. unfold train_batch at 1. cbn [fst snd].
  match goal with
  | |- context [training_loss ?L ?f ?n ?e ?sw ?w ?o ?l] =>
      destruct (training_loss_known L sw n e Hname f w o l) as [loss Hloss];
      rewrite Hloss
  end.
  reflexivity.
Qed.

Lemma train_epoch_returns (batch_mult : Z) (loss_to_use : string)
    (epoch : Z) (st : train_state network) :
  0 < batch_mult ->
  In loss_to_use ["CROSSENTROPY"; "DICE"; "BOUNDARY"; "DICE+BOUNDARY"]%string ->
  exists st',
    train_epoch torch losses dataloaderTrain dataset_weights batch_mult
                epochs_switch loss_to_use epoch st = Ok st'.
Proof.
  intros Hpos Hname. unfold train_epoch, enumerate.
  match goal with
  | |- exists st', for_each _ _ ?s0 = Ok st' =>
      destruct (train_batches_calls torch losses dataset_weights batch_mult
                  epochs_switch loss_to_use epoch Hpos Hname
                  (batches dataloaderTrain) 0 s0 0%nat 0%nat (calls s0))
        as (st' & _ & _ & Hrun & _)
  end.
  - lia.
  - lia.
  - cbn [repeat concat app]. rewrite app_nil_r. reflexivity.
  - exists st'. exact Hrun.
Qed.

(** X9. A validation frequency of zero is noticed at the second epoch
    only: the first epoch never validates, so a run of two epochs or more
    trains for two epochs and then raises [ZeroDivisionError]. *)
Theorem zero_validation_frequency_raises :
  forall (batch_mult : Z) (loss_to_use : string) (epochs : Z)
         (st : train_state network),
    0 < batch_mult ->
    In loss_to_use ["CROSSENTROPY"; "DICE"; "BOUNDARY"; "DICE+BOUNDARY"]%string ->
    2 <= epochs ->
    training_loop torch losses dataloaderTrain dataloaderVal dataset_weights
                  dataset_num_classes save_network_as batch_mult 0
                  epochs_switch loss_to_use epochs st
    = Raise "ZeroDivisionError"
    /\ exists st1,
         training_loop torch losses dataloaderTrain dataloaderVal
                       dataset_weights dataset_num_classes save_network_as
                       batch_mult 0 epochs_switch loss_to_use 1 st
         = Ok st1.
Proof.
  intros batch_mult loss_to_use epochs st Hpos Hname Hepochs.
  destruct (train_epoch_returns batch_mult loss_to_use 0 st Hpos Hname)
    as [st1 H0].
  destruct (train_epoch_returns batch_mult loss_to_use 1 st1 Hpos Hname)
    as [st2 H1].
  split.
  - unfold training_loop.
    destruct (Z.to_nat epochs) as [|[|k]] eqn:Ek; [lia | lia |].
    cbn [seq map for_each]. change (Z.of_nat 0) with 0.
    change (Z.of_nat 1) with 1.
    unfold training_epoch at 1. rewrite H0. cbn [rbind Z.ltb Z.compare].
    unfold training_epoch at 1. rewrite H1. reflexivity.
  - exists st1. unfold training_loop. change (Z.to_nat 1) with 1%nat.
    cbn [seq map for_each]. change (Z.of_nat 0) with 0.
    unfold training_epoch. rewrite H0. reflexivity.
Qed.

End Misconfiguration.

Lemma unknown_loss_raises_at_first_batch_witness :
  train_epoch Sample.torch Sample.losses
              {| batch_size := 4;
                 batches := repeat (Sample.one_batch [0] [0]) 3 |}
              [1; 1]%Q 8 8 "FOCAL" 0 (train_init 0%nat)
  = Raise "UnboundLocalError".
Proof.
  apply (unknown_loss_raises_at_first_batch Sample.torch Sample.losses).
  - cbn. intros [H|[H|[H|[H|[]]]]]; discriminate H.
  - cbn. discriminate.
Defined.

Lemma zero_batch_mult_raises_witness :
  train_epoch Sample.torch Sample.losses
              {| batch_size := 4;
                 batches := repeat (Sample.one_batch [0] [0]) 3 |}
              [1; 1]%Q 0 8 "DICE" 0 (train_init 0%nat)
  = Raise "ZeroDivisionError".
Proof.
  apply (zero_batch_mult_raises Sample.torch Sample.losses).
  - cbn. tauto.
  - cbn. discriminate.
Defined.

Lemma zero_validation_frequency_raises_witness :
  let loader := {| batch_size := 4;
                   batches := repeat (Sample.one_batch [0] [0]) 3 |} in
  training_loop Sample.torch Sample.losses loader loader [1; 1]%Q 1
                "DEEPLAB.net" 8 0 8 "DICE" 20 (train_init 0%nat)
  = Raise "ZeroDivisionError".
Proof.
  intros loader.
  apply (zero_validation_frequency_raises Sample.torch Sample.losses
           loader loader [1; 1]%Q 1 "DEEPLAB.net" 8 8 "DICE" 20
           (train_init 0%nat)).
  - lia.
  - cbn. tauto.
  - lia.
Defined.

(** ** How often a run validates *)

Lemma for_each_app {A S : Type} (body : A -> S -> result S)
    (l1 l2 : list A) (s : S) :
  for_each body (l1 ++ l2) s
  = rbind (for_each body l1 s) (for_each body l2).
Proof.
  revert s. induction l1 as [|x l1 IH]; intros s; cbn [app for_each rbind].
  - reflexivity.
  - destruct (body x s) as [s1|e]; cbn [rbind]; [apply IH | reflexivity].
Qed.

Lemma validation_passes_succ (n vf : Z) :
  0 <= n -> 0 < vf ->
  validation_passes (n + 1) vf
  = validation_passes n vf
    + (if (0 <? n) && ((n + 1) mod vf =? 0) then 1 else 0).
Proof.
  intros Hn Hvf. unfold validation_passes.
  destruct (vf =? 1) eqn:E1.
  - apply Z.eqb_eq in E1. subst vf. rewrite Z.mod_1_r. cbn [Z.eqb andb].
    destruct (0 <? n) eqn:E0; [apply Z.ltb_lt in E0 | apply Z.ltb_ge in E0];
      cbn [andb]; lia.
  - apply Z.eqb_neq in E1.
    pose proof (Z.div_mod n vf ltac:(lia)) as Hdm.
    pose proof (Z.mod_pos_bound n vf Hvf) as Hb.
    destruct (Z.eq_dec (n mod vf + 1) vf) as [Hfull|Hpart].
    + assert (Hdiv : (n + 1) / vf = n / vf + 1).
      { symmetry. apply (Z.div_unique (n + 1) vf (n / vf + 1) 0); lia. }
      assert (Hmod : (n + 1) mod vf = 0).
      { symmetry. apply (Z.mod_unique (n + 1) vf (n / vf + 1) 0); lia. }
      rewrite Hdiv, Hmod. cbn [Z.eqb].
      replace (0 <? n) with true; [cbn [andb]; reflexivity|].
      symmetry. apply Z.ltb_lt.
      destruct (Z.eq_dec n 0) as [H0|H0]; [|lia].
      subst n. rewrite Z.mod_0_l in Hfull by lia. lia.
    + assert (Hdiv : (n + 1) / vf = n / vf).
      { symmetry. apply (Z.div_unique (n + 1) vf (n / vf) (n mod vf + 1)); lia. }
      assert (Hmod : (n + 1) mod vf = n mod vf + 1).
      { symmetry.
        apply (Z.mod_unique (n + 1) vf (n / vf) (n mod vf + 1)); lia. }
      rewrite Hdiv, Hmod.
      replace (n mod vf + 1 =? 0) with false
        by (symmetry; apply Z.eqb_neq; lia).
      rewrite andb_false_r. lia.
Qed.

Section ValidationSchedule.

Context {image outputs network : Type}.
Variable torch : torch_api image outputs network.
Variable losses : losses_module outputs (list (list Z)).
Variable dataloaderTrain dataloaderVal : dataloader image.
Variable dataset_weights : list Q.
Variable dataset_num_classes : nat.
Variable save_network_as : string.
Variable batch_mult validation_frequency epochs_switch : Z.
Variable loss_to_use : string.

Lemma train_epoch_keeps_scalars (epoch : Z) (st st' : train_state network) :
  train_epoch torch losses dataloaderTrain dataset_weights batch_mult
              epochs_switch loss_to_use epoch st = Ok st' ->
  scalars st' = scalars st.
Proof.
  unfold train_epoch. intros H.
  apply (for_each_preserves scalars) in H; [exact H|].
  intros im t t' Hb. unfold train_batch in Hb.
  destruct (training_loss _ _ _ _ _ _ _ _) as [loss|e]; cbn [rbind] in Hb;
    [|discriminate].
  destruct (batch_mult =? 0); cbn [rbind] in Hb; [discriminate|].
  destruct (_ mod batch_mult =? 0); cbn [rbind] in Hb;
    inversion Hb; reflexivity.
Qed.

Lemma checkpoint_keeps_scalars (mv mt : metrics) (st : train_state network) :
  scalars (checkpoint save_network_as mv mt st) = scalars st.
Proof.
  unfold checkpoint. cbv zeta.
  destruct (Qlt_bool _ _); reflexivity.
Qed.

Lemma validation_adds_four_scalars (epoch : Z) (st st' : train_state network) :
  validation torch dataloaderTrain dataloaderVal dataset_weights
             dataset_num_classes save_network_as epoch st = Ok st' ->
  length (scalars st') = (length (scalars st) + 4)%nat.
Proof.
  unfold validation. intros H.
  destruct (evaluateNetwork image outputs _ _ dataloaderVal _ _ _ false "")
    as [[mv lv]|e]; cbn [rbind fst snd] in H; [|discriminate].
  destruct (evaluateNetwork image outputs _ _ dataloaderTrain _ _ _ true "")
    as [[mt lt]|e]; cbn [rbind fst snd] in H; [|discriminate].
  inversion H. rewrite checkpoint_keeps_scalars. cbn [scalars add_scalar with_net].
  rewrite !length_app. cbn [length]. lia.
Qed.

Lemma training_epoch_scalars (epoch : Z) (st st' : train_state network) :
  0 < validation_frequency ->
  training_epoch torch losses dataloaderTrain dataloaderVal dataset_weights
                 dataset_num_classes save_network_as batch_mult
                 validation_frequency epochs_switch loss_to_use epoch st
  = Ok st' ->
  Z.of_nat (length (scalars st'))
  = Z.of_nat (length (scalars st))
    + 4 * (if (0 <? epoch) && ((epoch + 1) mod validation_frequency =? 0)
           then 1 else 0).
Proof.
  intros Hvf H. unfold training_epoch in H.
  destruct (train_epoch _ _ _ _ _ _ _ _ st) as [st1|e] eqn:E;
    cbn [rbind] in H; [|discriminate].
  apply train_epoch_keeps_scalars in E. rewrite <- E.
  destruct (0 <? epoch); cbn [andb].
  - replace (validation_frequency =? 0) with false in H
      by (symmetry; apply Z.eqb_neq; lia).
    destruct (_ mod validation_frequency =? 0).
    + apply validation_adds_four_scalars in H. lia.
    + inversion H. lia.
  - inversion H. lia.
Qed.

(** X10. A run of [epochs] epochs that ends has validated
    [epochs / validation_frequency] times, and [epochs - 1] times when the
    frequency is 1, because the first epoch is never validated; every
    validation logs four scalars. *)
Theorem run_validates_every_frequency_epochs :
  forall (epochs : Z) (st st' : train_state network),
    0 < validation_frequency ->
    0 <= epochs ->
    training_loop torch losses dataloaderTrain dataloaderVal dataset_weights
                  dataset_num_classes save_network_as batch_mult
                  validation_frequency epochs_switch loss_to_use epochs st
    = Ok st' ->
    Z.of_nat (length (scalars st'))
    = Z.of_nat (length (scalars st))
      + 4 * validation_passes epochs validation_frequency.
Proof.
  intros epochs st st' Hvf Hepochs. unfold training_loop.
  rewrite <- (Z2Nat.id epochs Hepochs) at 2.
  generalize (Z.to_nat epochs) as n. clear epochs Hepochs.
  intros n. revert st'. induction n as [|n IH]; intros st' H.
  - cbn in H. inversion H. unfold validation_passes.
    destruct (validation_frequency =? 1); [cbn; lia|].
    rewrite Z.div_0_l by lia. lia.
  - rewrite seq_S, map_app, for_each_app in H. cbn [Nat.add map] in H.
    destruct (for_each _ (map Z.of_nat (seq 0 n)) st) as [st1|e];
      cbn [rbind] in H; [|discriminate].
    specialize (IH st1 eq_refl). cbn [for_each] in H.
    destruct (training_epoch _ _ _ _ _ _ _ _ _ _ _ _ st1) as [st2|e] eqn:E;
      cbn [rbind] in H; [|discriminate].
    inversion H. subst st2.
    apply training_epoch_scalars in E; [|exact Hvf].
    rewrite Nat2Z.inj_succ. unfold Z.succ.
    rewrite validation_passes_succ by lia. lia.
Qed.

End ValidationSchedule.

Lemma run_validates_every_frequency_epochs_witness :
  let loader := Sample.loader (repeat (Sample.one_batch [0] [0]) 3) in
  exists st' : train_state nat,
    training_loop Sample.torch Sample.losses loader loader [1; 1]%Q 1
                  "DEEPLAB.net" 8 5 8 "DICE" 20 (train_init 0%nat) = Ok st'
    /\ length (scalars st') = 16%nat.
Proof.
  intros loader.
  destruct (training_loop Sample.torch Sample.losses loader loader [1; 1]%Q 1
              "DEEPLAB.net" 8 5 8 "DICE" 20 (train_init 0%nat))
    as [st'|e] eqn:E; [|vm_compute in E; discriminate E].
  exists st'. split; [reflexivity|].
  pose proof (run_validates_every_frequency_epochs Sample.torch Sample.losses
                loader loader [1; 1]%Q 1 "DEEPLAB.net" 8 5 8 "DICE" 20
                (train_init 0%nat) st' ltac:(lia) ltac:(lia) E) as H.
  change (validation_passes 20 5) with 4 in H.
  cbn [train_init scalars length] in H. lia.
Defined.

(** ** What the best scores stand for *)

Section BestScores.

Context {network : Type}.
Variable save_network_as : string.

Lemma checkpoint_pairs_scores (mv mt : metrics) (st : train_state network) :
  let st' := checkpoint save_network_as mv mt st in
  (st' = st)
  \/ (best_jaccard_score st' = JaccardScore mv
      /\ best_accuracy st' = Accuracy mv
      /\ disk st' <> []).
Proof.
  cbv zeta.
  destruct (Qlt_le_dec (best_jaccard_score st) (JaccardScore mv)) as [H|H].
  - right. rewrite (checkpoint_improves _ _ _ _ H). cbn.
    repeat split. intros Hd. apply app_eq_nil in Hd. destruct Hd as [_ Hd].
    discriminate Hd.
  - left. apply checkpoint_keeps. intros Hlt. exact (Qlt_not_le _ _ Hlt H).
Qed.

(** X11. The best accuracy that a run reports is the accuracy of the
    validation pass that holds the best Jaccard score, not the highest
    accuracy seen: after any validation passes either nothing was ever
    saved and both scores are the initial 0.0, or both scores come from
    one and the same pass. *)
Theorem best_accuracy_goes_with_best_jaccard :
  forall (passes : list (metrics * metrics)) (net0 : network),
    let st := checkpoints save_network_as passes (train_init net0) in
    (disk st = [] /\ best_jaccard_score st = 0%Q /\ best_accuracy st = 0%Q)
    \/ Exists (fun p => best_jaccard_score st = JaccardScore (fst p)
                        /\ best_accuracy st = Accuracy (fst p))
              passes.
Proof.
  intros passes net0.
  assert (Hgen : forall st0 : train_state network,
             let st := checkpoints save_network_as passes st0 in
             st = st0
             \/ (disk st <> []
                 /\ Exists (fun p => best_jaccard_score st = JaccardScore (fst p)
                                     /\ best_accuracy st = Accuracy (fst p))
                           passes)).
  { induction passes as [|p passes IH]; intros st0; cbv zeta.
    - left. reflexivity.
    - unfold checkpoints. cbn [fold_left].
      fold (checkpoints save_network_as passes
              (checkpoint save_network_as (fst p) (snd p) st0)).
      destruct (IH (checkpoint save_network_as (fst p) (snd p) st0))
        as [Hsame|[Hd Hex]].
      + rewrite Hsame.
        destruct (checkpoint_pairs_scores (fst p) (snd p) st0)
          as [Hkeep|(Hj & Ha & Hd)].
        * left. exact Hkeep.
        * right. split; [exact Hd|]. apply Exists_cons_hd. split; assumption.
      + right. split; [exact Hd|]. apply Exists_cons_tl. exact Hex. }
  cbv zeta. destruct (Hgen (train_init net0)) as [Hsame|[_ Hex]].
  - left. rewrite Hsame. cbn. repeat split.
  - right. exact Hex.
Qed.

(** X12. A run whose validation Jaccard scores never exceed 0.0 saves no
    network and no report at all. *)
Theorem no_positive_score_saves_nothing :
  forall (passes : list (metrics * metrics)) (net0 : network),
    Forall (fun p => (JaccardScore (fst p) <= 0)%Q) passes ->
    checkpoints save_network_as passes (train_init net0) = train_init net0.
Proof.
  intros passes net0 H. induction H as [|p passes Hp Hrest IH].
  - reflexivity.
  - unfold checkpoints. cbn [fold_left].
    rewrite checkpoint_keeps; [exact IH|].
    cbn [train_init best_jaccard_score]. apply Qle_not_lt. exact Hp.
Qed.

End BestScores.

Lemma best_accuracy_goes_with_best_jaccard_witness :
  let low_accuracy := {| ConfMatrix := [[1]]; NormConfMatrix := [[Some 1%Q]];
                         Accuracy := 0.50; JaccardScore := 0.60 |} in
  let high_accuracy := {| ConfMatrix := [[1]]; NormConfMatrix := [[Some 1%Q]];
                          Accuracy := 0.90; JaccardScore := 0.40 |} in
  let st := checkpoints "DEEPLAB.net"
              [(high_accuracy, high_accuracy); (low_accuracy, low_accuracy)]
              (train_init 0%nat) in
  best_jaccard_score st = 0.60%Q /\ best_accuracy st = 0.50%Q.
Proof.
  intros low_accuracy high_accuracy st.
  destruct (best_accuracy_goes_with_best_jaccard "DEEPLAB.net"
              [(high_accuracy, high_accuracy); (low_accuracy, low_accuracy)]
              0%nat) as [[Hd _]|Hex].
  - vm_compute in Hd. discriminate Hd.
  - vm_compute. split; reflexivity.
Defined.

Lemma no_positive_score_saves_nothing_witness :
  checkpoints "DEEPLAB.net"
              [(Sample.scored 0, Sample.scored 0.3);
               (Sample.scored 0, Sample.scored 0.5)] (train_init 0%nat)
  = train_init 0%nat.
Proof.
  apply (no_positive_score_saves_nothing "DEEPLAB.net").
  repeat constructor; cbn; discriminate.
Defined.

(** ** The files of a checkpoint *)

Lemma substring_prefix (a b : string) :
  String.substring 0 (String.length a) (a ++ b) = a.
Proof.
  induction a as [|c a IH]; simpl.
  - destruct b; reflexivity.
  - f_equal. exact IH.
Qed.

Lemma length_append (a b : string) :
  String.length (a ++ b) = (String.length a + String.length b)%nat.
Proof.
  induction a as [|c a IH]; simpl; [reflexivity | f_equal; exact IH].
Qed.

Lemma py_prefix_drops_extension (stem ext : string) :
  String.length ext = 4%nat ->
  py_prefix (stem ++ ext) (Z.of_nat (String.length (stem ++ ext)) - 4) = stem.
Proof.
  intros Hext. unfold py_prefix. rewrite length_append, Hext.
  replace (Z.of_nat (String.length stem + 4) - 4)
    with (Z.of_nat (String.length stem)) by lia.
  replace (Z.of_nat (String.length stem) <? 0) with false
    by (symmetry; apply Z.ltb_ge; lia).
  rewrite Z.min_l by lia. rewrite Nat2Z.id. apply substring_prefix.
Qed.

(** X13. When the network is saved under a name that ends in an
    extension of four characters (as ".net"), an improving validation pass
    writes the network under that name and the two reports under the name
    without the extension followed by "-val-metrics.txt" and
    "-train-metrics.txt". *)
Theorem checkpoint_file_names :
  forall (network : Type) (stem ext : string) (mv mt : metrics)
         (st : train_state network),
    String.length ext = 4%nat ->
    (best_jaccard_score st < JaccardScore mv)%Q ->
    disk (checkpoint (stem ++ ext) mv mt st)
    = disk st ++ [TorchSave (stem ++ ext) (net st);
                  SaveMetrics (stem ++ "-val-metrics.txt") mv;
                  SaveMetrics (stem ++ "-train-metrics.txt") mt].
Proof.
  intros network stem ext mv mt st Hext Hlt.
  rewrite (checkpoint_improves _ _ _ _ Hlt). cbn [disk].
  rewrite (py_prefix_drops_extension _ _ Hext). reflexivity.
Qed.

Lemma checkpoint_file_names_witness :
  disk (checkpoint ("DEEPLAB_lr=5e-05_L2=0.0005GDL+B_90" ++ ".net")
                   (Sample.scored 0.40) (Sample.scored 0.30)
                   (train_init 0%nat))
  = [TorchSave "DEEPLAB_lr=5e-05_L2=0.0005GDL+B_90.net" 0%nat;
     SaveMetrics "DEEPLAB_lr=5e-05_L2=0.0005GDL+B_90-val-metrics.txt"
                 (Sample.scored 0.40);
     SaveMetrics "DEEPLAB_lr=5e-05_L2=0.0005GDL+B_90-train-metrics.txt"
                 (Sample.scored 0.30)].
Proof.
  apply (checkpoint_file_names nat "DEEPLAB_lr=5e-05_L2=0.0005GDL+B_90" ".net"
           (Sample.scored 0.40) (Sample.scored 0.30) (train_init 0%nat)).
  - reflexivity.
  - reflexivity.
Defined.

(** X14. A name of fewer than four characters does not fail: the slice
    of line 340 takes a negative bound, which Python counts from the end,
    so a name of three characters keeps its first two and a shorter name
    keeps nothing, and the reports are written under what is left. *)
Theorem short_network_name_is_cut_from_the_end :
  forall (name : string),
    (String.length name < 4)%nat ->
    py_prefix name (Z.of_nat (String.length name) - 4)
    = String.substring 0 (2 * String.length name - 4) name.
Proof.
  intros name H. unfold py_prefix.
  replace (Z.of_nat (String.length name) - 4 <? 0) with true
    by (symmetry; apply Z.ltb_lt; lia).
  f_equal. lia.
Qed.

Lemma short_network_name_is_cut_from_the_end_witness :
  py_prefix "abc" (Z.of_nat (String.length "abc") - 4) = "ab"%string
  /\ py_prefix "ab" (Z.of_nat (String.length "ab") - 4) = ""%string.
Proof.
  split.
  - rewrite (short_network_name_is_cut_from_the_end "abc");
      [reflexivity | cbn; lia].
  - rewrite (short_network_name_is_cut_from_the_end "ab");
      [reflexivity | cbn; lia].
Defined.

(** ** The loss schedule and the weights of the generalized Dice loss *)

Ltac Q_to_Z :=
  unfold Qlt, Qle, Qminus, Qplus, Qdiv, Qmult, Qinv, Qopp, inject_Z in *;
  simpl in *.

(** X15. From the switch epoch on, the mixing coefficient of the
    DICE+BOUNDARY policy stays between 0 and 1; over the ten epochs after
    the switch it is [1 - (epoch - epochs_switch) / 10]; and it never goes
    up from one epoch to a later one. *)
Theorem mix_alpha_decays_linearly :
  forall (epoch later epochs_switch : Z),
    (epochs_switch <= epoch -> (0 <= mix_alpha epoch epochs_switch <= 1)%Q)
    /\ (epochs_switch <= epoch <= epochs_switch + 10 ->
        (mix_alpha epoch epochs_switch
         == 1 - inject_Z (epoch - epochs_switch) / 10)%Q)
    /\ (epoch <= later ->
        (mix_alpha later epochs_switch <= mix_alpha epoch epochs_switch)%Q).
Proof.
  intros epoch later epochs_switch. split; [|split].
  - apply mix_alpha_range.
  - intros H. unfold mix_alpha.
    destruct (Qlt_bool (1 - inject_Z (epoch - epochs_switch) / 10) 0) eqn:E;
      [|reflexivity].
    apply Qlt_bool_iff in E. exfalso. Q_to_Z. lia.
  - intros H. unfold mix_alpha.
    destruct (Qlt_bool (1 - inject_Z (later - epochs_switch) / 10) 0) eqn:E1;
      destruct (Qlt_bool (1 - inject_Z (epoch - epochs_switch) / 10) 0) eqn:E2;
      try apply Qlt_bool_iff in E1; try apply Qlt_bool_false_iff in E1;
      try apply Qlt_bool_iff in E2; try apply Qlt_bool_false_iff in E2;
      Q_to_Z; lia.
Qed.

Lemma mix_alpha_decays_linearly_witness :
  (0 <= mix_alpha 11 8 <= 1)%Q
  /\ (mix_alpha 11 8 == 7 # 10)%Q
  /\ (mix_alpha 15 8 <= mix_alpha 11 8)%Q.
Proof.
  destruct (mix_alpha_decays_linearly 11 15 8) as (Hrange & Hlin & Hmono).
  split; [apply Hrange; lia|].
  split; [rewrite Hlin by lia; reflexivity|].
  apply Hmono. lia.
Defined.





(** ** More on the classifier metadata *)

Section ClassifierInfoMore.

Variable json_dumps : pyval -> result string.
Variable json_loads : string -> result pyval.


(** X18. A file whose JSON text is not an object (a list, a number, a
    string, [null]) makes the reader raise [TypeError] at the first key;
    the dataset and the world are as they were. *)
Theorem read_non_object_raises_TypeError :
  forall (filename text : string) (v : pyval) (ds : dataset) (w : world),
    files w !! filename = Some text ->
    json_loads text = Ok v ->
    match v with
    | PyDict _ | NdArray _ | NdScalar _ => False
    | _ => True
    end ->
    readClassifierInfo json_loads filename ds w = (Raise "TypeError", ds, w).
Proof.
  intros filename text v ds w Hfile Hjson Hv. unfold readClassifierInfo.
  rewrite Hfile, Hjson. destruct v; try contradiction; reflexivity.
Qed.

(** X19. The reader writes no file, whatever it is given, and prints at
    most the one line of the decoding failure. *)
Theorem read_changes_no_file :
  forall (filename : string) (ds : dataset) (w : world),
    let w' := snd (readClassifierInfo json_loads filename ds w) in
    files w' = files w
    /\ (stdout w' = stdout w
        \/ stdout w' = stdout w ++ ["File not found (!)"%string]).
Proof.
  intros filename ds w. unfold readClassifierInfo.
  destruct (files w !! filename) as [text|]; [|cbn; auto].
  destruct (json_loads text) as [v|e].
  - destruct (py_getitem v "Num. Classes"); [|cbn; auto].
    destruct (py_getitem v "Weights"); [|cbn; auto].
    destruct (py_getitem v "Average"); [|cbn; auto].
    destruct (py_getitem v "Classes"); cbn; auto.
  - destruct (String.eqb e "JSONDecodeError"); cbn; auto.
Qed.

(** X20. The writer builds the whole text before it opens the file: when
    [list(...)] or [json.dumps] raises, the exception is passed on and no
    file is touched, an older file of the same name included; when it
    returns, the named file holds the text of the dictionary and every
    other file is as it was. Nothing is printed. *)
Theorem write_touches_one_file_or_none :
  forall (filename classifier_name : string) (ds : dataset) (w : world),
    let written := writeClassifierInfo json_dumps filename classifier_name
                                       ds w in
    match fst written with
    | Raise _ => snd written = w
    | Ok _ =>
        exists d text,
          dict_to_save classifier_name ds = Ok d
          /\ json_dumps d = Ok text
          /\ files (snd written) !! filename = Some text
          /\ (forall other, other <> filename ->
                            files (snd written) !! other = files w !! other)
          /\ stdout (snd written) = stdout w
    end.
Proof.
  intros filename classifier_name ds w. unfold writeClassifierInfo.
  destruct (dict_to_save classifier_name ds) as [d|e] eqn:Ed; [|reflexivity].
  destruct (json_dumps d) as [text|e] eqn:Et; [|reflexivity].
  cbn [fst snd]. exists d, text. unfold write_file. cbn [files stdout].
  split; [reflexivity|]. split; [exact Et|]. split; [|split].
  - apply lookup_insert_eq.
  - intros other Hne. apply lookup_insert_ne. congruence.
  - reflexivity.
Qed.

(** X21. A dataset whose weights or average are not a sequence ([None],
    a number) cannot be written: the writer raises [TypeError], from
    [list(...)], and leaves the files as they were. *)
Theorem write_needs_sequences :
  forall (filename classifier_name : string) (ds : dataset) (w : world),
    (match weights ds with
     | PyList _ | NdArray _ | PyStr _ | PyDict _ => False
     | _ => True
     end
     \/ match dataset_average ds with
        | PyList _ | NdArray _ | PyStr _ | PyDict _ => False
        | _ => True
        end) ->
    writeClassifierInfo json_dumps filename classifier_name ds w
    = (Raise "TypeError", w).
Proof.
  intros filename classifier_name ds w H.
  unfold writeClassifierInfo, dict_to_save.
  destruct H as [H|H].
  - destruct (weights ds); try contradiction; reflexivity.
  - destruct (dataset_average ds); try contradiction;
      destruct (py_list (weights ds)) as [l|e] eqn:E; cbn [rbind];
      try reflexivity;
      destruct (weights ds); cbn in E; inversion E; reflexivity.
Qed.

End ClassifierInfoMore.


Lemma read_non_object_raises_TypeError_witness :
  let ds := {| num_classes := PyInt 0; weights := PyNone;
               dataset_average := PyNone; dict_target := PyNone |} in
  let w := {| files := {[ "classifier.json"%string := "[4, 0.5]"%string ]};
              stdout := [] |} in
  readClassifierInfo SampleJson.loads "classifier.json" ds w
  = (Raise "TypeError", ds, w).
Proof.
  intros ds w.
  apply (read_non_object_raises_TypeError SampleJson.loads "classifier.json"
           "[4, 0.5]" (PyList [PyInt 4; PyFloat (1 # 2)]) ds w).
  - reflexivity.
  - vm_compute. reflexivity.
  - exact I.
Defined.

Lemma write_needs_sequences_witness :
  let ds := {| num_classes := PyInt 4; weights := PyNone;
               dataset_average := PyList [PyFloat 1];
               dict_target := PyDict [] |} in
  let w := {| files := {[ "classifier.json"%string := "{}"%string ]};
              stdout := [] |} in
  writeClassifierInfo SampleJson.dumps "classifier.json" "GDL+B_90" ds w
  = (Raise "TypeError", w).
Proof.
  intros ds w.
  apply (write_needs_sequences SampleJson.dumps "classifier.json" "GDL+B_90"
           ds w).
  left. exact I.
Defined.

(** ** The best score over a whole run *)

Section RunMore.

Context {image outputs network : Type}.
Variable torch : torch_api image outputs network.
Variable losses : losses_module outputs (list (list Z)).
Variable dataloaderTrain dataloaderVal : dataloader image.
Variable dataset_weights : list Q.
Variable dataset_num_classes : nat.
Variable save_network_as : string.
Variable batch_mult validation_frequency epochs_switch : Z.
Variable loss_to_use : string.

Lemma checkpoint_extends_disk (mv mt : metrics) (st : train_state network) :
  exists more, disk (checkpoint save_network_as mv mt st) = disk st ++ more.
Proof.
  unfold checkpoint. cbv zeta. destruct (Qlt_bool _ _).
  - eexists. reflexivity.
  - exists []. symmetry. apply app_nil_r.
Qed.

Lemma training_epoch_extends_disk (epoch : Z) (st st' : train_state network) :
  training_epoch torch losses dataloaderTrain dataloaderVal dataset_weights
                 dataset_num_classes save_network_as batch_mult
                 validation_frequency epochs_switch loss_to_use epoch st
  = Ok st' ->
  exists more, disk st' = disk st ++ more.
Proof.
  unfold training_epoch. intros H.
  destruct (train_epoch _ _ _ _ _ _ _ _ st) as [st1|e] eqn:E;
    cbn [rbind] in H; [|discriminate].
  apply train_epoch_keeps_best in E. destruct E as [_ E]. rewrite <- E.
  assert (Hsame : Ok st1 = Ok st' -> exists more, disk st' = disk st1 ++ more).
  { intros Heq. inversion Heq. exists []. symmetry. apply app_nil_r. }
  destruct (0 <? epoch); [|exact (Hsame H)].
  destruct (validation_frequency =? 0); [discriminate|].
  destruct (_ mod validation_frequency =? 0); [|exact (Hsame H)].
  apply validation_checkpoints in H.
  destruct H as (mv & mt & lv & st2 & _ & _ & Hd & _ & _ & Hst).
  rewrite Hst, <- Hd. apply checkpoint_extends_disk.
Qed.

(** X22. Over a whole run that ends (training epochs, evaluations and
    checkpoints together), the best Jaccard score never goes down and
    nothing that was saved is taken back: the writes at the end start with
    the writes at the beginning. *)
Theorem run_keeps_its_best :
  forall (epochs : Z) (st st' : train_state network),
    training_loop torch losses dataloaderTrain dataloaderVal dataset_weights
                  dataset_num_classes save_network_as batch_mult
                  validation_frequency epochs_switch loss_to_use epochs st
    = Ok st' ->
    (best_jaccard_score st <= best_jaccard_score st')%Q
    /\ exists more, disk st' = disk st ++ more.
Proof.
  intros epochs st st' H. split.
  - exact (training_loop_best_le _ _ _ _ _ _ _ _ _ _ _ _ _ _ H).
  - unfold training_loop in H. revert st H.
    induction (map Z.of_nat (seq 0 (Z.to_nat epochs))) as [|epoch l IH];
      intros st H; cbn [for_each] in H.
    + inversion H. exists []. symmetry. apply app_nil_r.
    + destruct (training_epoch _ _ _ _ _ _ _ _ _ _ _ _ st) as [st1|e] eqn:E;
        cbn [rbind] in H; [|discriminate].
      destruct (training_epoch_extends_disk _ _ _ E) as [m1 H1].
      destruct (IH _ H) as [m2 H2].
      exists (m1 ++ m2). rewrite H2, H1, app_assoc. reflexivity.
Qed.

End RunMore.

Lemma run_keeps_its_best_witness :
  let loader := Sample.loader (repeat (Sample.one_batch [0] [0]) 3) in
  exists st' : train_state nat,
    training_loop Sample.torch Sample.losses loader loader [1; 1]%Q 1
                  "DEEPLAB.net" 8 5 8 "DICE" 20 (train_init 0%nat) = Ok st'
    /\ (0 <= best_jaccard_score st')%Q
    /\ length (disk st') = 3%nat.
Proof.
  intros loader.
  destruct (training_loop Sample.torch Sample.losses loader loader [1; 1]%Q 1
              "DEEPLAB.net" 8 5 8 "DICE" 20 (train_init 0%nat))
    as [st'|e] eqn:E; [|vm_compute in E; discriminate E].
  exists st'. split; [reflexivity|].
  split.
  - exact (proj1 (run_keeps_its_best Sample.torch Sample.losses loader loader
                    [1; 1]%Q 1 "DEEPLAB.net" 8 5 8 "DICE" 20
                    (train_init 0%nat) st' E)).
  - vm_compute in E. inversion E. reflexivity.
Defined.

(** ** The confusion matrix across the batches *)

Lemma combine_app_same {A B : Type} (a b : list A) (c d : list B) :
  length a = length c ->
  combine (a ++ b) (c ++ d) = combine a c ++ combine b d.
Proof.
  revert c. induction a as [|x a IH]; intros c H; destruct c as [|y c];
    try discriminate; [reflexivity|].
  cbn [app combine]. f_equal. apply IH. cbn in H. lia.
Qed.

Lemma count_pairs_app (t p : Z) (a b c d : list Z) :
  length a = length c ->
  count_pairs t p (a ++ b) (c ++ d) = count_pairs t p a c + count_pairs t p b d.
Proof.
  intros H. unfold count_pairs.
  rewrite (combine_app_same a b c d H), List.filter_app, length_app. lia.
Qed.

Lemma zip_with_map {A B : Type} (f : B -> B -> B) (g h : A -> B) (l : list A) :
  zip_with f (map g l) (map h l) = map (fun x => f (g x) (h x)) l.
Proof.
  induction l as [|x l IH]; cbn [map zip_with]; [|rewrite IH]; reflexivity.
Qed.

Lemma count_table_app (labels a b c d : list Z) :
  length a = length c ->
  mat_add (count_table labels a c) (count_table labels b d)
  = count_table labels (a ++ b) (c ++ d).
Proof.
  intros H. unfold mat_add, count_table. rewrite zip_with_map.
  apply map_ext. intros t. rewrite zip_with_map. apply map_ext. intros p.
  symmetry. apply count_pairs_app. exact H.
Qed.

Lemma count_table_nil (n : nat) :
  np_zeros n = count_table (map Z.of_nat (seq 0 n)) [] [].
Proof.
  unfold np_zeros, count_table.
  assert (Hconst : forall (A B : Type) (x : B) (l : list A),
             map (fun _ => x) l = repeat x (length l)).
  { intros A B x l. induction l as [|y l IH]; cbn; [|rewrite IH]; reflexivity. }
  rewrite (map_ext _ (fun _ => repeat 0 n)).
  - rewrite Hconst, length_map, length_seq. reflexivity.
  - intros t. rewrite (map_ext _ (fun _ => 0)) by reflexivity.
    rewrite Hconst, length_map, length_seq. reflexivity.
Qed.

Lemma confusion_matrix_ok (y_true y_pred labels : list Z) (M : matrix) :
  confusion_matrix y_true y_pred labels = Ok M ->
  M = count_table labels y_true y_pred /\ length y_true = length y_pred.
Proof.
  unfold confusion_matrix. intros H.
  destruct (length y_true =? length y_pred)%nat eqn:E; cbn [negb] in H;
    [|discriminate].
  destruct (forallb _ labels); [discriminate|].
  inversion H. split; [reflexivity|]. apply Nat.eqb_eq. exact E.
Qed.

Lemma map_nth_seq {A : Type} (d : A) (l : list A) :
  map (fun j => nth j l d) (seq 0 (length l)) = l.
Proof.
  induction l as [|x l IH]; [reflexivity|].
  cbn [length seq map nth]. f_equal.
  rewrite <- seq_shift, map_map. exact IH.
Qed.

(** ** The pixels that the confusion matrix counts *)

Lemma Zsum_app (a b : list Z) : Zsum (a ++ b) = Zsum a + Zsum b.
Proof.
  induction a as [|x a IH]; cbn [app Zsum fold_right]; [reflexivity|].
  fold (Zsum (a ++ b)). fold (Zsum a). lia.
Qed.

Lemma Zsum_map_add {A : Type} (f g : A -> Z) (l : list A) :
  Zsum (map (fun x => f x + g x) l) = Zsum (map f l) + Zsum (map g l).
Proof.
  induction l as [|x l IH]; cbn [map Zsum fold_right]; [reflexivity|].
  fold (Zsum (map (fun x => f x + g x) l)). fold (Zsum (map f l)).
  fold (Zsum (map g l)). lia.
Qed.

Lemma Zsum_map_zero {A : Type} (l : list A) : Zsum (map (fun _ => 0) l) = 0.
Proof. induction l as [|x l IH]; cbn [map Zsum fold_right]; [|fold (Zsum (map (fun _ : A => 0) l))]; lia. Qed.

(** Over the classes [0 .. n-1], the sum of [c] at the class equal to [b]
    is [c] when [b] is a class and nothing otherwise. *)
Lemma indicator_sum (n : nat) (b c : Z) :
  Zsum (map (fun p => if b =? p then c else 0) (map Z.of_nat (seq 0 n)))
  = if (0 <=? b) && (b <? Z.of_nat n) then c else 0.
Proof.
  induction n as [|n IH].
  - cbn [seq map Zsum fold_right].
    destruct (Z.leb_spec 0 b), (Z.ltb_spec b (Z.of_nat 0)); cbn [andb]; lia.
  - rewrite seq_S, !map_app, Zsum_app, IH. cbn [Nat.add map Zsum fold_right].
    destruct (Z.eqb_spec b (Z.of_nat n)), (Z.leb_spec 0 b),
      (Z.ltb_spec b (Z.of_nat n)), (Z.ltb_spec b (Z.of_nat (S n)));
      cbn [andb]; lia.
Qed.

Lemma count_table_sum (n : nat) (y_true y_pred : list Z) :
  mat_sum (count_table (map Z.of_nat (seq 0 n)) y_true y_pred)
  = Z.of_nat (length (List.filter (both_classes n) (combine y_true y_pred))).
Proof.
  unfold mat_sum, count_table, count_pairs. rewrite map_map.
  induction (combine y_true y_pred) as [|[a b] L IH].
  - cbn [List.filter length].
    rewrite (map_ext _ (fun _ => 0)); [apply Zsum_map_zero|].
    intros t. apply Zsum_map_zero.
  - rewrite (map_ext _
               (fun t => (if a =? t
                          then (if (0 <=? b) && (b <? Z.of_nat n)
                                then 1 else 0)
                          else 0)
                         + Zsum (map (fun p =>
                                        Z.of_nat (length
                                          (List.filter
                                             (fun tp => (fst tp =? t)
                                                        && (snd tp =? p)) L)))
                                     (map Z.of_nat (seq 0 n))))).
    + rewrite Zsum_map_add, IH, indicator_sum.
      cbn [List.filter]. unfold both_classes at 2. cbn [fst snd].
      destruct ((0 <=? a) && (a <? Z.of_nat n));
        destruct ((0 <=? b) && (b <? Z.of_nat n)); cbn [andb length]; lia.
    + intros t.
      rewrite (map_ext _
                 (fun p => (if b =? p then (if a =? t then 1 else 0) else 0)
                           + Z.of_nat (length
                                (List.filter
                                   (fun tp => (fst tp =? t) && (snd tp =? p))
                                   L)))).
      * rewrite Zsum_map_add, indicator_sum.
        destruct (a =? t), ((0 <=? b) && (b <? Z.of_nat n)); reflexivity.
      * intros p. cbn [List.filter fst snd].
        destruct (a =? t), (b =? p); cbn [andb length]; lia.
Qed.

Section ConfusionAcrossBatches.

Context {image outputs : Type}.
Variable predictions_of : outputs -> list (list Z).
Variable CrossEntropyLoss : list Q -> outputs -> list (list Z) -> Q.

(** The loop of lines 109-114 over the images [i .. i+k-1] of a batch adds
    their pixels to the table. *)
Lemma confusion_loop (class_indices : list Z) (preds labels : list (list Z))
    (k : nat) :
  forall (i : nat) (s s' : eval_state) (A B : list Z),
    length A = length B ->
    CM s = count_table class_indices A B ->
    for_each
      (fun i s =>
         do pred_index <- py_index preds i;
         do true_index <- py_index labels i;
         do confmat <- confusion_matrix true_index pred_index class_indices;
         Ok {| CM := mat_add (CM s) confmat;
               ypred_list := ypred_list s; ytrue_list := ytrue_list s;
               loss_values := loss_values s; saved := saved s |})
      (seq i k) s = Ok s' ->
    let ls := map (fun j => nth j labels []) (seq i k) in
    let ps := map (fun j => nth j preds []) (seq i k) in
    CM s' = count_table class_indices (A ++ concat ls) (B ++ concat ps)
    /\ length (concat ls) = length (concat ps)
    /\ ypred_list s' = ypred_list s /\ ytrue_list s' = ytrue_list s
    /\ (k = 0%nat \/ (i + k <= length labels /\ i + k <= length preds)%nat).
Proof.
  induction k as [|k IH]; intros i s s' A B Hlen Hcm H; cbv zeta.
  - cbn [seq for_each] in H. inversion H. subst s'. cbn [seq map concat].
    rewrite !app_nil_r. repeat split; auto.
  - cbn [seq for_each] in H. unfold py_index in H at 1 2.
    destruct (nth_error preds i) as [p|] eqn:Ep; cbn [rbind] in H;
      [|discriminate].
    destruct (nth_error labels i) as [l|] eqn:El; cbn [rbind] in H;
      [|discriminate].
    destruct (confusion_matrix l p class_indices) as [M|] eqn:Ec;
      cbn [rbind] in H; [|discriminate].
    apply confusion_matrix_ok in Ec. destruct Ec as [HM Hlp]. subst M.
    apply (IH (S i) _ s' (A ++ l) (B ++ p)) in H.
    + cbv zeta in H. destruct H as (H1 & H2 & H3 & H4 & H5).
      cbn [ypred_list ytrue_list] in H3, H4.
      cbn [seq map concat].
      rewrite (nth_error_nth labels i [] El), (nth_error_nth preds i [] Ep).
      rewrite !app_assoc. split; [exact H1|].
      split; [rewrite !length_app; lia|].
      split; [exact H3|]. split; [exact H4|]. right.
      assert (i < length labels)%nat by (apply nth_error_Some; congruence).
      assert (i < length preds)%nat by (apply nth_error_Some; congruence).
      destruct H5 as [H5|H5]; lia.
    + rewrite !length_app. lia.
    + cbn [CM]. rewrite Hcm. apply count_table_app. exact Hlen.
Qed.

(** X23. Counting image by image and batch by batch gives the counts of
    the whole split: when no batch is larger than the batch size, the
    confusion matrix after the loop is the table of the pairs (true label,
    predicted label) over the two flattened arrays that the Jaccard score
    is computed from, which have the same length; its entries sum to the
    number of pixels whose true and predicted labels are both classes, the
    ignored pixels left out. *)
Theorem confusion_matrix_counts_the_split :
  forall (loader : dataloader image) (weights : list Q) (nclasses : nat)
         (net : list image -> outputs) (savefolder : string) (s : eval_state),
    Forall (fun data =>
              (length (batch_labels data) <= batch_size loader
               /\ length (predictions_of (net (batch_image data)))
                  <= batch_size loader)%nat)
           (batches loader) ->
    eval_loop image outputs predictions_of CrossEntropyLoss loader weights
              nclasses net false savefolder = Ok s ->
    CM s = count_table (map Z.of_nat (seq 0 nclasses))
                       (ytrue_list s) (ypred_list s)
    /\ length (ytrue_list s) = length (ypred_list s)
    /\ mat_sum (CM s)
       = Z.of_nat (length (List.filter (both_classes nclasses)
                                       (combine (ytrue_list s)
                                                (ypred_list s)))).
Proof.
  intros loader weights nclasses net savefolder s Hsizes H.
  enough (Htable : CM s = count_table (map Z.of_nat (seq 0 nclasses))
                                      (ytrue_list s) (ypred_list s)
                   /\ length (ytrue_list s) = length (ypred_list s)).
  { destruct Htable as [Ht Hl]. split; [exact Ht|]. split; [exact Hl|].
    rewrite Ht. apply count_table_sum. }
  unfold eval_loop in H.
  apply (for_each_invariant
           (fun t => CM t = count_table (map Z.of_nat (seq 0 nclasses))
                                        (ytrue_list t) (ypred_list t)
                     /\ length (ytrue_list t) = length (ypred_list t)))
    in H; [exact H | | split; [apply count_table_nil | reflexivity]].
  clear H s. intros data t t' Hin [Hcm Hlen] H.
  rewrite List.Forall_forall in Hsizes. destruct (Hsizes data Hin) as [Hl Hp].
  unfold eval_batch in H. cbn [negb] in H.
  match type of H with
  | rbind ?r _ = _ => destruct r as [s1|e] eqn:E1; cbn [rbind] in H;
                      [|discriminate]
  end.
  apply (confusion_loop _ _ _ _ 0 _ s1 (ytrue_list t) (ypred_list t)) in E1;
    [|exact Hlen | exact Hcm].
  cbv zeta in E1. destruct E1 as (H1 & H2 & H3 & H4 & H5).
  cbn [ypred_list ytrue_list] in H3, H4.
  assert (Hall : map (fun j => nth j (batch_labels data) [])
                     (seq 0 (batch_size loader)) = batch_labels data
                 /\ map (fun j => nth j (predictions_of
                                           (net (batch_image data))) [])
                        (seq 0 (batch_size loader))
                    = predictions_of (net (batch_image data))).
  { destruct H5 as [H5|[H5 H6]].
    - rewrite H5 in *.
      destruct (batch_labels data); [|cbn in Hl; lia].
      destruct (predictions_of (net (batch_image data))); [|cbn in Hp; lia].
      split; reflexivity.
    - assert (Hbl : batch_size loader = length (batch_labels data)) by lia.
      assert (Hbp : batch_size loader
                    = length (predictions_of (net (batch_image data))))
        by lia.
      split; [rewrite Hbl at 1 | rewrite Hbp at 1]; apply map_nth_seq. }
  destruct Hall as [Hls Hps]. rewrite Hls, Hps in H1, H2.
  assert (Hframe : CM t' = CM s1 /\ ypred_list t' = ypred_list s1
                   /\ ytrue_list t' = ytrue_list s1).
  { assert (Hbody : forall i a a',
               (if String.eqb savefolder "" then Ok a
                else
                  do name <- py_index (batch_name data) i;
                  do _ <- py_index (batch_image data) i;
                  Ok {| CM := CM a; ypred_list := ypred_list a;
                        ytrue_list := ytrue_list a;
                        loss_values := loss_values a;
                        saved := saved a ++ [(savefolder, name, i)] |})
               = Ok a' ->
               CM a' = CM a /\ ypred_list a' = ypred_list a
               /\ ytrue_list a' = ytrue_list a).
    { intros i a a' Hb. destruct (String.eqb savefolder "");
        [inversion Hb; auto|].
      destruct (py_index _ i); cbn [rbind] in Hb; [|discriminate].
      destruct (py_index _ i); cbn [rbind] in Hb; [|discriminate].
      inversion Hb. auto. }
    split; [|split].
    - apply (for_each_preserves CM) in H; [exact H|].
      intros i a a' Hb. exact (proj1 (Hbody i a a' Hb)).
    - apply (for_each_preserves ypred_list) in H; [exact H|].
      intros i a a' Hb. exact (proj1 (proj2 (Hbody i a a' Hb))).
    - apply (for_each_preserves ytrue_list) in H; [exact H|].
      intros i a a' Hb. exact (proj2 (proj2 (Hbody i a a' Hb))). }
  destruct Hframe as (Hf1 & Hf2 & Hf3).
  rewrite Hf1, Hf2, Hf3, H3, H4. split; [exact H1|].
  rewrite !length_app. lia.
Qed.

End ConfusionAcrossBatches.

Lemma confusion_matrix_counts_the_split_witness :
  let bs := [Sample.one_batch [0; 1; 1; 0] [0; 1; 0; -1];
             Sample.one_batch [1; 1] [1; 0]] in
  exists s : eval_state,
    eval_loop Sample.image Sample.outputs (fun out => out)
              Sample.cross_entropy (Sample.loader bs) [] 2 Sample.net false ""
    = Ok s
    /\ ytrue_list s = [0; 1; 0; -1; 1; 0]
    /\ ypred_list s = [0; 1; 1; 0; 1; 1]
    /\ CM s = count_table [0; 1] (ytrue_list s) (ypred_list s)
    /\ mat_sum (CM s) = 5.
Proof.
  intros bs.
  destruct (eval_loop Sample.image Sample.outputs (fun out => out)
              Sample.cross_entropy (Sample.loader bs) [] 2 Sample.net false "")
    as [s|e] eqn:E; [|vm_compute in E; discriminate E].
  exists s. split; [reflexivity|].
  split; [vm_compute in E; inversion E; reflexivity|].
  split; [vm_compute in E; inversion E; reflexivity|].
  destruct (confusion_matrix_counts_the_split (fun out => out)
              Sample.cross_entropy (Sample.loader bs) [] 2 Sample.net "" s)
    as (Htable & _ & Hsum); [repeat constructor | exact E |].
  split; [exact Htable|].
  rewrite Hsum. vm_compute in E. inversion E. reflexivity.
Defined.

(** ** Saving the classification results *)

Lemma for_each_sim {A S T : Type} (R : S -> T -> Prop)
    (f : A -> S -> result S) (g : A -> T -> result T) (l : list A) :
  (forall x s t s', R s t -> f x s = Ok s' ->
                    exists t', g x t = Ok t' /\ R s' t') ->
  forall s t s', R s t -> for_each f l s = Ok s' ->
                 exists t', for_each g l t = Ok t' /\ R s' t'.
Proof.
  intros Hfg. induction l as [|x l IH]; intros s t s' Hst H;
    cbn [for_each] in *.
  - inversion H. subst. exists t. auto.
  - destruct (f x s) as [s1|e] eqn:E; cbn [rbind] in H; [|discriminate].
    destruct (Hfg x s t s1 Hst E) as [t1 [Hg Hr]]. rewrite Hg. cbn [rbind].
    exact (IH s1 t1 s' Hr H).
Qed.

Lemma for_each_skip {A S : Type} (l : list A) (s : S) :
  for_each (fun _ s => Ok s) l s = Ok s.
Proof. induction l as [|x l IH]; cbn [for_each rbind]; [reflexivity | exact IH]. Qed.

Section SavingResults.

Context {image outputs : Type}.
Variable predictions_of : outputs -> list (list Z).
Variable CrossEntropyLoss : list Q -> outputs -> list (list Z) -> Q.

Lemma eval_batch_without_saving (weights : list Q) (class_indices : list Z)
    (bsize : nat) (net : list image -> outputs) (flag : bool)
    (savefolder : string) (data : batch image) (s t s' : eval_state) :
  same_but_saved s t ->
  eval_batch image outputs predictions_of CrossEntropyLoss weights
             class_indices bsize net flag savefolder data s = Ok s' ->
  exists t',
    eval_batch image outputs predictions_of CrossEntropyLoss weights
               class_indices bsize net flag "" data t = Ok t'
    /\ same_but_saved s' t' /\ saved t' = saved t.
Proof.
  intros (Hcm & Hp & Ht & Hl) H. unfold eval_batch in *.
  match type of H with
  | rbind ?r _ = _ => destruct r as [s1|e] eqn:E1; cbn [rbind] in H;
                      [|discriminate]
  end.
  apply (for_each_sim (fun a b => same_but_saved a b /\ saved b = saved t))
    with (t := (if negb flag
                then {| CM := CM t;
                        ypred_list := ypred_list t
                                      ++ concat (predictions_of
                                                   (net (batch_image data)));
                        ytrue_list := ytrue_list t
                                      ++ concat (batch_labels data);
                        loss_values := loss_values t
                                       ++ [CrossEntropyLoss weights
                                             (net (batch_image data))
                                             (batch_labels data)];
                        saved := saved t |}
                else {| CM := CM t; ypred_list := ypred_list t;
                        ytrue_list := ytrue_list t;
                        loss_values := loss_values t
                                       ++ [CrossEntropyLoss weights
                                             (net (batch_image data))
                                             (batch_labels data)];
                        saved := saved t |}))
         (g := fun i s =>
                 do pred_index <- py_index (predictions_of
                                              (net (batch_image data))) i;
                 do true_index <- py_index (batch_labels data) i;
                 do confmat <- confusion_matrix true_index pred_index
                                                class_indices;
                 Ok {| CM := mat_add (CM s) confmat;
                       ypred_list := ypred_list s; ytrue_list := ytrue_list s;
                       loss_values := loss_values s; saved := saved s |})
    in E1.
  - destruct E1 as [t1 [Et1 [Hr1 Hs1]]].
    exists t1. split.
    + destruct flag;
        cbn [negb CM ypred_list ytrue_list loss_values saved] in Et1 |- *;
        rewrite Et1; cbn [rbind String.eqb]; apply for_each_skip.
    + split; [|exact Hs1].
      destruct Hr1 as (Hc1 & Hp1 & Ht1 & Hl1).
      assert (Hbody : forall i a a',
                 (if String.eqb savefolder "" then Ok a
                  else
                    do name <- py_index (batch_name data) i;
                    do _ <- py_index (batch_image data) i;
                    Ok {| CM := CM a; ypred_list := ypred_list a;
                          ytrue_list := ytrue_list a;
                          loss_values := loss_values a;
                          saved := saved a ++ [(savefolder, name, i)] |})
                 = Ok a' ->
                 CM a' = CM a /\ ypred_list a' = ypred_list a
                 /\ ytrue_list a' = ytrue_list a
                 /\ loss_values a' = loss_values a).
      { intros i a a' Hb. destruct (String.eqb savefolder "");
          [inversion Hb; auto|].
        destruct (py_index _ i); cbn [rbind] in Hb; [|discriminate].
        destruct (py_index _ i); cbn [rbind] in Hb; [|discriminate].
        inversion Hb. auto. }
      unfold same_but_saved. rewrite <- Hc1, <- Hp1, <- Ht1, <- Hl1.
      repeat split.
      * apply (for_each_preserves CM) in H; [exact H|].
        intros i a a' Hb. exact (proj1 (Hbody i a a' Hb)).
      * apply (for_each_preserves ypred_list) in H; [exact H|].
        intros i a a' Hb. exact (proj1 (proj2 (Hbody i a a' Hb))).
      * apply (for_each_preserves ytrue_list) in H; [exact H|].
        intros i a a' Hb. exact (proj1 (proj2 (proj2 (Hbody i a a' Hb)))).
      * apply (for_each_preserves loss_values) in H; [exact H|].
        intros i a a' Hb. exact (proj2 (proj2 (proj2 (Hbody i a a' Hb)))).
  - intros i a b a' [(Ha & Hb & Hc & Hd) Hsv] Hstep.
    destruct (py_index (predictions_of _) i); cbn [rbind] in *;
      [|discriminate].
    destruct (py_index (batch_labels data) i); cbn [rbind] in *;
      [|discriminate].
    destruct (confusion_matrix _ _ _); cbn [rbind] in *; [|discriminate].
    inversion Hstep. eexists. split; [reflexivity|].
    unfold same_but_saved. cbn [CM ypred_list ytrue_list loss_values saved].
    rewrite Ha. auto.
  - unfold same_but_saved.
    destruct flag; cbn [negb CM ypred_list ytrue_list loss_values saved];
      rewrite Hcm, Hp, Ht, Hl; auto.
Qed.

(** X24. Saving the classification results does not change what is
    measured: when the evaluation returns with a folder to save into, it
    returns the same metrics and mean loss without one, and then saves
    nothing. *)
Theorem saving_results_changes_no_metric :
  forall (loader : dataloader image) (weights : list Q) (nclasses : nat)
         (net : list image -> outputs) (flag : bool) (savefolder : string)
         (m : metrics) (mean_loss : Q),
    evaluateNetwork image outputs predictions_of CrossEntropyLoss loader
                    weights nclasses net flag savefolder
    = Ok (m, mean_loss) ->
    evaluateNetwork image outputs predictions_of CrossEntropyLoss loader
                    weights nclasses net flag ""
    = Ok (m, mean_loss)
    /\ exists s,
         eval_loop image outputs predictions_of CrossEntropyLoss loader
                   weights nclasses net flag "" = Ok s
         /\ saved s = [].
Proof.
  intros loader weights nclasses net flag savefolder m mean_loss H.
  unfold evaluateNetwork in *.
  destruct (eval_loop _ _ _ _ loader weights nclasses net flag savefolder)
    as [s|e] eqn:E; cbn [rbind] in H; [|discriminate].
  unfold eval_loop in *.
  apply (for_each_sim (fun a b => same_but_saved a b /\ saved b = []))
    with (t := eval_init nclasses)
         (g := eval_batch image outputs predictions_of CrossEntropyLoss
                          weights (map Z.of_nat (seq 0 nclasses))
                          (batch_size loader) net flag "")
    in E.
  - destruct E as [t [Et [(Hc & Hp & Hy & Hl) Hsv]]]. rewrite Et.
    cbn [rbind]. split; [|exists t; auto].
    unfold eval_metrics in *. rewrite <- Hc, <- Hp, <- Hy, <- Hl. exact H.
  - intros data a b a' [Hab Hsv] Hstep.
    destruct (eval_batch_without_saving _ _ _ _ _ _ _ a b a' Hab Hstep)
      as [b' [Hb' [Hr Hs]]].
    exists b'. split; [exact Hb'|]. split; [exact Hr | congruence].
  - unfold same_but_saved. cbn. auto.
Qed.

End SavingResults.

Lemma saving_results_changes_no_metric_witness :
  let bs := [Sample.one_batch [0; 1; 1; 0] [0; 1; 0; -1];
             Sample.one_batch [1; 1] [1; 0]] in
  exists (m : metrics) (mean_loss : Q),
    evaluateNetwork Sample.image Sample.outputs (fun out => out)
                    Sample.cross_entropy (Sample.loader bs) [] 2 Sample.net
                    false "temp" = Ok (m, mean_loss)
    /\ Sample.evaluate bs 2 false = Ok (m, mean_loss).
Proof.
  intros bs.
  destruct (evaluateNetwork Sample.image Sample.outputs (fun out => out)
              Sample.cross_entropy (Sample.loader bs) [] 2 Sample.net
              false "temp") as [[m mean_loss]|e] eqn:E;
    [|vm_compute in E; discriminate E].
  exists m, mean_loss. split; [reflexivity|].
  exact (proj1 (saving_results_changes_no_metric (fun out => out)
                  Sample.cross_entropy (Sample.loader bs) [] 2 Sample.net
                  false "temp" m mean_loss E)).
Defined.

(** ** Degenerate settings *)

Lemma eval_loop_count_matrix {image outputs : Type}
    (predictions_of : outputs -> list (list Z))
    (CrossEntropyLoss : list Q -> outputs -> list (list Z) -> Q)
    (loader : dataloader image) (weights : list Q) (nclasses : nat)
    (net : list image -> outputs) (flag : bool) (savefolder : string)
    (s : eval_state) :
  eval_loop image outputs predictions_of CrossEntropyLoss loader weights
            nclasses net flag savefolder = Ok s ->
  count_matrix nclasses (CM s).
Proof.
  unfold eval_loop. intros E.
  apply (for_each_invariant (fun t => count_matrix nclasses (CM t))) in E;
    [exact E | | apply np_zeros_count_matrix].
  intros data t t' _ Ht Hb.
  assert (Hlen : length (map Z.of_nat (seq 0 nclasses)) = nclasses)
    by (rewrite length_map; apply length_seq).
  rewrite <- Hlen in Ht.
  pose proof (eval_batch_count_matrix _ _ _ _ _ _ _ _ _ _ _ Ht Hb) as Ht'.
  rewrite Hlen in Ht'. exact Ht'.
Qed.

(** X25. With [nclasses = 0] (the class count that [testNetwork] gives its
    dataset before the metadata is read) the evaluation returns nothing,
    whatever the loader and the network: the confusion matrix is empty, so
    it raises, at the latest on the division by its sum. *)
Theorem zero_classes_never_evaluates :
  forall (image outputs : Type)
         (predictions_of : outputs -> list (list Z))
         (CrossEntropyLoss : list Q -> outputs -> list (list Z) -> Q)
         (loader : dataloader image) (weights : list Q)
         (net : list image -> outputs) (flag : bool) (savefolder : string),
    returns (evaluateNetwork image outputs predictions_of CrossEntropyLoss
                             loader weights 0 net flag savefolder)
    = false.
Proof.
  intros image outputs predictions_of CrossEntropyLoss loader weights net
         flag savefolder.
  unfold evaluateNetwork.
  destruct (eval_loop _ _ _ _ loader weights 0 net flag savefolder)
    as [s|e] eqn:E; [|reflexivity].
  apply eval_loop_count_matrix in E. destruct E as [Hlen _].
  destruct (CM s) as [|row M] eqn:Ecm; [|discriminate Hlen].
  cbn [rbind]. unfold eval_metrics. rewrite Ecm.
  destruct (length (loss_values s) =? 0)%nat; cbn [rbind]; [reflexivity|].
  destruct (if negb flag then _ else _); reflexivity.
Qed.

(** X26. An epoch with fewer mini-batches than [batch_mult] never
    updates the network: every mini-batch is run forward and backward, no
    optimizer step is applied, and the gradients are dropped by the reset
    that starts the next epoch. *)
Theorem fewer_batches_than_batch_mult_never_step :
  forall (image outputs network : Type)
         (torch : torch_api image outputs network)
         (losses : losses_module outputs (list (list Z)))
         (dataloaderTrain : dataloader image) (dataset_weights : list Q)
         (batch_mult epochs_switch : Z) (loss_to_use : string) (epoch : Z)
         (st : train_state network),
    Z.of_nat (length (batches dataloaderTrain)) < batch_mult ->
    In loss_to_use ["CROSSENTROPY"; "DICE"; "BOUNDARY"; "DICE+BOUNDARY"]%string ->
    exists st' : train_state network,
      train_epoch torch losses dataloaderTrain dataset_weights batch_mult
                  epochs_switch loss_to_use epoch st = Ok st'
      /\ calls st'
         = calls st
           ++ ZeroGrad :: repeat Backward (length (batches dataloaderTrain))
      /\ accumulated_at_steps (calls st') = accumulated_at_steps (calls st).
Proof.
  intros image outputs network torch losses dataloaderTrain dataset_weights
         batch_mult epochs_switch loss_to_use epoch st Hfew Hknown.
  assert (Hpos : 0 < batch_mult) by lia.
  unfold train_epoch, enumerate.
  destruct (train_batches_calls torch losses dataset_weights batch_mult
              epochs_switch loss_to_use epoch Hpos Hknown
              (batches dataloaderTrain) 0
              (with_running_loss network 0%Q
                 (with_net network (optimizer_zero_grad torch) [ZeroGrad] st))
              0%nat 0%nat (calls st ++ [ZeroGrad]))
    as (st' & q' & r' & Hrun & Hn & Hr & Hcalls).
  - lia.
  - lia.
  - cbn. rewrite app_nil_r. reflexivity.
  - assert (Hq : q' = 0%nat) by nia. subst q'.
    assert (Hr' : r' = length (batches dataloaderTrain)) by lia. subst r'.
    exists st'. split; [exact Hrun|].
    assert (Hc : calls st'
                 = calls st
                   ++ ZeroGrad
                      :: repeat Backward (length (batches dataloaderTrain))).
    { rewrite Hcalls. cbn [repeat concat app]. rewrite <- app_assoc.
      reflexivity. }
    split; [exact Hc|].
    unfold accumulated_at_steps. rewrite Hc, pending_after_zero_grad.
    rewrite <- (app_nil_r (repeat Backward _)), pending_backwards.
    cbn [pending]. apply app_nil_r.
Qed.

Lemma fewer_batches_than_batch_mult_never_step_witness :
  let seven := {| batch_size := 4;
                  batches := repeat (Sample.one_batch [0] [0]) 7 |} in
  exists st' : train_state nat,
    train_epoch Sample.torch Sample.losses seven [1; 1]%Q 8 8 "DICE+BOUNDARY" 0
                (train_init 0%nat) = Ok st'
    /\ accumulated_at_steps (calls st') = []
    /\ net st' = 0%nat.
Proof.
  intros seven.
  destruct (fewer_batches_than_batch_mult_never_step _ _ _ Sample.torch
              Sample.losses seven [1; 1]%Q 8 8 "DICE+BOUNDARY" 0
              (train_init 0%nat)) as (st' & Hrun & _ & Hsteps).
  - cbn. lia.
  - cbn. tauto.
  - exists st'. split; [exact Hrun|]. split; [exact Hsteps|].
    vm_compute in Hrun. inversion Hrun. reflexivity.
Defined.
